(** * WANPTEK power-supply controller and SCPI front end: a shallow embedding

    The development follows the two source files:

    - [wanptek_controller.py]: the MODBUS-RTU frame codec (CRC-16, 16-bit
      word packing), the serial transport ([_send_command]), the status
      decoder ([read_status]) and the read-modify-write [set_output];
    - [wanptek_webapp.py]: the SCPI command processor
      ([SCPICommandProcessor]) and the per-client loop of the SCPI server
      ([SCPIServer._handle_client]).

    Bytes are [Byte.byte], integers are [Z] with the bit operations written
    out, Python floats are IEEE-754 binary64 values ([spec_float] with
    precision 53 and maximal exponent 1024), Python exceptions are the
    constructors of [exn], and stateful code threads the object it mutates
    through a state-and-exception monad. Console output ([print]) is not
    modelled. *)

From Stdlib Require Import ZArith Lia Bool Ascii String List.
From Stdlib Require Import Strings.Byte.
From Stdlib Require Import Floats.SpecFloat.
From Stdlib Require Import DecimalString.
Import ListNotations.

Local Open Scope Z_scope.

(* ================================================================== *)
(** * Exceptions, results and the state monad *)
(* ================================================================== *)

Definition float := spec_float.

(** The exceptions the two modules raise, one constructor per [raise] site
    or per failing builtin. All of them are subclasses of [Exception]. *)
Inductive exn : Type :=
| StructError                              (* struct.error *)
| DeviceNotConnected                       (* Exception("Device not connected") *)
| ReceiveTimeout (received : nat)          (* Exception("Timeout: received only n bytes") *)
| CrcFailed (calculated received : Z)      (* Exception("CRC verification failed: ...") *)
| InvalidLength (got : nat)                (* Exception("Invalid response length: ...") *)
| VoltageExceeds (target maximum : float)  (* ValueError("Voltage ...V exceeds maximum ...V") *)
| CurrentExceeds (target maximum : float)  (* ValueError("Current ...A exceeds maximum ...A") *)
| NegativeSetting                          (* ValueError("Voltage and current must be non-negative") *)
| IntOfNan                                 (* ValueError: cannot convert float NaN to integer *)
| IntOfInfinity                            (* OverflowError: cannot convert float infinity to integer *)
| FloatParse (text : string)               (* ValueError: could not convert string to float *)
| TooManyArguments (method : string).      (* TypeError: m() takes 1 positional argument but 2 were given *)

Inductive result (A : Type) : Type :=
| Ok (a : A)
| Raise (e : exn).
Arguments Ok {A} a.
Arguments Raise {A} e.

(** A method of an object of type [S]: it returns or raises, and in both
    cases leaves the object in a new state. *)
Definition M (S A : Type) : Type := S -> result A * S.

Definition ret {S A} (a : A) : M S A := fun s => (Ok a, s).

Definition raise {S A} (e : exn) : M S A := fun s => (Raise e, s).

Definition bind {S A B} (c : M S A) (k : A -> M S B) : M S B :=
  fun s =>
    match c s with
    | (Ok a, s') => k a s'
    | (Raise e, s') => (Raise e, s')
    end.

Definition get {S} : M S S := fun s => (Ok s, s).

Definition put {S} (s : S) : M S unit := fun _ => (Ok tt, s).

Definition lift {S A} (r : result A) : M S A := fun s => (r, s).

(** [try: c  except Exception as e: h e]. *)
Definition try_except {S A} (c : M S A) (h : exn -> M S A) : M S A :=
  fun s =>
    match c s with
    | (Ok a, s') => (Ok a, s')
    | (Raise e, s') => h e s'
    end.

Declare Scope monad_scope.
Delimit Scope monad_scope with monad.
Notation "x <- c ;; k" := (bind c (fun x => k))
  (at level 61, c at next level, right associativity) : monad_scope.
Notation "c ;;; k" := (bind c (fun _ => k))
  (at level 61, right associativity) : monad_scope.

(** [v if v is not None else d]. *)
Definition if_not_none {A} (v : option A) (d : A) : A :=
  match v with Some a => a | None => d end.

(** Python truthiness of an integer. *)
Definition truthy (z : Z) : bool := negb (z =? 0).

(** The slice [data[i:j]] for [0 <= i <= j]. *)
Definition slice {A} (i j : nat) (data : list A) : list A :=
  firstn (j - i) (skipn i data).

(* ================================================================== *)
(** * Python floats: IEEE-754 binary64 *)
(* ================================================================== *)

Module PyFloat.

Definition prec : Z := 53.
Definition emax : Z := 1024.

(** [float(z)] for an integer; exact below 2^53. *)
Definition of_int (z : Z) : float := binary_normalize prec emax z 0 false.

Definition mul (x y : float) : float := SFmul prec emax x y.

(** [x / y] for a divisor that is not zero (a zero divisor raises
    [ZeroDivisionError] in Python; every divisor below is a power of
    ten). *)
Definition div (x y : float) : float := SFdiv prec emax x y.

(** [a / b] on two integers (true division). *)
Definition true_div (a b : Z) : float := div (of_int a) (of_int b).

Definition lt (x y : float) : bool := SFltb x y.
Definition gt (x y : float) : bool := SFltb y x.

(** [int(x)]: truncation towards zero; NaN and the infinities raise. *)
Definition int (x : float) : result Z :=
  match x with
  | S754_zero _ => Ok 0
  | S754_finite s m e =>
      let magnitude := Z.shiftl (Zpos m) e in
      Ok (if s then - magnitude else magnitude)
  | S754_infinity _ => Raise IntOfInfinity
  | S754_nan => Raise IntOfNan
  end.

Definition nan : float := S754_nan.

End PyFloat.

(* ================================================================== *)
(** * Python string methods *)
(* ================================================================== *)

(** Strings are sequences of ASCII characters. *)
Module PyStr.

Local Open Scope string_scope.

Definition nl : string := String (ascii_of_nat 10) EmptyString.

Definition is_lower (c : ascii) : bool :=
  ((97 <=? nat_of_ascii c) && (nat_of_ascii c <=? 122))%nat.

Definition upper_char (c : ascii) : ascii :=
  if is_lower c then ascii_of_nat (nat_of_ascii c - 32) else c.

(** [s.upper()]. *)
Fixpoint upper (s : string) : string :=
  match s with
  | EmptyString => EmptyString
  | String c rest => String (upper_char c) (upper rest)
  end.

(** The ASCII characters [str.strip()] removes: tab, line feed, vertical
    tab, form feed, carriage return, the four separators 0x1c..0x1f and
    the space. *)
Definition is_space (c : ascii) : bool :=
  let n := nat_of_ascii c in
  (((9 <=? n) && (n <=? 13)) || ((28 <=? n) && (n <=? 31)) || (n =? 32))%nat.

Fixpoint lstrip (s : string) : string :=
  match s with
  | EmptyString => EmptyString
  | String c rest => if is_space c then lstrip rest else s
  end.

Fixpoint rstrip (s : string) : string :=
  match s with
  | EmptyString => EmptyString
  | String c rest =>
      match rstrip rest with
      | EmptyString => if is_space c then EmptyString else String c EmptyString
      | kept => String c kept
      end
  end.

(** [s.strip()]. *)
Definition strip (s : string) : string := rstrip (lstrip s).

(** [s.split(sep)] for a one-character separator. *)
Fixpoint split (sep : ascii) (s : string) : list string :=
  match s with
  | EmptyString => [EmptyString]
  | String c rest =>
      if Ascii.eqb c sep then EmptyString :: split sep rest
      else match split sep rest with
           | first :: others => String c first :: others
           | [] => [String c EmptyString]
           end
  end.

(** [s.split(sep, 1)] when [sep in s], and [None] when [sep not in s]. *)
Fixpoint split1 (sep : ascii) (s : string) : option (string * string) :=
  match s with
  | EmptyString => None
  | String c rest =>
      if Ascii.eqb c sep then Some (EmptyString, rest)
      else match split1 sep rest with
           | Some (before, after) => Some (String c before, after)
           | None => None
           end
  end.

(** [sep.join(parts)]. *)
Definition join (sep : string) (parts : list string) : string :=
  String.concat sep parts.

(** [s.replace(old, new)] for a non-empty [old]: the occurrences of [old]
    are found from the left and do not overlap. [skip] counts the
    characters of a matched occurrence still to be dropped. *)
Fixpoint replace_from (old new : string) (skip : nat) (s : string) : string :=
  match s with
  | EmptyString => EmptyString
  | String c rest =>
      match skip with
      | S k => replace_from old new k rest
      | O =>
          if String.prefix old s
          then new ++ replace_from old new (String.length old - 1) rest
          else String c (replace_from old new 0 rest)
      end
  end.

(** [s.replace(old, new)]; an empty [old] matches before every character
    and at the end. *)
Fixpoint intersperse (new s : string) : string :=
  match s with
  | EmptyString => new
  | String c rest => new ++ String c (intersperse new rest)
  end.

Definition replace (old new s : string) : string :=
  match old with
  | EmptyString => intersperse new s
  | String _ _ => replace_from old new 0 s
  end.

(** [a in x]. *)
Fixpoint contains (a x : string) : bool :=
  match x with
  | EmptyString => String.prefix a x
  | String _ rest => String.prefix a x || contains a rest
  end.

(** [str(n)] for an integer. *)
Definition str_int (z : Z) : string := NilEmpty.string_of_int (Z.to_int z).

End PyStr.

(* ================================================================== *)
(** * The status dictionary returned by [read_status] *)
(* ================================================================== *)

Module Status.

Record t : Type := {
  power_on : bool;
  ocp_enabled : bool;
  keyboard_locked : bool;
  constant_current_mode : bool;
  alarm_active : bool;
  real_voltage : float;
  real_current : float;
  set_voltage : float;
  set_current : float;
  max_voltage : float;
  max_current : float;
  nominal_voltage : Z;
  nominal_current : Z;
  voltage_series : Z;
  current_series : Z;
  model : string;
  real_power : float;
  set_power : float
}.

End Status.

(* ================================================================== *)
(** * wanptek_controller.py: class WanptekPowerSupply *)
(* ================================================================== *)

Module WanptekPowerSupply.

Definition bytes := list byte.

Definition byte_val (b : byte) : Z := Z.of_N (Byte.to_N b).

(** ** The [struct] formats the class uses *)

(** [struct.pack('B', z)]: one unsigned byte, [struct.error] out of
    range. *)
Definition pack_B (z : Z) : result byte :=
  if (0 <=? z) && (z <=? 255) then
    match Byte.of_N (Z.to_N z) with
    | Some b => Ok b
    | None => Raise StructError
    end
  else Raise StructError.

(** [struct.pack('<H', v)] and [struct.pack('>H', v)]. *)
Definition pack_le_H (v : Z) : result bytes :=
  if (0 <=? v) && (v <=? 65535) then
    match pack_B (Z.land v 255), pack_B (Z.shiftr v 8) with
    | Ok lo, Ok hi => Ok [lo; hi]
    | _, _ => Raise StructError
    end
  else Raise StructError.

Definition pack_be_H (v : Z) : result bytes :=
  if (0 <=? v) && (v <=? 65535) then
    match pack_B (Z.land v 255), pack_B (Z.shiftr v 8) with
    | Ok lo, Ok hi => Ok [hi; lo]
    | _, _ => Raise StructError
    end
  else Raise StructError.

(** [struct.unpack('<H', data)[0]] and [struct.unpack('>H', data)[0]]:
    the buffer must hold exactly two bytes. *)
Definition unpack_le_H (data : bytes) : result Z :=
  match data with
  | [lo; hi] => Ok (Z.lor (byte_val lo) (Z.shiftl (byte_val hi) 8))
  | _ => Raise StructError
  end.

Definition unpack_be_H (data : bytes) : result Z :=
  match data with
  | [hi; lo] => Ok (Z.lor (byte_val lo) (Z.shiftl (byte_val hi) 8))
  | _ => Raise StructError
  end.

(** The formats without a byte-order prefix, ['BBHH'], ['BBHHB'] and
    ['BB'], use the host's byte order and alignment: little-endian on the
    x86 and ARM Linux hosts the program runs on, and no padding, since
    both [H] fields start at an even offset. *)
Definition pack_BBHH (a b h1 h2 : Z) : result bytes :=
  match pack_B a, pack_B b, pack_le_H h1, pack_le_H h2 with
  | Ok a', Ok b', Ok h1', Ok h2' => Ok ([a'; b'] ++ h1' ++ h2')
  | _, _, _, _ => Raise StructError
  end.

Definition pack_BBHHB (a b h1 h2 c : Z) : result bytes :=
  match pack_BBHH a b h1 h2, pack_B c with
  | Ok front, Ok c' => Ok (front ++ [c'])
  | _, _ => Raise StructError
  end.

Definition pack_BB (a b : Z) : result bytes :=
  match pack_B a, pack_B b with
  | Ok a', Ok b' => Ok [a'; b']
  | _, _ => Raise StructError
  end.

(** ** The serial port

    [written] logs the buffers handed to [serial.write], oldest first.
    [incoming] is the link's behaviour in the exchanges to come: for each
    exchange, the chunks that the successive [serial.read(1024)] calls
    return while the clock is still within the timeout. When the chunks
    of an exchange are used up, the timeout has expired. *)
Record serial_port : Type := {
  port : string;
  baudrate : Z;
  is_open : bool;
  written : list bytes;
  incoming : list (list bytes)
}.

(** ** The object's attributes *)
Record t : Type := {
  slave_addr : Z;
  serial : option serial_port;
  voltage_decimal_places : nat;
  current_decimal_places : nat;
  voltage_series : Z;
  current_series : Z;
  max_voltage : float;
  max_current : float;
  nominal_voltage : Z;
  nominal_current : Z;
  little_endian : bool;
  device_model : string;
  connected : bool;
  last_status : option Status.t
}.

Definition with_serial (p : serial_port) (self : t) : t :=
  {| slave_addr := slave_addr self;
     serial := Some p;
     voltage_decimal_places := voltage_decimal_places self;
     current_decimal_places := current_decimal_places self;
     voltage_series := voltage_series self;
     current_series := current_series self;
     max_voltage := max_voltage self;
     max_current := max_current self;
     nominal_voltage := nominal_voltage self;
     nominal_current := nominal_current self;
     little_endian := little_endian self;
     device_model := device_model self;
     connected := connected self;
     last_status := last_status self |}.

Definition with_last_status (st : Status.t) (self : t) : t :=
  {| slave_addr := slave_addr self;
     serial := serial self;
     voltage_decimal_places := voltage_decimal_places self;
     current_decimal_places := current_decimal_places self;
     voltage_series := voltage_series self;
     current_series := current_series self;
     max_voltage := max_voltage self;
     max_current := max_current self;
     nominal_voltage := nominal_voltage self;
     nominal_current := nominal_current self;
     little_endian := little_endian self;
     device_model := device_model self;
     connected := connected self;
     last_status := Some st |}.

Definition with_little_endian (b : bool) (self : t) : t :=
  {| slave_addr := slave_addr self;
     serial := serial self;
     voltage_decimal_places := voltage_decimal_places self;
     current_decimal_places := current_decimal_places self;
     voltage_series := voltage_series self;
     current_series := current_series self;
     max_voltage := max_voltage self;
     max_current := max_current self;
     nominal_voltage := nominal_voltage self;
     nominal_current := nominal_current self;
     little_endian := b;
     device_model := device_model self;
     connected := connected self;
     last_status := last_status self |}.

(** The frames written to the link so far. *)
Definition frames_written (self : t) : list bytes :=
  match serial self with
  | Some p => written p
  | None => []
  end.

(** ** [_calculate_crc] *)

(** One pass of the inner [for _ in range(8)] loop body. *)
Definition crc_shift (crc : Z) : Z :=
  if truthy (Z.land crc 1)
  then Z.lxor (Z.shiftr crc 1) 0xA001
  else Z.shiftr crc 1.

(** One pass of the outer [for byte in data] loop body. *)
Definition crc_byte (crc : Z) (b : byte) : Z :=
  Nat.iter 8 crc_shift (Z.lxor crc (byte_val b)).

Definition _calculate_crc (data : bytes) : Z :=
  fold_left crc_byte data 0xFFFF.

(** ** [_pack_word] and [_unpack_word]: the byte order is that of the
    session's [little_endian] attribute. *)
Definition _pack_word (little_endian : bool) (value : Z) : result bytes :=
  if little_endian then pack_le_H value else pack_be_H value.

Definition _unpack_word (little_endian : bool) (data : bytes) : result Z :=
  if little_endian then unpack_le_H data else unpack_be_H data.

(** ** [_send_command] *)

(** The receive loop: [while len(response) < 3 and (time.time() -
    start_time) < self.timeout]. The clock test succeeds as long as the
    exchange has a chunk left. *)
Fixpoint read_response (chunks : list bytes) (response : bytes) : bytes :=
  match chunks with
  | [] => response
  | chunk :: later =>
      if (length response <? 3)%nat
      then read_response later (response ++ chunk)
      else response
  end.

(** [serial.reset_input_buffer(); serial.write(full_command);
    serial.flush()], then the receive loop of this exchange. *)
Definition exchange (full_command : bytes) (p : serial_port)
  : bytes * serial_port :=
  (read_response (hd [] (incoming p)) [],
   {| port := port p;
      baudrate := baudrate p;
      is_open := is_open p;
      written := written p ++ [full_command];
      incoming := tl (incoming p) |}).

(** [not self.connected or not self.serial or not self.serial.is_open]. *)
Definition not_connected (self : t) : bool :=
  negb (connected self) ||
  match serial self with
  | None => true
  | Some p => negb (is_open p)
  end.

Definition _send_command (command : bytes) : M t bytes :=
  fun self =>
    match serial self with
    | None => (Raise DeviceNotConnected, self)
    | Some p =>
        if not_connected self then (Raise DeviceNotConnected, self) else
        (* Add CRC *)
        let crc := _calculate_crc command in
        match pack_le_H crc with
        | Raise e => (Raise e, self)
        | Ok crc_bytes =>
            let full_command := command ++ crc_bytes in
            let '(response, p') := exchange full_command p in
            let self' := with_serial p' self in
            if (length response <? 3)%nat
            then (Raise (ReceiveTimeout (length response)), self')
            else
              (* Verify CRC *)
              let data_part := firstn (length response - 2) response in
              match unpack_le_H (skipn (length response - 2) response) with
              | Raise e => (Raise e, self')
              | Ok received_crc =>
                  let calculated_crc := _calculate_crc data_part in
                  if negb (received_crc =? calculated_crc)
                  then (Raise (CrcFailed calculated_crc received_crc), self')
                  else (Ok response, self')
              end
        end
    end.

Local Open Scope monad_scope.

(** ** [_read_raw_status] *)

(** [struct.pack('BBHH', self.slave_addr, 0x03, 0x0000, 0x0008)]. *)
Definition status_request (self : t) : result bytes :=
  pack_BBHH (slave_addr self) 0x03 0x0000 0x0008.

Definition _read_raw_status : M t bytes :=
  self <- get ;;
  command <- lift (status_request self) ;;
  response <- _send_command command ;;
  if (length response <? 21)%nat
  then raise (InvalidLength (length response))
  else ret response.

(** ** [read_status] *)

(** [data[i]]; [data] has sixteen bytes whenever it is indexed. *)
Definition item (data : bytes) (i : nat) : Z := byte_val (nth i data x00).

Definition flag (status_byte mask : Z) : bool :=
  truthy (Z.land status_byte mask).

Definition read_status : M t Status.t :=
  response <- _read_raw_status ;;
  self <- get ;;
  let data := slice 3 19 response in
  (* Parse status flags (byte 0) *)
  let status_byte := item data 0 in
  let power_on := flag status_byte 0x01 in
  let ocp_enabled := flag status_byte 0x02 in
  let keyboard_locked := flag status_byte 0x04 in
  let constant_current := flag status_byte 0x10 in
  let alarm_active := flag status_byte 0x20 in
  (* Parse measurement values *)
  real_voltage_raw <- lift (_unpack_word (little_endian self) (slice 4 6 data)) ;;
  real_current_raw <- lift (_unpack_word (little_endian self) (slice 6 8 data)) ;;
  set_voltage_raw <- lift (_unpack_word (little_endian self) (slice 8 10 data)) ;;
  set_current_raw <- lift (_unpack_word (little_endian self) (slice 10 12 data)) ;;
  (* Convert to actual values *)
  let voltage_divisor := 10 ^ Z.of_nat (voltage_decimal_places self) in
  let current_divisor := 10 ^ Z.of_nat (current_decimal_places self) in
  let status_dict :=
    {| Status.power_on := power_on;
       Status.ocp_enabled := ocp_enabled;
       Status.keyboard_locked := keyboard_locked;
       Status.constant_current_mode := constant_current;
       Status.alarm_active := alarm_active;
       Status.real_voltage := PyFloat.true_div real_voltage_raw voltage_divisor;
       Status.real_current := PyFloat.true_div real_current_raw current_divisor;
       Status.set_voltage := PyFloat.true_div set_voltage_raw voltage_divisor;
       Status.set_current := PyFloat.true_div set_current_raw current_divisor;
       Status.max_voltage := max_voltage self;
       Status.max_current := max_current self;
       Status.nominal_voltage := nominal_voltage self;
       Status.nominal_current := nominal_current self;
       Status.voltage_series := voltage_series self;
       Status.current_series := current_series self;
       Status.model := device_model self;
       Status.real_power :=
         PyFloat.mul (PyFloat.true_div real_voltage_raw voltage_divisor)
                     (PyFloat.true_div real_current_raw current_divisor);
       Status.set_power :=
         PyFloat.mul (PyFloat.true_div set_voltage_raw voltage_divisor)
                     (PyFloat.true_div set_current_raw current_divisor) |} in
  put (with_last_status status_dict self) ;;;
  ret status_dict.

(** ** [_detect_device_specs] *)

(** The class tables [VOLTAGE_RANGES] and [CURRENT_RANGES]. *)
Definition VOLTAGE_RANGES : list (Z * Z) :=
  [(0, 15); (1, 30); (2, 60); (3, 100); (4, 120);
   (5, 150); (6, 160); (7, 200); (8, 300)].

Definition CURRENT_RANGES : list (Z * Z) :=
  [(0, 1); (1, 2); (2, 3); (3, 5); (4, 6); (5, 10); (6, 20);
   (7, 30); (8, 40); (9, 50); (10, 60); (11, 80); (12, 100); (13, 200)].

(** [table.get(key, default)]. *)
Fixpoint dict_get (table : list (Z * Z)) (key default : Z) : Z :=
  match table with
  | [] => default
  | (k, v) :: later => if k =? key then v else dict_get later key default
  end.

Definition _detect_device_specs : M t unit :=
  status <- _read_raw_status ;;
  self <- get ;;
  (* Extract device specifications *)
  let data := slice 3 19 status in
  (* Parse configuration bytes *)
  let voltage_info := item data 1 in
  let current_info := item data 2 in
  let voltage_decimal_places :=
    if truthy (Z.land (Z.shiftr voltage_info 4) 0x0F) then 1%nat else 2%nat in
  let current_decimal_places :=
    if truthy (Z.land (Z.shiftr current_info 4) 0x0F) then 1%nat else 2%nat in
  let voltage_series := Z.land voltage_info 0x0F in
  let current_series := Z.land current_info 0x0F in
  (* Determine endianness *)
  let status_byte := item data 0 in
  let little_endian := negb (flag status_byte 0x08) in
  (* Get nominal and max values *)
  let nominal_voltage := dict_get VOLTAGE_RANGES voltage_series 0 in
  let nominal_current := dict_get CURRENT_RANGES current_series 0 in
  max_voltage_raw <- lift (_unpack_word little_endian (slice 12 14 data)) ;;
  max_current_raw <- lift (_unpack_word little_endian (slice 14 16 data)) ;;
  let voltage_divisor := 10 ^ Z.of_nat voltage_decimal_places in
  let current_divisor := 10 ^ Z.of_nat current_decimal_places in
  put {| slave_addr := slave_addr self;
         serial := serial self;
         voltage_decimal_places := voltage_decimal_places;
         current_decimal_places := current_decimal_places;
         voltage_series := voltage_series;
         current_series := current_series;
         max_voltage := PyFloat.true_div max_voltage_raw voltage_divisor;
         max_current := PyFloat.true_div max_current_raw current_divisor;
         nominal_voltage := nominal_voltage;
         nominal_current := nominal_current;
         little_endian := little_endian;
         device_model :=
           ("WANPTEK " ++ PyStr.str_int nominal_voltage ++ "V/"
            ++ PyStr.str_int nominal_current ++ "A")%string;
         connected := connected self;
         last_status := last_status self |}.

(** ** [_connect] and [close] *)

(** [if self.serial and self.serial.is_open: self.serial.close()]. *)
Definition close_serial : M t unit :=
  fun self =>
    match serial self with
    | Some p =>
        (Ok tt,
         with_serial {| port := port p; baudrate := baudrate p;
                        is_open := false; written := written p;
                        incoming := incoming p |} self)
    | None => (Ok tt, self)
    end.

Definition set_connected (b : bool) : M t unit :=
  fun self =>
    (Ok tt,
     {| slave_addr := slave_addr self;
        serial := serial self;
        voltage_decimal_places := voltage_decimal_places self;
        current_decimal_places := current_decimal_places self;
        voltage_series := voltage_series self;
        current_series := current_series self;
        max_voltage := max_voltage self;
        max_current := max_current self;
        nominal_voltage := nominal_voltage self;
        nominal_current := nominal_current self;
        little_endian := little_endian self;
        device_model := device_model self;
        connected := b;
        last_status := last_status self |}).

(** [opened] is what [serial.Serial(port=port, baudrate=baudrate, ...)]
    gives: the open port, or the exception of a port that cannot be
    opened. *)
Definition _connect (opened : result serial_port) : M t bool :=
  try_except
    (close_serial ;;;
     p <- lift opened ;;
     (fun self => (Ok tt, with_serial p self)) ;;;
     (* Test communication by reading status *)
     _detect_device_specs ;;;
     set_connected true ;;;
     ret true)
    (fun _ => close_serial ;;; ret false).

Definition close : M t unit :=
  close_serial ;;; set_connected false.

(** ** [set_output] *)

(** The control byte: bit 0 power, bit 1 OCP, bit 2 keyboard lock. *)
Definition build_control_byte (target_power target_ocp target_lock : bool) : Z :=
  let control_byte := 0 in
  let control_byte :=
    if target_power then Z.lor control_byte 0x01 else control_byte in
  let control_byte :=
    if target_ocp then Z.lor control_byte 0x02 else control_byte in
  let control_byte :=
    if target_lock then Z.lor control_byte 0x04 else control_byte in
  control_byte.

(** The range checks, in the order of the three [if ... raise ValueError]
    statements. *)
Definition validate_ranges (self : t) (target_voltage target_current : float)
  : result unit :=
  if PyFloat.gt target_voltage (max_voltage self)
  then Raise (VoltageExceeds target_voltage (max_voltage self))
  else if PyFloat.gt target_current (max_current self)
  then Raise (CurrentExceeds target_current (max_current self))
  else if PyFloat.lt target_voltage (PyFloat.of_int 0)
          || PyFloat.lt target_current (PyFloat.of_int 0)
  then Raise NegativeSetting
  else Ok tt.

(** The write request without its checksum: the header
    [struct.pack('BBHHB', slave_addr, 0x10, 0x0000, 0x0003, 0x06)] followed
    by control byte, reserved byte, voltage word and current word. *)
Definition build_write_command (self : t) (control_byte voltage_raw current_raw : Z)
  : result bytes :=
  match pack_BBHHB (slave_addr self) 0x10 0x0000 0x0003 0x06 with
  | Raise e => Raise e
  | Ok command =>
      match pack_BB control_byte 0x00 with
      | Raise e => Raise e
      | Ok data0 =>
          match _pack_word (little_endian self) voltage_raw with
          | Raise e => Raise e
          | Ok v =>
              match _pack_word (little_endian self) current_raw with
              | Raise e => Raise e
              | Ok c => Ok (command ++ (data0 ++ v) ++ c)
              end
          end
      end
  end.

Definition set_output (voltage current : option float)
    (power_on ocp_enable keyboard_lock : option bool) : M t bool :=
  (* Get current settings for any unspecified parameters *)
  current_status <- read_status ;;
  self <- get ;;
  (* Use provided values or fall back to current settings *)
  let target_voltage := if_not_none voltage (Status.set_voltage current_status) in
  let target_current := if_not_none current (Status.set_current current_status) in
  let target_power := if_not_none power_on (Status.power_on current_status) in
  let target_ocp := if_not_none ocp_enable (Status.ocp_enabled current_status) in
  let target_lock := if_not_none keyboard_lock (Status.keyboard_locked current_status) in
  (* Validate ranges *)
  lift (validate_ranges self target_voltage target_current) ;;;
  (* Convert to raw values *)
  let voltage_divisor := 10 ^ Z.of_nat (voltage_decimal_places self) in
  let current_divisor := 10 ^ Z.of_nat (current_decimal_places self) in
  voltage_raw <- lift (PyFloat.int (PyFloat.mul target_voltage (PyFloat.of_int voltage_divisor))) ;;
  current_raw <- lift (PyFloat.int (PyFloat.mul target_current (PyFloat.of_int current_divisor))) ;;
  (* Build control byte and write command *)
  let control_byte := build_control_byte target_power target_ocp target_lock in
  full_command <- lift (build_write_command self control_byte voltage_raw current_raw) ;;
  try_except
    (response <- _send_command full_command ;;
     ret (8 <=? length response)%nat)
    (fun e => ret false).

(** ** Convenience methods *)
Definition set_voltage (voltage : float) : M t bool :=
  set_output (Some voltage) None None None None.

Definition set_current (current : float) : M t bool :=
  set_output None (Some current) None None None.

Definition power_on : M t bool := set_output None None (Some true) None None.
Definition power_off : M t bool := set_output None None (Some false) None None.
Definition enable_ocp : M t bool := set_output None None None (Some true) None.
Definition disable_ocp : M t bool := set_output None None None (Some false) None.
Definition lock_keyboard : M t bool := set_output None None None None (Some true).
Definition unlock_keyboard : M t bool := set_output None None None None (Some false).

(** ** Quick read methods *)
Definition read_voltage : M t float :=
  status <- read_status ;; ret (Status.real_voltage status).

Definition read_current : M t float :=
  status <- read_status ;; ret (Status.real_current status).

Definition read_power : M t float :=
  status <- read_status ;;
  ret (PyFloat.mul (Status.real_voltage status) (Status.real_current status)).

Definition is_power_on : M t bool :=
  status <- read_status ;; ret (Status.power_on status).

Definition is_constant_current : M t bool :=
  status <- read_status ;; ret (Status.constant_current_mode status).

Definition has_alarm : M t bool :=
  status <- read_status ;; ret (Status.alarm_active status).

(** [get_device_info()['model']], the only entry a caller in these two
    files reads. *)
Definition get_device_info_model (self : t) : string := device_model self.

(** ** [__init__], [_auto_connect] and [reconnect] *)

(** The attributes [__init__] sets before it connects ([last_status] is
    the empty dictionary, [max_voltage] and [max_current] are zero). *)
Definition fresh (slave_addr : Z) : t :=
  {| slave_addr := slave_addr;
     serial := None;
     voltage_decimal_places := 2;
     current_decimal_places := 2;
     voltage_series := 0;
     current_series := 0;
     max_voltage := PyFloat.of_int 0;
     max_current := PyFloat.of_int 0;
     nominal_voltage := 0;
     nominal_current := 0;
     little_endian := true;
     device_model := "Unknown";
     connected := false;
     last_status := None |}.

(** What [serial.Serial(port=port, baudrate=baudrate, ...)] gives for each
    port and speed. *)
Definition opener : Type := string -> Z -> result serial_port.

(** [if preferred_port: [preferred_port] else: find_devices() or the
    fallback]; [found] is what [find_devices()] returns. An empty string is
    falsy. *)
Definition ports_to_try (preferred_port : option string) (found : list string)
  : list string :=
  match preferred_port with
  | Some p =>
      if String.eqb p EmptyString
      then match found with [] => ["/dev/ttyUSB0"%string] | _ => found end
      else [p]
  | None => match found with [] => ["/dev/ttyUSB0"%string] | _ => found end
  end.

(** [if preferred_baudrate: [preferred_baudrate] else: the four standard
    speeds]. Zero is falsy. *)
Definition baudrates_to_try (preferred_baudrate : option Z) : list Z :=
  match preferred_baudrate with
  | Some b => if b =? 0 then [9600; 4800; 19200; 2400] else [b]
  | None => [9600; 4800; 19200; 2400]
  end.

(** The inner [for baudrate in baudrates_to_try] loop; [true] is the
    [return] after a successful [_connect], an exception is the
    [continue]. *)
Fixpoint try_baudrates (open : opener) (port : string) (baudrates : list Z)
    (self : t) : bool * t :=
  match baudrates with
  | [] => (false, self)
  | baudrate :: later =>
      match _connect (open port baudrate) self with
      | (Ok true, self') => (true, self')
      | (_, self') => try_baudrates open port later self'
      end
  end.

(** The outer [for port in ports_to_try] loop. *)
Fixpoint try_ports (open : opener) (ports : list string) (baudrates : list Z)
    (self : t) : bool * t :=
  match ports with
  | [] => (false, self)
  | port :: later =>
      match try_baudrates open port baudrates self with
      | (true, self') => (true, self')
      | (false, self') => try_ports open later baudrates self'
      end
  end.

(** [_auto_connect]: [true] when it returns, [false] when it reaches
    [raise Exception("Could not auto-detect WANPTEK device ...")], the only
    exception it raises. *)
Definition _auto_connect (preferred_port : option string)
    (preferred_baudrate : option Z) (found : list string) (open : opener)
    (self : t) : bool * t :=
  try_ports open (ports_to_try preferred_port found)
            (baudrates_to_try preferred_baudrate) self.

(** How [WanptekPowerSupply(...)] ends. *)
Inductive init_outcome : Type :=
| Constructed (self : t)
| PortRequired           (* ValueError("Port must be specified when auto_detect=False") *)
| CouldNotAutoDetect.    (* the exception of [_auto_connect] *)

Definition __init__ (port : option string) (slave_addr : Z)
    (baudrate : option Z) (auto_detect : bool)
    (found : list string) (open : opener) : init_outcome :=
  let self := fresh slave_addr in
  if auto_detect then
    match _auto_connect port baudrate found open self with
    | (true, self') => Constructed self'
    | (false, _) => CouldNotAutoDetect
    end
  else
    match port with
    | None => PortRequired
    | Some port =>
        let baudrate := if_not_none baudrate 9600 in
        Constructed (snd (_connect (open port baudrate) self))
    end.

(** [reconnect]: a port object has its [port] and [baudrate] attributes. *)
Definition reconnect (open : opener) : M t bool :=
  fun self =>
    match serial self with
    | Some p => _connect (open (port p) (baudrate p)) self
    | None => (Ok false, self)
    end.

(** ** Vocabulary for the statements below *)

(** All the bytes that arrive within the timeout of the next exchange. *)
Definition arrived (p : serial_port) : bytes := concat (hd [] (incoming p)).

(** What the receive loop of the next exchange returns. *)
Definition received (p : serial_port) : bytes :=
  read_response (hd [] (incoming p)) [].

(** The trailing two bytes of a response are the little-endian checksum of
    the bytes before them. *)
Definition checksum_ok (response : bytes) : Prop :=
  exists body lo hi,
    response = body ++ [lo; hi] /\
    byte_val lo + 256 * byte_val hi = _calculate_crc body.

(** The three [ValueError]s of the range validation. *)
Definition is_range_error (e : exn) : bool :=
  match e with
  | VoltageExceeds _ _ | CurrentExceeds _ _ | NegativeSetting => true
  | _ => false
  end.

(** The errors of turning a target into its register word: [int()] of a
    NaN or an infinity, and a word outside 0..65535. *)
Definition is_conversion_error (e : exn) : bool :=
  match e with
  | IntOfNan | IntOfInfinity | StructError => true
  | _ => false
  end.

(** Everything [set_output] does between its status read and its [try]
    block: fill the omitted arguments from the status, validate, convert
    and build the write request. *)
Definition write_request (self : t) (current_status : Status.t)
    (voltage current : option float)
    (power_on ocp_enable keyboard_lock : option bool) : result bytes :=
  let target_voltage := if_not_none voltage (Status.set_voltage current_status) in
  let target_current := if_not_none current (Status.set_current current_status) in
  let target_power := if_not_none power_on (Status.power_on current_status) in
  let target_ocp := if_not_none ocp_enable (Status.ocp_enabled current_status) in
  let target_lock := if_not_none keyboard_lock (Status.keyboard_locked current_status) in
  match validate_ranges self target_voltage target_current with
  | Raise e => Raise e
  | Ok _ =>
      match PyFloat.int (PyFloat.mul target_voltage
              (PyFloat.of_int (10 ^ Z.of_nat (voltage_decimal_places self)))) with
      | Raise e => Raise e
      | Ok voltage_raw =>
          match PyFloat.int (PyFloat.mul target_current
                  (PyFloat.of_int (10 ^ Z.of_nat (current_decimal_places self)))) with
          | Raise e => Raise e
          | Ok current_raw =>
              build_write_command self
                (build_control_byte target_power target_ocp target_lock)
                voltage_raw current_raw
          end
      end
  end.

(** The device profile and the connection flag, everything of the object
    but its port and its last status. *)
Definition profile (self : t) :=
  (slave_addr self, voltage_decimal_places self, current_decimal_places self,
   voltage_series self, current_series self, max_voltage self,
   max_current self, nominal_voltage self, nominal_current self,
   little_endian self, device_model self, connected self).

(** The step that undoes [crc_shift] on 16-bit values: bit 15 of the
    result tells whether 0xA001 was XOR-ed in, that is, which bit was
    shifted out. *)
Definition crc_unshift (crc : Z) : Z :=
  if Z.testbit crc 15
  then 2 * Z.lxor crc 0xA001 + 1
  else 2 * crc.

(** The function code of a request frame, its second byte. *)
Definition function_code (frame : bytes) : Z := byte_val (nth 1 frame x00).

End WanptekPowerSupply.

(* ================================================================== *)
(** * The reference CRC-16 *)
(* ================================================================== *)

(** Written from the specification's words: start from 0xFFFF; for each
    byte, XOR it into the accumulator and then do eight single-bit steps,
    each shifting the accumulator right by one bit and XOR-ing 0xA001 in
    exactly when the bit shifted out was 1. *)
Module Reference.

Definition shifted_out (acc : Z) : bool := Z.odd acc.

Definition bit_step (acc : Z) : Z :=
  let out := shifted_out acc in
  let acc' := Z.div2 acc in
  if out then Z.lxor acc' 0xA001 else acc'.

Definition eight_steps (acc : Z) : Z :=
  bit_step (bit_step (bit_step (bit_step
    (bit_step (bit_step (bit_step (bit_step acc))))))).

Fixpoint crc16_from (acc : Z) (data : list byte) : Z :=
  match data with
  | [] => acc
  | b :: rest =>
      crc16_from (eight_steps (Z.lxor acc (WanptekPowerSupply.byte_val b))) rest
  end.

Definition crc16 (data : list byte) : Z := crc16_from 0xFFFF data.

End Reference.

(* ================================================================== *)
(** * wanptek_webapp.py: class SCPICommandProcessor *)
(* ================================================================== *)

Module SCPICommandProcessor.

Local Open Scope string_scope.
Local Open Scope monad_scope.

(** The object's attributes. The [commands] dictionary is the constant
    table below. *)
Record t : Type := {
  psu : WanptekPowerSupply.t;
  output_state : bool
}.

(** A call [self.psu.m(...)]. *)
Definition on_psu {A} (c : M WanptekPowerSupply.t A) : M t A :=
  fun self =>
    let '(r, p) := c (psu self) in
    (r, {| psu := p; output_state := output_state self |}).

Definition set_output_state_attr (b : bool) : M t unit :=
  fun self => (Ok tt, {| psu := psu self; output_state := b |}).

(** ** [_normalize_command] *)

(** The [abbreviations] dictionary, in insertion order. *)
Definition abbreviations : list (string * string) :=
  [ ("SOUR", "SOURce");
    ("VOLT", "VOLTage");
    ("CURR", "CURRent");
    ("MEAS", "MEASure");
    ("OUTP", "OUTPut");
    ("STAT", "STATe");
    ("PROT", "PROTection");
    ("SYST", "SYSTem");
    ("QUES", "QUEStionable");
    ("OPER", "OPERation");
    ("COND", "CONDition");
    ("IMME", "IMMediate");
    ("AMPL", "AMPLitude");
    ("LEVE", "LEVel");
    ("TRIP", "TRIPped") ].

(** [for abbrev, full in abbreviations.items(): command =
    command.replace(abbrev, full)]. *)
Definition expand (table : list (string * string)) (command : string) : string :=
  fold_left (fun command entry => PyStr.replace (fst entry) (snd entry) command)
            table command.

Definition _normalize_command (command : string) : string :=
  let command := PyStr.upper command in
  expand abbreviations command.

(** What the table's entries have in common: the abbreviation is not
    empty, the full form is longer, and the upper-cased full form starts
    with the abbreviation. *)
Definition entry_ok (entry : string * string) : bool :=
  ((1 <=? String.length (fst entry))%nat
   && (String.length (fst entry) <? String.length (snd entry))%nat
   && String.prefix (fst entry) (PyStr.upper (snd entry)))%bool.

(** Some abbreviation of the table occurs in the line. *)
Definition mentions_abbreviation (line : string) : bool :=
  existsb (fun entry => PyStr.contains (fst entry) line) abbreviations.

(** No character of the string satisfies the test. *)
Fixpoint none_of (test : ascii -> bool) (s : string) : bool :=
  match s with
  | EmptyString => true
  | String c rest => negb (test c) && none_of test rest
  end.

(** Every character of the string satisfies the test. *)
Fixpoint only_chars (test : ascii -> bool) (s : string) : bool :=
  match s with
  | EmptyString => true
  | String c rest => test c && only_chars test rest
  end.

Definition is_blank_char (c : ascii) : bool := Ascii.eqb c " ".

(** The character is one [str.strip()] removes, or the semicolon that
    separates the commands of a line. *)
Definition is_filler (c : ascii) : bool :=
  PyStr.is_space c || Ascii.eqb c ";".

(** The text has a lower-case letter, and no space before the first
    one. *)
Fixpoint lower_before_space (f : string) : bool :=
  match f with
  | EmptyString => false
  | String c rest =>
      PyStr.is_lower c || (negb (is_blank_char c) && lower_before_space rest)
  end.

(** What the dispatch relies on in an entry of the table: the abbreviation
    is not empty, and the full form is in mixed case, with a lower-case
    letter before any space. *)
Definition entry_mixed_case (entry : string * string) : bool :=
  match fst entry with
  | EmptyString => false
  | String _ _ => lower_before_space (snd entry)
  end.

(** The text is empty or starts with a space: what follows a command name
    in a line. *)
Definition ends_name (rest : string) : bool :=
  match rest with
  | EmptyString => true
  | String c _ => Ascii.eqb c " "
  end.

(** ** [_match_command] *)
Definition _match_command (input_cmd pattern_cmd : string) : bool :=
  String.eqb input_cmd (PyStr.upper pattern_cmd).

(** ** The handlers

    The Python builtins that turn text into floats and floats and
    exceptions into text are parameters of the processor. *)
Section Handlers.

Variable float_of_str : string -> result float.   (* float(value) *)
Variable format_3f : float -> string.              (* f"{x:.3f}" *)
Variable str_exn : exn -> string.                  (* str(e) *)

Definition get_identification : M t string :=
  self <- get ;;
  ret ("WANPTEK," ++ WanptekPowerSupply.get_device_info_model (psu self)
       ++ ",SN123456,V1.0").

Definition reset_device : M t string :=
  try_except
    (on_psu (WanptekPowerSupply.set_output
               (Some (PyFloat.of_int 0)) (Some (PyFloat.of_int 0))
               (Some false) (Some true) None) ;;;
     ret "OK")
    (fun _ => ret "ERROR").

Definition self_test : M t string := ret "0".

(** The text [0,"No error"]. *)
Definition get_error : M t string :=
  let quote := String (ascii_of_nat 34) EmptyString in
  ret ("0," ++ quote ++ "No error" ++ quote).

Definition get_version : M t string := ret "1999.0".

Definition set_voltage (value : option string) : M t string :=
  match value with
  | None => ret "ERROR: Missing parameter"
  | Some value =>
      try_except
        (voltage <- lift (float_of_str value) ;;
         on_psu (WanptekPowerSupply.set_voltage voltage) ;;;
         ret "OK")
        (fun e => ret ("ERROR: " ++ str_exn e))
  end.

Definition get_voltage_setting : M t string :=
  try_except
    (status <- on_psu WanptekPowerSupply.read_status ;;
     ret (format_3f (Status.set_voltage status)))
    (fun _ => ret "ERROR").

Definition set_current (value : option string) : M t string :=
  match value with
  | None => ret "ERROR: Missing parameter"
  | Some value =>
      try_except
        (current <- lift (float_of_str value) ;;
         on_psu (WanptekPowerSupply.set_current current) ;;;
         ret "OK")
        (fun e => ret ("ERROR: " ++ str_exn e))
  end.

Definition get_current_setting : M t string :=
  try_except
    (status <- on_psu WanptekPowerSupply.read_status ;;
     ret (format_3f (Status.set_current status)))
    (fun _ => ret "ERROR").

Definition measure_voltage : M t string :=
  try_except
    (voltage <- on_psu WanptekPowerSupply.read_voltage ;;
     ret (format_3f voltage))
    (fun _ => ret "ERROR").

Definition measure_current : M t string :=
  try_except
    (current <- on_psu WanptekPowerSupply.read_current ;;
     ret (format_3f current))
    (fun _ => ret "ERROR").

Definition measure_power : M t string :=
  try_except
    (power <- on_psu WanptekPowerSupply.read_power ;;
     ret (format_3f power))
    (fun _ => ret "ERROR").

Definition measure_all : M t string :=
  try_except
    (status <- on_psu WanptekPowerSupply.read_status ;;
     ret (format_3f (Status.real_voltage status) ++ ","
          ++ format_3f (Status.real_current status) ++ ","
          ++ format_3f (Status.real_power status)))
    (fun _ => ret "ERROR").

(** [state.upper() in ['ON', '1']] and [state.upper() in ['OFF', '0']]. *)
Definition is_on (state : string) : bool :=
  String.eqb (PyStr.upper state) "ON" || String.eqb (PyStr.upper state) "1".

Definition is_off (state : string) : bool :=
  String.eqb (PyStr.upper state) "OFF" || String.eqb (PyStr.upper state) "0".

Definition set_output_state (state : option string) : M t string :=
  match state with
  | None => ret "ERROR: Missing parameter"
  | Some state =>
      try_except
        (if is_on state then
           on_psu WanptekPowerSupply.power_on ;;;
           set_output_state_attr true ;;;
           ret "OK"
         else if is_off state then
           on_psu WanptekPowerSupply.power_off ;;;
           set_output_state_attr false ;;;
           ret "OK"
         else ret "ERROR: Invalid parameter")
        (fun e => ret ("ERROR: " ++ str_exn e))
  end.

Definition get_output_state : M t string :=
  try_except
    (is_on <- on_psu WanptekPowerSupply.is_power_on ;;
     ret (if is_on : bool then "1" else "0"))
    (fun _ => ret "ERROR").

Definition set_ocp_state (state : option string) : M t string :=
  match state with
  | None => ret "ERROR: Missing parameter"
  | Some state =>
      try_except
        (if is_on state then
           on_psu WanptekPowerSupply.enable_ocp ;;; ret "OK"
         else if is_off state then
           on_psu WanptekPowerSupply.disable_ocp ;;; ret "OK"
         else ret "ERROR: Invalid parameter")
        (fun e => ret ("ERROR: " ++ str_exn e))
  end.

Definition get_ocp_state : M t string :=
  try_except
    (status <- on_psu WanptekPowerSupply.read_status ;;
     ret (if Status.ocp_enabled status then "1" else "0"))
    (fun _ => ret "ERROR").

Definition get_current_protection_tripped : M t string :=
  try_except
    (status <- on_psu WanptekPowerSupply.read_status ;;
     ret (if Status.constant_current_mode status then "1" else "0"))
    (fun _ => ret "ERROR").

Definition get_questionable_condition : M t string := ret "0".

Definition get_operation_condition : M t string :=
  try_except
    (status <- on_psu WanptekPowerSupply.read_status ;;
     let condition := 0%Z in
     let condition :=
       if Status.constant_current_mode status
       then Z.lor condition 0x02 else condition in
     ret (PyStr.str_int condition))
    (fun _ => ret "0").

(** ** The command table

    A bound method either takes no argument besides [self] or takes the
    optional [value]/[state]. *)
Inductive handler : Type :=
| Query (name : string) (run : M t string)
| Setter (run : option string -> M t string).

(** [self.commands], in insertion order. *)
Definition commands : list (string * handler) :=
  [ ("*IDN?", Query "get_identification" get_identification);
    ("*RST", Query "reset_device" reset_device);
    ("*TST?", Query "self_test" self_test);
    ("SYSTem:ERRor?", Query "get_error" get_error);
    ("SYSTem:VERSion?", Query "get_version" get_version);
    ("SOURce:VOLTage", Setter set_voltage);
    ("SOURce:VOLTage?", Query "get_voltage_setting" get_voltage_setting);
    ("SOURce:VOLTage:LEVel:IMMediate:AMPLitude", Setter set_voltage);
    ("VOLTage", Setter set_voltage);
    ("VOLTage?", Query "get_voltage_setting" get_voltage_setting);
    ("SOURce:CURRent", Setter set_current);
    ("SOURce:CURRent?", Query "get_current_setting" get_current_setting);
    ("SOURce:CURRent:LEVel:IMMediate:AMPLitude", Setter set_current);
    ("CURRent", Setter set_current);
    ("CURRent?", Query "get_current_setting" get_current_setting);
    ("MEASure:VOLTage?", Query "measure_voltage" measure_voltage);
    ("MEASure:CURRent?", Query "measure_current" measure_current);
    ("MEASure:POWer?", Query "measure_power" measure_power);
    ("MEASure:ALL?", Query "measure_all" measure_all);
    ("OUTPut", Setter set_output_state);
    ("OUTPut?", Query "get_output_state" get_output_state);
    ("OUTPut:STATe", Setter set_output_state);
    ("OUTPut:STATe?", Query "get_output_state" get_output_state);
    ("SOURce:CURRent:PROTection:STATe", Setter set_ocp_state);
    ("SOURce:CURRent:PROTection:STATe?", Query "get_ocp_state" get_ocp_state);
    ("SOURce:CURRent:PROTection:TRIPped?",
       Query "get_current_protection_tripped" get_current_protection_tripped);
    ("STATus:QUEStionable:CONDition?",
       Query "get_questionable_condition" get_questionable_condition);
    ("STATus:OPERation:CONDition?",
       Query "get_operation_condition" get_operation_condition) ].

(** [handler(param)] when a parameter is present, [handler()] otherwise. *)
Definition call (h : handler) (param : option string) : M t string :=
  match h, param with
  | Query _ run, None => run
  | Query name _, Some _ => raise (TooManyArguments name)
  | Setter run, param => run param
  end.

(** The [for cmd_pattern, cmd_handler in self.commands.items()] loop with
    its [break] at the first match. *)
Fixpoint find_handler (cmd_name : string) (table : list (string * handler))
  : option handler :=
  match table with
  | [] => None
  | (cmd_pattern, cmd_handler) :: later =>
      if _match_command cmd_name cmd_pattern then Some cmd_handler
      else find_handler cmd_name later
  end.

(** ** [_process_single_command] *)
Definition _process_single_command (command : string) : M t string :=
  try_except
    (let normalized_cmd := _normalize_command command in
     let '(cmd_name, param) :=
       match PyStr.split1 " " normalized_cmd with
       | Some (cmd_name, param) => (cmd_name, Some param)
       | None => (normalized_cmd, None)
       end in
     match find_handler cmd_name commands with
     | Some handler => call handler param
     | None => ret "ERROR: Unknown command"
     end)
    (fun e => ret ("ERROR: " ++ str_exn e)).

(** The name part of a command, as [_process_single_command] computes
    it. *)
Definition command_name (command : string) : string :=
  match PyStr.split1 " " (_normalize_command command) with
  | Some (cmd_name, _) => cmd_name
  | None => _normalize_command command
  end.

(** ** [process_command] *)

(** The [for cmd in commands] loop, collecting the responses. *)
Fixpoint process_each (cmds : list string) (responses : list string)
  : M t (list string) :=
  match cmds with
  | [] => ret responses
  | cmd :: later =>
      let cmd := PyStr.strip cmd in
      if String.eqb cmd EmptyString then process_each later responses
      else
        response <- _process_single_command cmd ;;
        process_each later (responses ++ [response])%list
  end.

Definition process_command (command_line : string) : M t string :=
  let command_line := PyStr.strip command_line in
  if String.eqb command_line EmptyString then ret EmptyString
  else
    responses <- process_each (PyStr.split ";" command_line) [] ;;
    ret (PyStr.join PyStr.nl responses).

End Handlers.

End SCPICommandProcessor.

(* ================================================================== *)
(** * wanptek_webapp.py: class SCPIServer *)
(* ================================================================== *)

Module SCPIServer.

Local Open Scope string_scope.

(** What one pass of the outer [while self.running] loop meets. *)
Inductive recv_event : Type :=
| Data (text : string)     (* recv returned text, decoded *)
| PeerClosed               (* recv returned no bytes: [if not data: break] *)
| SocketTimeout            (* socket.timeout: [continue] *)
| RecvError                (* any other exception: [break] *)
| Stopped.                 (* [self.running] is found False *)

(** What the server does to the client socket. The sends are taken to
    succeed. *)
Inductive action : Type :=
| Send (text : string)
| Close.

Definition greeting : string := "WANPTEK SCPI Server Ready" ++ PyStr.nl.
Definition farewell : string := "Goodbye" ++ PyStr.nl.

Definition is_quit (line : string) : bool :=
  String.eqb (PyStr.upper line) "QUIT" || String.eqb (PyStr.upper line) "EXIT".



(** The event comes from what the client sends or does not send: text
    (at least one character, as [recv] returns no bytes only when the peer
    has closed), or a receive timeout. *)
Definition from_client_text (event : recv_event) : bool :=
  match event with
  | Data text => negb (String.eqb text EmptyString)
  | SocketTimeout => true
  | PeerClosed | RecvError | Stopped => false
  end.

Section Server.

Variable process_command :
  string -> M SCPICommandProcessor.t string.   (* self.processor.process_command *)

(** The outcome of the inner [while '\n' in buffer] loop: what was sent,
    the buffer and the processor it leaves, and whether an exception left
    the loop. *)
Record lines_outcome : Type := {
  sent : list action;
  buffer_left : string;
  processor_left : SCPICommandProcessor.t;
  failed : bool
}.

(** The inner loop. [line, buffer = buffer.split('\n', 1)] is a scan of
    the buffer up to its first line feed; [pending] holds the characters
    of the line scanned so far. When no line feed is left the pending
    characters are the buffer the loop leaves. *)
Fixpoint process_lines (buffer pending : string)
    (processor : SCPICommandProcessor.t) : lines_outcome :=
  match buffer with
  | EmptyString =>
      {| sent := []; buffer_left := pending;
         processor_left := processor; failed := false |}
  | String c rest =>
      if Ascii.eqb c (ascii_of_nat 10) then
        let line := PyStr.strip pending in
        if is_quit line then
          (* client_socket.send(b"Goodbye\n"); break *)
          {| sent := [Send farewell]; buffer_left := rest;
             processor_left := processor; failed := false |}
        else if negb (String.eqb line EmptyString) then
          match process_command line processor with
          | (Ok response, processor') =>
              let out := process_lines rest EmptyString processor' in
              {| sent :=
                   ((if String.eqb response EmptyString then []
                     else [Send (response ++ PyStr.nl)]) ++ sent out)%list;
                 buffer_left := buffer_left out;
                 processor_left := processor_left out;
                 failed := failed out |}
          | (Raise _, processor') =>
              {| sent := []; buffer_left := rest;
                 processor_left := processor'; failed := true |}
          end
        else process_lines rest EmptyString processor
      else process_lines rest (pending ++ String c EmptyString) processor
  end.

(** The outer loop, one event per pass. When the events run out the thread
    is blocked in [recv] and the socket is still open. Leaving the loop
    reaches the [finally] clause, which closes the socket. *)
Fixpoint session_loop (events : list recv_event) (buffer : string)
    (processor : SCPICommandProcessor.t)
  : list action * SCPICommandProcessor.t :=
  match events with
  | [] => ([], processor)
  | Stopped :: _ => ([Close], processor)
  | PeerClosed :: _ => ([Close], processor)
  | RecvError :: _ => ([Close], processor)
  | SocketTimeout :: later => session_loop later buffer processor
  | Data data :: later =>
      let out := process_lines (buffer ++ data) EmptyString processor in
      if failed out then ((sent out ++ [Close])%list, processor_left out)
      else
        let '(actions, processor') :=
          session_loop later (buffer_left out) (processor_left out) in
        ((sent out ++ actions)%list, processor')
  end.

(** ** [_handle_client] *)
Definition _handle_client (events : list recv_event)
    (processor : SCPICommandProcessor.t)
  : list action * SCPICommandProcessor.t :=
  let '(actions, processor') := session_loop events EmptyString processor in
  (Send greeting :: actions, processor').

End Server.

End SCPIServer.

(* ================================================================== *)
(** * Concrete sessions *)
(* ================================================================== *)

(** A 30 V / 5 A unit with two decimal places at address 0, and the frames
    such a unit answers with. They serve to run the definitions above on
    concrete inputs. *)
Module Bench.

Import WanptekPowerSupply.

Definition byte_of (z : Z) : byte :=
  match pack_B z with Ok b => b | Raise _ => x00 end.

Definition le_word (v : Z) : bytes :=
  match pack_le_H v with Ok data => data | Raise _ => [] end.

(** A frame body followed by its checksum, as the device sends it. *)
Definition framed (body : bytes) : bytes :=
  (body ++ le_word (_calculate_crc body))%list.

(** The 21-byte answer to a status request: header, sixteen payload bytes
    (flags, the two configuration bytes, a spare byte and six little-endian
    words), checksum. *)
Definition status_response
    (flags real_v real_i set_v set_i max_v max_i : Z) : bytes :=
  framed ([x00; x03; x10] ++ [byte_of flags; x01; x03; x00]
          ++ le_word real_v ++ le_word real_i
          ++ le_word set_v ++ le_word set_i
          ++ le_word max_v ++ le_word max_i)%list.

(** The answer to a write request: address, function code, register start
    and register count, checksum. *)
Definition write_ack : bytes := framed [x00; x10; x00; x00; x03; x00].

Definition link (script : list (list bytes)) : serial_port :=
  {| port := "/dev/ttyUSB0";
     baudrate := 9600;
     is_open := true;
     written := [];
     incoming := script |}.

Definition session (script : list (list bytes)) : t :=
  {| slave_addr := 0;
     serial := Some (link script);
     voltage_decimal_places := 2;
     current_decimal_places := 2;
     voltage_series := 1;
     current_series := 3;
     max_voltage := PyFloat.true_div 3000 100;
     max_current := PyFloat.true_div 500 100;
     nominal_voltage := 30;
     nominal_current := 5;
     little_endian := true;
     device_model := "WANPTEK 30V/5A";
     connected := true;
     last_status := None |}.

(** The status request of the unit, before the checksum is appended. *)
Definition status_request_body : bytes := [x00; x03; x00; x00; x08; x00].

(** Output off, 12.00 V and 1.00 A set, nothing drawn. *)
Definition idle_status : bytes := status_response 0 0 0 1200 100 3000 500.

(** Output on with OCP and keyboard lock, 12.00 V set, 0.29 A set at the
    front panel. *)
Definition panel_status : bytes := status_response 7 1200 10 1200 29 3000 500.

(** A status with nothing in it, the default of a lookup that cannot
    fail. *)
Definition no_status : Status.t :=
  {| Status.power_on := false;
     Status.ocp_enabled := false;
     Status.keyboard_locked := false;
     Status.constant_current_mode := false;
     Status.alarm_active := false;
     Status.real_voltage := PyFloat.of_int 0;
     Status.real_current := PyFloat.of_int 0;
     Status.set_voltage := PyFloat.of_int 0;
     Status.set_current := PyFloat.of_int 0;
     Status.max_voltage := PyFloat.of_int 0;
     Status.max_current := PyFloat.of_int 0;
     Status.nominal_voltage := 0;
     Status.nominal_current := 0;
     Status.voltage_series := 0;
     Status.current_series := 0;
     Status.model := EmptyString;
     Status.real_power := PyFloat.of_int 0;
     Status.set_power := PyFloat.of_int 0 |}.

(** The idle status with one payload byte altered on the way (the low
    byte of the real voltage), checksum untouched. *)
Definition tampered_status : bytes :=
  (firstn 7 idle_status ++ x01 :: skipn 8 idle_status)%list.

(** The float [5.0]. *)
Definition five_volts : float := PyFloat.true_div 5 1.

End Bench.

(* ================================================================== *)
(** * Lemmas on bytes, words and the CRC *)
(* ================================================================== *)

Import WanptekPowerSupply.

Lemma byte_val_range (b : byte) : 0 <= byte_val b < 256.
Proof.
  unfold byte_val. pose proof (Byte.to_N_bounded b) as H. lia.
Qed.

Lemma pack_B_val (z : Z) :
  0 <= z <= 255 -> exists b, pack_B z = Ok b /\ byte_val b = z.
Proof.
  intros Hz. unfold pack_B.
  replace ((0 <=? z) && (z <=? 255)) with true
    by (symmetry; apply andb_true_iff; split; apply Z.leb_le; lia).
  destruct (Byte.of_N (Z.to_N z)) as [b|] eqn:E.
  - exists b. split; [reflexivity|].
    unfold byte_val. rewrite (@Byte.to_of_N _ _ E). lia.
  - exfalso. apply Byte.of_N_None_iff in E. lia.
Qed.

Lemma pack_B_inv (z : Z) (b : byte) : pack_B z = Ok b -> byte_val b = z.
Proof.
  unfold pack_B. destruct ((0 <=? z) && (z <=? 255)) eqn:Hr; [|discriminate].
  apply andb_true_iff in Hr. destruct Hr as [H0 H1].
  apply Z.leb_le in H0. apply Z.leb_le in H1.
  destruct (Byte.of_N (Z.to_N z)) as [b'|] eqn:E; [|discriminate].
  intros H. inversion H; subst.
  unfold byte_val. rewrite (@Byte.to_of_N _ _ E). lia.
Qed.

Lemma word_split (v : Z) :
  0 <= v <= 65535 ->
  0 <= Z.land v 255 <= 255 /\ 0 <= Z.shiftr v 8 <= 255 /\
  Z.lor (Z.land v 255) (Z.shiftl (Z.shiftr v 8) 8) = v.
Proof.
  intros Hv. repeat split.
  - apply Z.land_nonneg. lia.
  - change 255 with (Z.ones 8) at 1. rewrite Z.land_ones by lia.
    pose proof (Z.mod_pos_bound v (2 ^ 8)). lia.
  - apply Z.shiftr_nonneg. lia.
  - rewrite Z.shiftr_div_pow2 by lia. apply Z.lt_succ_r.
    apply Z.div_lt_upper_bound; lia.
  - apply Z.bits_inj'. intros n Hn.
    rewrite Z.lor_spec, Z.land_spec, Z.shiftl_spec by lia.
    change 255 with (Z.ones 8). rewrite Z.testbit_ones_nonneg by lia.
    destruct (Z.ltb_spec n 8) as [Hlt|Hge].
    + rewrite (Z.testbit_neg_r _ (n - 8)) by lia.
      rewrite andb_true_r, orb_false_r. reflexivity.
    + rewrite Z.shiftr_spec by lia.
      rewrite andb_false_r. simpl. f_equal. lia.
Qed.

Lemma high_bits_u16 (a n : Z) :
  0 <= a < 65536 -> 16 <= n -> Z.testbit a n = false.
Proof.
  intros Ha Hn.
  rewrite <- (Z.mod_small a (2 ^ 16)) by (change (2 ^ 16) with 65536; lia).
  apply Z.mod_pow2_bits_high. lia.
Qed.

Lemma lxor_u16 (a b : Z) :
  0 <= a < 65536 -> 0 <= b < 65536 -> 0 <= Z.lxor a b < 65536.
Proof.
  intros Ha Hb.
  assert (E : Z.lxor a b = Z.lxor a b mod 2 ^ 16).
  { apply Z.bits_inj'. intros n Hn.
    destruct (Z.ltb_spec n 16) as [Hlt|Hge].
    - rewrite Z.mod_pow2_bits_low by lia. reflexivity.
    - rewrite Z.mod_pow2_bits_high by lia.
      rewrite Z.lxor_spec, (high_bits_u16 a), (high_bits_u16 b) by assumption.
      reflexivity. }
  rewrite E. change 65536 with (2 ^ 16). apply Z.mod_pos_bound. lia.
Qed.

Lemma shiftr1_u16 (a : Z) : 0 <= a < 65536 -> 0 <= Z.shiftr a 1 < 65536.
Proof.
  intros Ha. rewrite Z.shiftr_div_pow2 by lia. change (2 ^ 1) with 2.
  split; [apply Z.div_pos; lia|].
  apply Z.div_lt_upper_bound; lia.
Qed.

Lemma crc_shift_u16 (crc : Z) : 0 <= crc < 65536 -> 0 <= crc_shift crc < 65536.
Proof.
  intros H. unfold crc_shift.
  pose proof (shiftr1_u16 crc H).
  destruct (truthy _); [apply lxor_u16; lia | assumption].
Qed.

Lemma crc_byte_u16 (crc : Z) (b : byte) :
  0 <= crc < 65536 -> 0 <= crc_byte crc b < 65536.
Proof.
  intros H. unfold crc_byte.
  assert (H0 : 0 <= Z.lxor crc (byte_val b) < 65536).
  { apply lxor_u16; [assumption|]. pose proof (byte_val_range b). lia. }
  generalize dependent (Z.lxor crc (byte_val b)). intros x Hx.
  simpl. repeat apply crc_shift_u16. assumption.
Qed.

Lemma crc_fold_u16 (data : bytes) (crc : Z) :
  0 <= crc < 65536 -> 0 <= fold_left crc_byte data crc < 65536.
Proof.
  revert crc. induction data as [|b rest IH]; intros crc H; simpl.
  - assumption.
  - apply IH. apply crc_byte_u16. assumption.
Qed.

(** The checksum always fits a 16-bit word. *)
Lemma calculate_crc_u16 (data : bytes) : 0 <= _calculate_crc data <= 65535.
Proof.
  pose proof (crc_fold_u16 data 0xFFFF ltac:(lia)). unfold _calculate_crc. lia.
Qed.

Lemma crc_shift_bit_step (crc : Z) : crc_shift crc = Reference.bit_step crc.
Proof.
  unfold crc_shift, Reference.bit_step, Reference.shifted_out, truthy.
  rewrite Z.div2_spec.
  change 1 with (Z.ones 1) at 1. rewrite Z.land_ones by lia.
  change (2 ^ 1) with 2. rewrite Zmod_odd.
  destruct (Z.odd crc); reflexivity.
Qed.

Lemma crc_byte_eight_steps (crc : Z) (b : byte) :
  crc_byte crc b = Reference.eight_steps (Z.lxor crc (byte_val b)).
Proof.
  unfold crc_byte, Reference.eight_steps. simpl.
  rewrite !crc_shift_bit_step. reflexivity.
Qed.

Lemma crc_fold_reference (data : bytes) (crc : Z) :
  fold_left crc_byte data crc = Reference.crc16_from crc data.
Proof.
  revert crc. induction data as [|b rest IH]; intros crc; simpl.
  - reflexivity.
  - rewrite crc_byte_eight_steps. apply IH.
Qed.

(* ================================================================== *)
(** * Frame codec: the claims *)
(* ================================================================== *)

(** C4. Packing a 16-bit value with [_pack_word] succeeds and
    [_unpack_word] with the same endianness gives the value back, for
    every value in 0..65535 and both byte orders. *)
Theorem pack_unpack_word_roundtrip (little_endian : bool) (v : Z) :
  0 <= v <= 65535 ->
  exists data,
    _pack_word little_endian v = Ok data /\
    _unpack_word little_endian data = Ok v.
Proof.
  intros Hv.
  destruct (word_split v Hv) as (Hlo & Hhi & Hjoin).
  destruct (pack_B_val _ Hlo) as (lo & Elo & Vlo).
  destruct (pack_B_val _ Hhi) as (hi & Ehi & Vhi).
  assert (Hrange : (0 <=? v) && (v <=? 65535) = true)
    by (apply andb_true_iff; split; apply Z.leb_le; lia).
  destruct little_endian; unfold _pack_word, pack_le_H, pack_be_H;
    rewrite Hrange, Elo, Ehi; eexists; (split; [reflexivity|]);
    unfold _unpack_word, unpack_le_H, unpack_be_H;
    rewrite Vlo, Vhi, Hjoin; reflexivity.
Qed.

Lemma pack_unpack_word_roundtrip_witness :
  0 <= 0x1234 <= 65535 /\
  exists data, _pack_word false 0x1234 = Ok data /\
               _unpack_word false data = Ok 0x1234.
Proof.
  split; [lia|]. apply (pack_unpack_word_roundtrip false 0x1234). lia.
Defined.

(** C5. For every byte sequence [_calculate_crc] equals the reference
    CRC-16 (initial value 0xFFFF, each byte XOR-ed into the accumulator and
    followed by eight shift steps that XOR 0xA001 in exactly when the bit
    shifted out is 1), and the result is a 16-bit value. Being a function of
    its argument only, it is deterministic and pure. *)
Theorem calculate_crc_reference (data : bytes) :
  _calculate_crc data = Reference.crc16 data /\
  0 <= _calculate_crc data <= 65535.
Proof.
  split.
  - unfold _calculate_crc, Reference.crc16. apply crc_fold_reference.
  - apply calculate_crc_u16.
Qed.

(** The MODBUS check value of the ASCII digits 1..9. *)
Example calculate_crc_check :
  _calculate_crc [x31; x32; x33; x34; x35; x36; x37; x38; x39] = 0x4B37.
Proof. reflexivity. Qed.

(* ================================================================== *)
(** * Transport: [_send_command] and [_read_raw_status] *)
(* ================================================================== *)

Lemma pack_le_H_crc (command : bytes) :
  exists lo hi,
    pack_le_H (_calculate_crc command) = Ok [lo; hi] /\
    byte_val lo = Z.land (_calculate_crc command) 255 /\
    byte_val hi = Z.shiftr (_calculate_crc command) 8.
Proof.
  pose proof (calculate_crc_u16 command) as Hc.
  destruct (word_split _ Hc) as (Hlo & Hhi & _).
  destruct (pack_B_val _ Hlo) as (lo & Elo & Vlo).
  destruct (pack_B_val _ Hhi) as (hi & Ehi & Vhi).
  exists lo, hi. unfold pack_le_H.
  replace ((0 <=? _calculate_crc command) && (_calculate_crc command <=? 65535))
    with true by (symmetry; apply andb_true_iff; split; apply Z.leb_le; lia).
  rewrite Elo, Ehi. auto.
Qed.

(** The receive loop returns fewer than three bytes exactly when fewer
    than three bytes arrive before the timeout. *)
Lemma read_response_short (chunks : list bytes) (response : bytes) :
  (length (read_response chunks response) < 3)%nat <->
  (length response + length (concat chunks) < 3)%nat.
Proof.
  revert response. induction chunks as [|chunk later IH]; intros response; simpl.
  - lia.
  - destruct (Nat.ltb_spec (length response) 3) as [Hlt|Hge].
    + rewrite IH. rewrite !length_app. lia.
    + rewrite length_app. lia.
Qed.

(** Reading the little-endian word off the end of a response. *)
Lemma unpack_trailing (response : bytes) :
  (3 <= length response)%nat ->
  exists body lo hi,
    response = body ++ [lo; hi] /\
    firstn (length response - 2) response = body /\
    skipn (length response - 2) response = [lo; hi].
Proof.
  intros Hlen.
  pose proof (firstn_skipn (length response - 2) response) as Hsplit.
  assert (Hs : length (skipn (length response - 2) response) = 2%nat)
    by (rewrite length_skipn; lia).
  destruct (skipn (length response - 2) response) as [|lo [|hi [|x tl]]] eqn:E;
    simpl in Hs; try lia.
  exists (firstn (length response - 2) response), lo, hi.
  rewrite Hsplit. auto.
Qed.

Lemma word_value (lo hi : byte) :
  Z.lor (byte_val lo) (Z.shiftl (byte_val hi) 8) = byte_val lo + 256 * byte_val hi.
Proof.
  pose proof (byte_val_range lo) as Hlo. pose proof (byte_val_range hi) as Hhi.
  assert (Hw : 0 <= byte_val lo + 256 * byte_val hi <= 65535) by lia.
  destruct (word_split _ Hw) as (_ & _ & Hjoin).
  assert (E1 : Z.land (byte_val lo + 256 * byte_val hi) 255 = byte_val lo).
  { change 255 with (Z.ones 8). rewrite Z.land_ones by lia.
    change (2 ^ 8) with 256.
    rewrite (Z.mul_comm 256), Z.mod_add by lia.
    apply Z.mod_small. lia. }
  assert (E2 : Z.shiftr (byte_val lo + 256 * byte_val hi) 8 = byte_val hi).
  { rewrite Z.shiftr_div_pow2 by lia. change (2 ^ 8) with 256.
    rewrite (Z.mul_comm 256), Z.div_add by lia.
    rewrite Z.div_small by lia. lia. }
  rewrite E1, E2 in Hjoin. exact Hjoin.
Qed.

Lemma app_two_inj (b1 b2 : bytes) (x1 y1 x2 y2 : byte) :
  b1 ++ [x1; y1] = b2 ++ [x2; y2] -> b1 = b2 /\ x1 = x2 /\ y1 = y2.
Proof.
  intros H.
  change [x1; y1] with ([x1] ++ [y1]) in H.
  change [x2; y2] with ([x2] ++ [y2]) in H.
  rewrite !app_assoc in H.
  apply app_inj_tail in H. destruct H as [H ->].
  apply app_inj_tail in H. destruct H as [-> ->]. auto.
Qed.

(** What [_send_command] does on a connected session, as one equation. *)
Lemma send_command_connected (self : t) (p : serial_port) (command : bytes) :
  serial self = Some p -> not_connected self = false ->
  exists lo hi,
    byte_val lo = Z.land (_calculate_crc command) 255 /\
    byte_val hi = Z.shiftr (_calculate_crc command) 8 /\
    let self' := with_serial (snd (exchange (command ++ [lo; hi]) p)) self in
    _send_command command self =
      (if (length (received p) <? 3)%nat
       then Raise (ReceiveTimeout (length (received p)))
       else
         match unpack_le_H (skipn (length (received p) - 2) (received p)) with
         | Raise e => Raise e
         | Ok received_crc =>
             let calculated_crc :=
               _calculate_crc (firstn (length (received p) - 2) (received p)) in
             if negb (received_crc =? calculated_crc)
             then Raise (CrcFailed calculated_crc received_crc)
             else Ok (received p)
         end,
       self').
Proof.
  intros Hs Hc.
  destruct (pack_le_H_crc command) as (lo & hi & Epack & Vlo & Vhi).
  exists lo, hi. repeat split; try assumption.
  unfold _send_command. rewrite Hs, Hc, Epack.
  unfold exchange, received. simpl.
  destruct (length (read_response (hd [] (incoming p)) []) <? 3)%nat; [reflexivity|].
  destruct (unpack_le_H _); [|reflexivity].
  destruct (negb _); reflexivity.
Qed.

Lemma not_connected_false (self : t) :
  not_connected self = false ->
  exists p, serial self = Some p /\ connected self = true /\ is_open p = true.
Proof.
  unfold not_connected. intros H. apply orb_false_iff in H. destruct H as [H1 H2].
  destruct (serial self) as [p|]; [|discriminate].
  exists p. repeat split.
  - destruct (connected self); [reflexivity | discriminate].
  - destruct (is_open p); [reflexivity | discriminate].
Qed.

Lemma status_request_packs (self : t) :
  0 <= slave_addr self <= 255 ->
  exists a,
    status_request self = Ok [a; x03; x00; x00; x08; x00] /\
    byte_val a = slave_addr self.
Proof.
  intros Haddr. destruct (pack_B_val _ Haddr) as (a & Ea & Va).
  exists a. split; [|assumption].
  unfold status_request, pack_BBHH. rewrite Ea. reflexivity.
Qed.

(* ================================================================== *)
(** * Transport: the claims *)
(* ================================================================== *)

(** C6. On a connected session, whatever the request body and whatever the
    session's [little_endian] flag, the frame handed to the link is the
    body followed by the two bytes of its checksum, low byte first. *)
Theorem send_command_frame (self : t) (p : serial_port)
    (body : bytes) (endian : bool) :
  serial self = Some p -> not_connected self = false ->
  exists lo hi,
    byte_val lo = Z.land (_calculate_crc body) 255 /\
    byte_val hi = Z.shiftr (_calculate_crc body) 8 /\
    frames_written (snd (_send_command body (with_little_endian endian self)))
    = (written p ++ [body ++ [lo; hi]])%list.
Proof.
  intros Hs Hc.
  destruct (send_command_connected (with_little_endian endian self) p body Hs Hc)
    as (lo & hi & Vlo & Vhi & E).
  exists lo, hi. repeat split; try assumption.
  cbv zeta in E. rewrite E. reflexivity.
Qed.

Lemma send_command_frame_witness :
  serial (Bench.session []) = Some (Bench.link []) /\
  not_connected (Bench.session []) = false /\
  exists lo hi,
    byte_val lo = Z.land (_calculate_crc Bench.status_request_body) 255 /\
    byte_val hi = Z.shiftr (_calculate_crc Bench.status_request_body) 8 /\
    frames_written
      (snd (_send_command Bench.status_request_body
              (with_little_endian false (Bench.session []))))
    = (written (Bench.link []) ++ [Bench.status_request_body ++ [lo; hi]])%list.
Proof.
  split; [reflexivity|]. split; [reflexivity|].
  apply (send_command_frame (Bench.session []) (Bench.link [])
           Bench.status_request_body false); reflexivity.
Defined.

(** The outcome of [_send_command] on a connected session, by cases on what
    the receive loop returned. *)
Lemma send_command_outcome (self : t) (p : serial_port) (command : bytes) :
  serial self = Some p -> not_connected self = false ->
  ((length (received p) < 3)%nat /\
   fst (_send_command command self) = Raise (ReceiveTimeout (length (received p)))) \/
  ((3 <= length (received p))%nat /\
   exists body lo hi,
     received p = (body ++ [lo; hi])%list /\
     fst (_send_command command self) =
       if byte_val lo + 256 * byte_val hi =? _calculate_crc body
       then Ok (received p)
       else Raise (CrcFailed (_calculate_crc body)
                             (byte_val lo + 256 * byte_val hi))).
Proof.
  intros Hs Hc.
  destruct (send_command_connected self p command Hs Hc) as (lo0 & hi0 & _ & _ & E).
  cbv zeta in E. rewrite E. clear E. simpl fst.
  destruct (Nat.ltb_spec (length (received p)) 3) as [Hlt|Hge].
  - left. auto.
  - right. split; [assumption|].
    destruct (unpack_trailing _ Hge) as (body & lo & hi & Hr & Hf & Hk).
    exists body, lo, hi. split; [assumption|].
    rewrite Hf, Hk. unfold unpack_le_H. rewrite word_value.
    destruct (_ =? _); reflexivity.
Qed.

Lemma checksum_ok_decide (body : bytes) (lo hi : byte) :
  checksum_ok (body ++ [lo; hi]) <->
  (byte_val lo + 256 * byte_val hi =? _calculate_crc body) = true.
Proof.
  rewrite Z.eqb_eq. split.
  - intros (b' & lo' & hi' & Happ & Hcrc).
    apply app_two_inj in Happ. destruct Happ as (-> & -> & ->). exact Hcrc.
  - intros H. exists body, lo, hi. auto.
Qed.

Lemma received_short (p : serial_port) :
  (length (received p) < 3)%nat <-> (length (arrived p) < 3)%nat.
Proof.
  unfold received, arrived. rewrite read_response_short. simpl. reflexivity.
Qed.

(** C9. On a connected session [_send_command] fails with the timeout
    error exactly when fewer than three bytes arrive within the timeout;
    otherwise it fails with the checksum error exactly when the trailing
    two bytes of the response differ from the checksum of the bytes before
    them; otherwise it returns the raw response. A status read whose
    exchange succeeded fails with the response-length error when the
    response has fewer than 21 bytes and returns the raw response
    otherwise. *)
Theorem transport_failure_conditions (self : t) (p : serial_port)
    (command : bytes) :
  serial self = Some p -> not_connected self = false ->
  let outcome := fst (_send_command command self) in
  ((exists n, outcome = Raise (ReceiveTimeout n)) <-> (length (arrived p) < 3)%nat) /\
  ((exists c r, outcome = Raise (CrcFailed c r)) <->
   ((3 <= length (arrived p))%nat /\ ~ checksum_ok (received p))) /\
  ((3 <= length (arrived p))%nat -> checksum_ok (received p) ->
   outcome = Ok (received p)) /\
  (0 <= slave_addr self <= 255 ->
   (3 <= length (arrived p))%nat -> checksum_ok (received p) ->
   fst (_read_raw_status self) =
     if (length (received p) <? 21)%nat
     then Raise (InvalidLength (length (received p)))
     else Ok (received p)).
Proof.
  intros Hs Hc outcome.
  pose proof (received_short p) as Hshort.
  assert (Hsend : forall cmd,
    (3 <= length (arrived p))%nat -> checksum_ok (received p) ->
    fst (_send_command cmd self) = Ok (received p)).
  { intros cmd Hlen Hok.
    destruct (send_command_outcome self p cmd Hs Hc)
      as [[Hlt _] | [_ (body & lo & hi & Hr & E)]]; [lia|].
    rewrite E. rewrite Hr in Hok. apply checksum_ok_decide in Hok.
    rewrite Hok. reflexivity. }
  destruct (send_command_outcome self p command Hs Hc)
    as [[Hlt E] | [Hge (body & lo & hi & Hr & E)]]; fold outcome in E.
  - (* fewer than three bytes *)
    split; [|split; [|split]].
    + split; [intros _; lia | intros _; eauto].
    + split.
      * intros (c & r & Hcr). rewrite E in Hcr. discriminate.
      * intros [Hlen _]. lia.
    + intros Hlen. lia.
    + intros _ Hlen. lia.
  - (* at least three bytes *)
    split; [|split; [|split]].
    + split.
      * intros (n & Hn). rewrite E in Hn. destruct (_ =? _); discriminate.
      * intros Hlen. lia.
    + split.
      * intros (c & r & Hcr). split; [lia|].
        rewrite E in Hcr. rewrite Hr, checksum_ok_decide.
        destruct (_ =? _); [discriminate | intros Habs; discriminate].
      * intros [_ Hbad]. rewrite Hr, checksum_ok_decide in Hbad. rewrite E.
        destruct (_ =? _); [contradiction Hbad; reflexivity | eauto].
    + intros Hlen Hok. apply Hsend; assumption.
    + intros Haddr Hlen Hok.
      destruct (status_request_packs self Haddr) as (a & Ereq & _).
      unfold _read_raw_status, bind, get, lift. rewrite Ereq.
      cbv beta iota.
      specialize (Hsend [a; x03; x00; x00; x08; x00] Hlen Hok).
      revert Hsend.
      destruct (_send_command [a; x03; x00; x00; x08; x00] self) as [r s1].
      simpl. intros ->.
      unfold raise, ret.
      destruct (length (received p) <? 21)%nat; reflexivity.
Qed.

Lemma transport_failure_conditions_witness :
  fst (_send_command Bench.status_request_body
         (Bench.session [[Bench.idle_status]])) = Ok Bench.idle_status /\
  fst (_read_raw_status (Bench.session [[Bench.idle_status]]))
  = Ok Bench.idle_status.
Proof.
  assert (Hok : checksum_ok (received (Bench.link [[Bench.idle_status]]))).
  { exists (firstn 19 Bench.idle_status),
           (nth 19 Bench.idle_status x00), (nth 20 Bench.idle_status x00).
    split; vm_compute; reflexivity. }
  destruct (transport_failure_conditions
              (Bench.session [[Bench.idle_status]])
              (Bench.link [[Bench.idle_status]])
              Bench.status_request_body eq_refl eq_refl)
    as (_ & _ & Hsend & Hread).
  split.
  - apply Hsend; [vm_compute; lia | exact Hok].
  - apply Hread; [vm_compute; split; discriminate | vm_compute; lia | exact Hok].
Defined.

(* ================================================================== *)
(** * Device session: [read_status] and [set_output] *)
(* ================================================================== *)

(** A successful raw status read is one exchange of the status request. *)
Lemma read_raw_status_ok (self s1 : t) (response : bytes) :
  _read_raw_status self = (Ok response, s1) ->
  exists p request lo hi,
    serial self = Some p /\ not_connected self = false /\
    status_request self = Ok request /\
    s1 = with_serial (snd (exchange (request ++ [lo; hi]) p)) self /\
    response = received p /\ (21 <= length response)%nat.
Proof.
  unfold _read_raw_status, bind, get, lift. cbv beta iota.
  destruct (status_request self) as [request|e] eqn:Ereq; [|discriminate].
  destruct (not_connected self) eqn:Hc.
  - unfold _send_command. rewrite Hc.
    destruct (serial self); discriminate.
  - destruct (not_connected_false self Hc) as (p & Hs & _ & _).
    destruct (send_command_connected self p request Hs Hc) as (lo & hi & _ & _ & E).
    cbv zeta in E. rewrite E. clear E.
    destruct (length (received p) <? 3)%nat; [discriminate|].
    destruct (unpack_le_H _); [|discriminate].
    destruct (negb _); [discriminate|].
    unfold raise, ret.
    destruct (Nat.ltb_spec (length (received p)) 21) as [Hlt|Hge]; [discriminate|].
    intros H. inversion H; subst.
    exists p, request, lo, hi. auto 10.
Qed.

(** [read_status] is [_read_raw_status] followed by decoding, which cannot
    fail on a response of at least 21 bytes; it stores the status in
    [last_status]. *)
Lemma read_status_ok (self s1 : t) (st : Status.t) :
  read_status self = (Ok st, s1) ->
  exists p request lo hi,
    serial self = Some p /\ not_connected self = false /\
    status_request self = Ok request /\
    s1 = with_last_status st
           (with_serial (snd (exchange (request ++ [lo; hi]) p)) self).
Proof.
  unfold read_status. unfold bind at 1.
  destruct (_read_raw_status self) as [[response|e] s0] eqn:Eraw; [|discriminate].
  destruct (read_raw_status_ok _ _ _ Eraw)
    as (p & request & lo & hi & Hs & Hc & Ereq & Es0 & _ & _).
  unfold bind, get, lift, put, ret. cbv beta iota.
  repeat match goal with
         | |- context [_unpack_word ?b ?d] => destruct (_unpack_word b d); [|discriminate]
         end.
  intros H. inversion H; subst.
  exists p, request, lo, hi. auto.
Qed.

(** The session after a successful status read: same profile, one more
    frame on the link, the status request. *)
Lemma read_status_effect (self s1 : t) (st : Status.t) :
  read_status self = (Ok st, s1) ->
  max_voltage s1 = max_voltage self /\
  max_current s1 = max_current self /\
  exists request,
    frames_written s1 = (frames_written self ++ [request])%list /\
    function_code request = 0x03.
Proof.
  intros H.
  destruct (read_status_ok _ _ _ H) as (p & request & lo & hi & Hs & Hc & Ereq & ->).
  split; [reflexivity|]. split; [reflexivity|].
  exists (request ++ [lo; hi])%list. split.
  - unfold frames_written. rewrite Hs. reflexivity.
  - unfold status_request, pack_BBHH in Ereq.
    destruct (pack_B (slave_addr self)) as [a|]; [|discriminate].
    simpl in Ereq. inversion Ereq. reflexivity.
Qed.

(** [set_output] in three phases: the status read, the preparation of the
    write request, and the guarded exchange. *)
Lemma set_output_phases (self : t) (voltage current : option float)
    (power_on ocp_enable keyboard_lock : option bool) :
  set_output voltage current power_on ocp_enable keyboard_lock self =
  match read_status self with
  | (Raise e, s1) => (Raise e, s1)
  | (Ok st, s1) =>
      match write_request s1 st voltage current power_on ocp_enable keyboard_lock with
      | Raise e => (Raise e, s1)
      | Ok full_command =>
          match _send_command full_command s1 with
          | (Ok response, s2) => (Ok (8 <=? length response)%nat, s2)
          | (Raise _, s2) => (Ok false, s2)
          end
      end
  end.
Proof.
  unfold set_output. unfold bind at 1.
  destruct (read_status self) as [[st|e] s1]; [|reflexivity].
  unfold write_request, bind, get, lift, try_except, ret. cbv beta iota zeta.
  destruct (validate_ranges _ _ _); [|reflexivity].
  destruct (PyFloat.int _); [|reflexivity].
  destruct (PyFloat.int _); [|reflexivity].
  destruct (build_write_command _ _ _ _); [|reflexivity].
  destruct (_send_command _ s1) as [[response|e] s2]; reflexivity.
Qed.

(** The preparation of the write request raises nothing but the three
    range errors and the conversion errors. *)
Lemma pack_B_raises (z : Z) (e : exn) : pack_B z = Raise e -> e = StructError.
Proof.
  unfold pack_B. destruct (_ && _); [destruct (Byte.of_N _)|]; congruence.
Qed.

Lemma pack_H_raises (endian : bool) (v : Z) (e : exn) :
  _pack_word endian v = Raise e -> e = StructError.
Proof.
  unfold _pack_word, pack_le_H, pack_be_H.
  destruct endian; destruct (_ && _);
    try destruct (pack_B (Z.land v 255)); try destruct (pack_B (Z.shiftr v 8));
    congruence.
Qed.

Lemma build_write_command_raises (self : t) (control v c : Z) (e : exn) :
  build_write_command self control v c = Raise e -> e = StructError.
Proof.
  unfold build_write_command, pack_BBHHB, pack_BBHH, pack_BB.
  destruct (pack_B (slave_addr self)); simpl.
  - destruct (pack_B control); simpl.
    + destruct (_pack_word (little_endian self) v) eqn:Ev.
      * destruct (_pack_word (little_endian self) c) eqn:Ec; [discriminate|].
        intros H. inversion H; subst. eapply pack_H_raises; eassumption.
      * intros H. inversion H; subst. eapply pack_H_raises; eassumption.
    + congruence.
  - congruence.
Qed.

Lemma validate_ranges_raises (self : t) (tv tc : float) (e : exn) :
  validate_ranges self tv tc = Raise e -> is_range_error e = true.
Proof.
  unfold validate_ranges.
  destruct (PyFloat.gt tv _); [intros H; inversion H; reflexivity|].
  destruct (PyFloat.gt tc _); [intros H; inversion H; reflexivity|].
  destruct (_ || _); [intros H; inversion H; reflexivity | discriminate].
Qed.

Lemma int_raises (x : float) (e : exn) :
  PyFloat.int x = Raise e -> is_conversion_error e = true.
Proof.
  destruct x; simpl; intros H; inversion H; reflexivity.
Qed.

Lemma write_request_raises (self : t) (st : Status.t)
    (voltage current : option float)
    (power_on ocp_enable keyboard_lock : option bool) (e : exn) :
  write_request self st voltage current power_on ocp_enable keyboard_lock = Raise e ->
  is_range_error e || is_conversion_error e = true.
Proof.
  unfold write_request. cbv zeta.
  destruct (validate_ranges _ _ _) eqn:Ev.
  - destruct (PyFloat.int _) eqn:E1.
    + destruct (PyFloat.int (PyFloat.mul (if_not_none current _) _)) eqn:E2.
      * intros H. apply build_write_command_raises in H. subst. reflexivity.
      * intros H. inversion H; subst.
        rewrite (int_raises _ _ E2). apply orb_true_r.
    + intros H. inversion H; subst.
      rewrite (int_raises _ _ E1). apply orb_true_r.
  - intros H. inversion H; subst.
    rewrite (validate_ranges_raises _ _ _ _ Ev). reflexivity.
Qed.

(** A target outside its range stops [write_request] at the validation. *)
Lemma write_request_out_of_range (self : t) (st : Status.t)
    (voltage current : option float)
    (power_on ocp_enable keyboard_lock : option bool) :
  let target_voltage := if_not_none voltage (Status.set_voltage st) in
  let target_current := if_not_none current (Status.set_current st) in
  PyFloat.gt target_voltage (max_voltage self) = true \/
  PyFloat.gt target_current (max_current self) = true \/
  PyFloat.lt target_voltage (PyFloat.of_int 0) = true \/
  PyFloat.lt target_current (PyFloat.of_int 0) = true ->
  exists e,
    write_request self st voltage current power_on ocp_enable keyboard_lock = Raise e /\
    is_range_error e = true.
Proof.
  intros tv tc H. unfold write_request. cbv zeta. fold tv tc.
  unfold validate_ranges.
  destruct (PyFloat.gt tv (max_voltage self)); [eexists; split; reflexivity|].
  destruct (PyFloat.gt tc (max_current self)); [eexists; split; reflexivity|].
  destruct (PyFloat.lt tv (PyFloat.of_int 0)); [eexists; split; reflexivity|].
  destruct (PyFloat.lt tc (PyFloat.of_int 0)); [eexists; split; reflexivity|].
  destruct H as [H|[H|[H|H]]]; discriminate.
Qed.

(** A failed status read is all [set_output] does: the exception goes to
    the caller and nothing is written after the status request. *)
Lemma set_output_read_failure (self s1 : t) (e : exn)
    (voltage current : option float)
    (power_on ocp_enable keyboard_lock : option bool) :
  read_status self = (Raise e, s1) ->
  set_output voltage current power_on ocp_enable keyboard_lock self = (Raise e, s1).
Proof. intros H. rewrite set_output_phases, H. reflexivity. Qed.

(** The layout of a write request: address, function code 0x10, register
    start 0, register count 3, byte count 6, control byte, reserved byte,
    voltage word, current word. *)
Lemma build_write_command_layout (self : t) (control v c : Z) (command : bytes) :
  build_write_command self control v c = Ok command ->
  exists a k vw cw,
    byte_val a = slave_addr self /\ byte_val k = control /\
    _pack_word (little_endian self) v = Ok vw /\
    _pack_word (little_endian self) c = Ok cw /\
    command = ([a; x10; x00; x00; x03; x00; x06] ++ [k; x00] ++ vw ++ cw)%list.
Proof.
  unfold build_write_command, pack_BBHHB, pack_BBHH, pack_BB.
  destruct (pack_B (slave_addr self)) as [a|] eqn:Ea; simpl; [|discriminate].
  destruct (pack_B control) as [k|] eqn:Ek; simpl; [|discriminate].
  destruct (_pack_word (little_endian self) v) as [vw|] eqn:Ev; [|discriminate].
  destruct (_pack_word (little_endian self) c) as [cw|] eqn:Ec; [|discriminate].
  intros H. inversion H; subst. exists a, k, vw, cw.
  pose proof (pack_B_inv _ _ Ea). pose proof (pack_B_inv _ _ Ek).
  repeat split; auto.
Qed.

(** ** Connecting *)

(** [_connect] tests the link with [_detect_device_specs], which goes
    through [_send_command], and [_send_command] refuses to run unless
    [connected] is already set: on an object that is not connected,
    [_connect] returns [False] and leaves it not connected. *)
Lemma connect_needs_connected (self : t) (opened : result serial_port) :
  connected self = false ->
  fst (_connect opened self) = Ok false /\
  connected (snd (_connect opened self)) = false.
Proof.
  intros Hc.
  assert (Hclose : forall s, connected (snd (close_serial s)) = connected s
                             /\ fst (close_serial s) = Ok tt).
  { intros s. unfold close_serial. destruct (serial s); auto. }
  unfold _connect, try_except, bind.
  destruct (Hclose self) as [Hc1 Hf1].
  destruct (close_serial self) as [r1 s1]. simpl in Hc1, Hf1. subst r1.
  unfold lift. destruct opened as [p|e]; cbv beta iota.
  - unfold _detect_device_specs, _read_raw_status. unfold bind, get, lift.
    cbv beta iota.
    destruct (status_request (with_serial p s1)) as [request|e].
    + unfold _send_command. simpl serial. cbv beta iota.
      assert (Hn : not_connected (with_serial p s1) = true).
      { unfold not_connected. simpl. rewrite Hc1, Hc. reflexivity. }
      rewrite Hn. unfold ret.
      destruct (Hclose (with_serial p s1)) as [Hc2 Hf2].
      destruct (close_serial (with_serial p s1)) as [r2 s2].
      simpl in Hc2, Hf2. subst r2. simpl. rewrite Hc2, Hc1, Hc. auto.
    + unfold ret.
      destruct (Hclose (with_serial p s1)) as [Hc2 Hf2].
      destruct (close_serial (with_serial p s1)) as [r2 s2].
      simpl in Hc2, Hf2. subst r2. simpl. rewrite Hc2, Hc1, Hc. auto.
  - unfold ret.
    destruct (Hclose s1) as [Hc2 Hf2].
    destruct (close_serial s1) as [r2 s2].
    simpl in Hc2, Hf2. subst r2. simpl. rewrite Hc2, Hc1, Hc. auto.
Qed.

(** On an object whose [connected] flag is set, detection derives the
    profile of the bench unit from its status frame. *)
Example detect_bench_profile :
  let outcome := _detect_device_specs (Bench.session [[Bench.idle_status]]) in
  fst outcome = Ok tt /\
  voltage_decimal_places (snd outcome) = 2%nat /\
  current_decimal_places (snd outcome) = 2%nat /\
  little_endian (snd outcome) = true /\
  max_voltage (snd outcome) = PyFloat.true_div 3000 100 /\
  max_current (snd outcome) = PyFloat.true_div 500 100 /\
  device_model (snd outcome) = "WANPTEK 30V/5A"%string.
Proof. vm_compute. repeat split. Qed.

(* ================================================================== *)
(** * Device session: the claims *)
(* ================================================================== *)

(** C7. When the status read at the start of [set_output] succeeds and the
    effective target voltage exceeds [max_voltage], or the effective target
    current exceeds [max_current], or either target is negative,
    [set_output] raises one of the range errors, and the only frame it has
    put on the link is the status request (function code 0x03): no write
    frame is issued. *)
Theorem set_output_rejects_out_of_range (self s1 : t) (st : Status.t)
    (voltage current : option float)
    (power_on ocp_enable keyboard_lock : option bool) :
  read_status self = (Ok st, s1) ->
  let target_voltage := if_not_none voltage (Status.set_voltage st) in
  let target_current := if_not_none current (Status.set_current st) in
  PyFloat.gt target_voltage (max_voltage self) = true \/
  PyFloat.gt target_current (max_current self) = true \/
  PyFloat.lt target_voltage (PyFloat.of_int 0) = true \/
  PyFloat.lt target_current (PyFloat.of_int 0) = true ->
  exists e request,
    set_output voltage current power_on ocp_enable keyboard_lock self
      = (Raise e, s1) /\
    is_range_error e = true /\
    frames_written s1 = (frames_written self ++ [request])%list /\
    function_code request = 0x03.
Proof.
  intros Hread tv tc Hrange.
  destruct (read_status_effect _ _ _ Hread) as (Hmv & Hmc & request & Hw & Hf).
  rewrite <- Hmv, <- Hmc in Hrange.
  destruct (write_request_out_of_range s1 st voltage current
              power_on ocp_enable keyboard_lock Hrange) as (e & He & Hre).
  exists e, request. rewrite set_output_phases, Hread, He. auto.
Qed.

Lemma set_output_rejects_out_of_range_witness :
  exists e request,
    set_output (Some (PyFloat.true_div 31 1)) None None None None
      (Bench.session [[Bench.idle_status]])
      = (Raise e, snd (read_status (Bench.session [[Bench.idle_status]]))) /\
    is_range_error e = true /\
    frames_written (snd (read_status (Bench.session [[Bench.idle_status]])))
      = (frames_written (Bench.session [[Bench.idle_status]]) ++ [request])%list /\
    function_code request = 0x03.
Proof.
  apply (set_output_rejects_out_of_range
           (Bench.session [[Bench.idle_status]])
           (snd (read_status (Bench.session [[Bench.idle_status]])))
           (match fst (read_status (Bench.session [[Bench.idle_status]])) with
            | Ok st => st
            | Raise _ => Bench.no_status
            end)).
  - vm_compute. reflexivity.
  - left. vm_compute. reflexivity.
Defined.

(** C8, what the code does. The status read reports the set-current word
    29 (0.29 A with two decimal places). [set_voltage(5.0)] leaves the
    current unspecified, fills it with 29 / 100 from the status, and
    converts it back with [int(0.29 * 100)], where the binary64 product is
    28.999999999999996: the write frame carries the current word 28. The
    three flags and the requested 5.00 V (word 500) are written as
    expected. *)
Theorem set_voltage_lowers_unspecified_current :
  let session := Bench.session [[Bench.panel_status]; [Bench.write_ack]] in
  let outcome := set_voltage Bench.five_volts session in
  _unpack_word true (slice 13 15 Bench.panel_status) = Ok 29 /\
  fst outcome = Ok true /\
  frames_written (snd outcome) =
    [ [x00; x03; x00; x00; x08; x00; x43; xdb];
      [x00; x10; x00; x00; x03; x00; x06; x07; x00; xf4; x01; x1c; x00; xda; x63] ] /\
  _unpack_word true [x1c; x00] = Ok 28.
Proof. vm_compute. repeat split. Qed.

(** The product behind it: 29 / 100 * 100 truncates to 28. *)
Example int_of_029_times_100 :
  PyFloat.int (PyFloat.mul (PyFloat.true_div 29 100) (PyFloat.of_int 100)) = Ok 28.
Proof. reflexivity. Qed.

(** The scenario of the specification, for comparison: with 1.00 A set
    (word 100), [set_voltage(5.0)] writes the current word 100 back. *)
Example set_voltage_keeps_one_amp :
  let session := Bench.session [[Bench.idle_status]; [Bench.write_ack]] in
  let outcome := set_voltage Bench.five_volts session in
  _unpack_word true (slice 13 15 Bench.idle_status) = Ok 100 /\
  fst outcome = Ok true /\
  frames_written (snd outcome) =
    [ [x00; x03; x00; x00; x08; x00; x43; xdb];
      [x00; x10; x00; x00; x03; x00; x06; x00; x00; xf4; x01; x64; x00; xf9; xd4] ].
Proof. vm_compute. repeat split. Qed.

(** [_send_command] only ever appends to the log of written frames. *)
Lemma send_command_log (self : t) (command : bytes) :
  exists later,
    frames_written (snd (_send_command command self))
    = (frames_written self ++ later)%list.
Proof.
  destruct (not_connected self) eqn:Hc.
  - exists []. rewrite app_nil_r.
    unfold _send_command. rewrite Hc. destruct (serial self); reflexivity.
  - destruct (not_connected_false self Hc) as (p & Hs & _ & _).
    destruct (send_command_connected self p command Hs Hc) as (lo & hi & _ & _ & E).
    cbv zeta in E. rewrite E.
    exists [(command ++ [lo; hi])%list].
    unfold frames_written at 2. rewrite Hs. reflexivity.
Qed.

(** On a connected session [read_status] writes exactly one frame, the
    status request, whether it succeeds or not. *)
Lemma read_status_log (self : t) (p : serial_port) :
  serial self = Some p -> not_connected self = false ->
  0 <= slave_addr self <= 255 ->
  exists request,
    frames_written (snd (read_status self)) = (written p ++ [request])%list /\
    function_code request = 0x03.
Proof.
  intros Hs Hc Haddr.
  destruct (status_request_packs self Haddr) as (a & Ereq & _).
  destruct (send_command_connected self p [a; x03; x00; x00; x08; x00] Hs Hc)
    as (lo & hi & _ & _ & Esend).
  cbv zeta in Esend.
  exists ([a; x03; x00; x00; x08; x00] ++ [lo; hi])%list.
  split; [|reflexivity].
  set (s0 := with_serial
               (snd (exchange ([a; x03; x00; x00; x08; x00] ++ [lo; hi]) p)) self)
    in Esend.
  assert (Hraw : snd (_read_raw_status self) = s0).
  { unfold _read_raw_status, bind, get, lift. rewrite Ereq. cbv beta iota.
    rewrite Esend.
    match goal with
    | |- context [if ?c then Raise ?e else ?x] =>
        destruct (if c then Raise e else x) as [response|e']
    end; [|reflexivity].
    unfold raise, ret. destruct (length response <? 21)%nat; reflexivity. }
  unfold read_status. unfold bind at 1.
  destruct (_read_raw_status self) as [[response|e] s0']; simpl in Hraw; subst s0'.
  - unfold bind, get, lift, put, ret. cbv beta iota.
    repeat match goal with
           | |- context [_unpack_word ?b ?d] => destruct (_unpack_word b d)
           end; reflexivity.
  - reflexivity.
Qed.

(** Every call of [set_output] on a connected session starts with the
    status request: whatever the call returns, the first frame it writes
    has function code 0x03. *)
Lemma set_output_reads_first (self : t) (voltage current : option float)
    (power_on ocp_enable keyboard_lock : option bool) (p : serial_port) :
  serial self = Some p -> not_connected self = false ->
  0 <= slave_addr self <= 255 ->
  exists request later,
    frames_written
      (snd (set_output voltage current power_on ocp_enable keyboard_lock self))
    = (written p ++ request :: later)%list /\
    function_code request = 0x03.
Proof.
  intros Hs Hc Haddr.
  destruct (read_status_log self p Hs Hc Haddr) as (request & Hst & Hf).
  exists request. rewrite set_output_phases.
  destruct (read_status self) as [[st|e] s1]; simpl in Hst.
  - destruct (write_request _ _ _ _ _ _ _) as [cmd|e].
    + destruct (send_command_log s1 cmd) as (later & Hl).
      exists later. split; [|assumption].
      destruct (_send_command cmd s1) as [[response|e] s2]; simpl in *;
        rewrite Hl, Hst, <- app_assoc; reflexivity.
    + exists []. auto.
  - exists []. auto.
Qed.

(** Omitted flags are written back as read: the control byte of the write
    request is built from the flags of the status. *)
Lemma control_byte_from_status (power ocp lock : bool) :
  build_control_byte power ocp lock
  = Z.b2z power + 2 * Z.b2z ocp + 4 * Z.b2z lock.
Proof. destruct power, ocp, lock; reflexivity. Qed.

(** C10, as the code has it. When the write request is ready and its
    exchange raises, whatever the exception, [set_output] returns [False]
    and raises nothing. What [set_output] does raise comes from before the
    write: either the initial [read_status] failed, or the preparation of
    the write request raised a range error or a conversion error ([int] of
    a NaN or an infinity, a word outside 0..65535), and then the session is
    as the status read left it. *)
Theorem set_output_failure_modes (self : t) (voltage current : option float)
    (power_on ocp_enable keyboard_lock : option bool) :
  (forall st s1 full_command e s2,
     read_status self = (Ok st, s1) ->
     write_request s1 st voltage current power_on ocp_enable keyboard_lock
       = Ok full_command ->
     _send_command full_command s1 = (Raise e, s2) ->
     set_output voltage current power_on ocp_enable keyboard_lock self
       = (Ok false, s2)) /\
  (forall e s',
     set_output voltage current power_on ocp_enable keyboard_lock self
       = (Raise e, s') ->
     read_status self = (Raise e, s') \/
     exists st,
       read_status self = (Ok st, s') /\
       write_request s' st voltage current power_on ocp_enable keyboard_lock
         = Raise e /\
       is_range_error e || is_conversion_error e = true).
Proof.
  split.
  - intros st s1 full_command e s2 Hread Hreq Hsend.
    rewrite set_output_phases, Hread, Hreq, Hsend. reflexivity.
  - intros e s'. rewrite set_output_phases.
    destruct (read_status self) as [[st|e1] s1].
    + destruct (write_request s1 st _ _ _ _ _) as [cmd|e2] eqn:Hreq.
      * destruct (_send_command cmd s1) as [[response|e3] s2]; discriminate.
      * intros H. inversion H; subst. right. exists st.
        repeat split; try assumption.
        eapply write_request_raises; eassumption.
    + intros H. inversion H; subst. left. reflexivity.
Qed.

Lemma set_output_failure_modes_witness :
  fst (set_voltage Bench.five_volts (Bench.session [[Bench.idle_status]; []]))
  = Ok false.
Proof.
  destruct (set_output_failure_modes
              (Bench.session [[Bench.idle_status]; []])
              (Some Bench.five_volts) None None None None) as [Hwrite _].
  unfold set_voltage.
  erewrite Hwrite; [reflexivity | | | ].
  - vm_compute. reflexivity.
  - vm_compute. reflexivity.
  - vm_compute. reflexivity.
Defined.

(** C10, the counterexample. With a NaN voltage the status read succeeds
    and the three range checks pass, NaN comparing false with everything;
    [int(nan * 100)] then raises, and this exception, which is neither a
    range error nor a failure of the status read, propagates. *)
Lemma set_output_nan_propagates :
  fst (read_status (Bench.session [[Bench.idle_status]]))
    = Ok (match fst (read_status (Bench.session [[Bench.idle_status]])) with
          | Ok st => st
          | Raise _ => Bench.no_status
          end) /\
  fst (set_output (Some PyFloat.nan) None None None None
         (Bench.session [[Bench.idle_status]])) = Raise IntOfNan /\
  is_range_error IntOfNan = false.
Proof. vm_compute. repeat split. Qed.

(* ================================================================== *)
(** * Strings: [upper], [replace] and occurrences *)
(* ================================================================== *)

Section StringLemmas.

Import PyStr.
Local Open Scope string_scope.
Local Open Scope nat_scope.

Lemma length_append (a b : string) :
  String.length (a ++ b) = String.length a + String.length b.
Proof. induction a as [|c a IH]; simpl; [reflexivity | rewrite IH; reflexivity]. Qed.

Lemma upper_char_idempotent (c : ascii) : upper_char (upper_char c) = upper_char c.
Proof. destruct c as [[] [] [] [] [] [] [] []]; reflexivity. Qed.

Lemma upper_idempotent (s : string) : upper (upper s) = upper s.
Proof.
  induction s as [|c s IH]; simpl; [reflexivity|].
  rewrite upper_char_idempotent, IH. reflexivity.
Qed.

Lemma length_upper (s : string) : String.length (upper s) = String.length s.
Proof. induction s as [|c s IH]; simpl; [reflexivity | rewrite IH; reflexivity]. Qed.

(** ** Prefixes and occurrences *)

Lemma prefix_nil (a : string) : String.prefix a EmptyString = true -> a = EmptyString.
Proof. destruct a; [reflexivity | discriminate]. Qed.

Lemma prefix_cons (c d : ascii) (a x : string) :
  String.prefix (String c a) (String d x) = true <-> c = d /\ String.prefix a x = true.
Proof.
  simpl. destruct (ascii_dec c d) as [->|Hne].
  - tauto.
  - split; [discriminate | intros [H _]; contradiction].
Qed.

Lemma prefix_append (a t : string) : String.prefix a (a ++ t) = true.
Proof.
  induction a as [|c a IH].
  - destruct t; reflexivity.
  - simpl. destruct (ascii_dec c c); [assumption | contradiction].
Qed.

Lemma prefix_trans (a b x : string) :
  String.prefix a b = true -> String.prefix b x = true -> String.prefix a x = true.
Proof.
  revert b x. induction a as [|c a IH]; intros b x Hab Hbx.
  - destruct x; reflexivity.
  - destruct b as [|d b]; [discriminate|].
    destruct x as [|e x]; [discriminate|].
    apply prefix_cons in Hab. apply prefix_cons in Hbx.
    destruct Hab as [-> Hab]. destruct Hbx as [-> Hbx].
    apply prefix_cons. split; [reflexivity|]. eapply IH; eassumption.
Qed.

Lemma prefix_upper (a x : string) :
  String.prefix a x = true -> String.prefix (upper a) (upper x) = true.
Proof.
  revert x. induction a as [|c a IH]; intros x H.
  - destruct x; reflexivity.
  - destruct x as [|d x]; [discriminate|].
    apply prefix_cons in H. destruct H as [-> H].
    simpl upper. apply prefix_cons. split; [reflexivity|]. apply IH. assumption.
Qed.

Lemma contains_cons (a : string) (c : ascii) (x : string) :
  contains a (String c x) = String.prefix a (String c x) || contains a x.
Proof. reflexivity. Qed.

Lemma contains_nil (a : string) :
  contains a EmptyString = String.prefix a EmptyString.
Proof. reflexivity. Qed.

Lemma contains_nonempty_nil (c : ascii) (a : string) :
  contains (String c a) EmptyString = false.
Proof. reflexivity. Qed.

Lemma contains_append (a t : string) : contains a (a ++ t) = true.
Proof.
  destruct a as [|c a].
  - destruct t; reflexivity.
  - change (String c a ++ t) with (String c (a ++ t)).
    rewrite contains_cons.
    change (String c (a ++ t)) with (String c a ++ t).
    rewrite prefix_append. reflexivity.
Qed.

Lemma contains_prefix_trans (a b x : string) :
  String.prefix a b = true -> contains b x = true -> contains a x = true.
Proof.
  intros Hab. induction x as [|c x IH]; intros H.
  - rewrite contains_nil in *. eapply prefix_trans; eassumption.
  - rewrite contains_cons in *. apply orb_true_iff in H. apply orb_true_iff.
    destruct H as [H|H].
    + left. eapply prefix_trans; eassumption.
    + right. apply IH. assumption.
Qed.

Lemma contains_upper (a x : string) :
  contains a x = true -> contains (upper a) (upper x) = true.
Proof.
  induction x as [|c x IH]; intros H.
  - rewrite contains_nil in H. change (upper EmptyString) with EmptyString.
    rewrite contains_nil. apply (prefix_upper a EmptyString). assumption.
  - rewrite contains_cons in H. apply orb_true_iff in H.
    simpl upper. rewrite contains_cons. apply orb_true_iff.
    destruct H as [H|H].
    + left. apply (prefix_upper a (String c x)). assumption.
    + right. apply IH. assumption.
Qed.

(** ** [replace] *)

Section Replace.

Variables old new : string.
Hypothesis old_nonempty : 1 <= String.length old.

Lemma replace_is_replace_from (s : string) :
  replace old new s = replace_from old new 0 s.
Proof. unfold replace. destruct old; [simpl in old_nonempty; lia | reflexivity]. Qed.

Lemma replace_from_cons (c : ascii) (rest : string) :
  replace_from old new 0 (String c rest) =
  if String.prefix old (String c rest)
  then new ++ replace_from old new (String.length old - 1) rest
  else String c (replace_from old new 0 rest).
Proof. reflexivity. Qed.

(** Without an occurrence nothing changes. *)
Lemma replace_absent (s : string) :
  contains old s = false -> replace old new s = s.
Proof.
  rewrite replace_is_replace_from.
  induction s as [|c rest IH]; intros H; [reflexivity|].
  rewrite contains_cons in H. apply orb_false_iff in H. destruct H as [Hp Hc].
  rewrite replace_from_cons, Hp, (IH Hc). reflexivity.
Qed.

(** With an occurrence the replacement text occurs in the result. *)
Lemma replace_present (s : string) :
  contains old s = true -> contains new (replace old new s) = true.
Proof.
  rewrite replace_is_replace_from.
  induction s as [|c rest IH]; intros H.
  - destruct old; [simpl in old_nonempty; lia | discriminate].
  - rewrite replace_from_cons.
    destruct (String.prefix old (String c rest)) eqn:Hp.
    + apply contains_append.
    + rewrite contains_cons, Hp in H. simpl in H.
      rewrite contains_cons, (IH H). apply orb_true_r.
Qed.

(** A replacement text at least as long as the pattern never shortens the
    string, counting the characters still to be skipped. *)
Lemma replace_from_length (s : string) (skip : nat) :
  String.length old <= String.length new ->
  String.length s <= String.length (replace_from old new skip s) + skip.
Proof.
  intros Hlen. revert skip. induction s as [|c rest IH]; intros skip.
  - simpl. lia.
  - destruct skip as [|k].
    + rewrite replace_from_cons.
      destruct (String.prefix old (String c rest)).
      * rewrite length_append. specialize (IH (String.length old - 1)).
        simpl String.length. lia.
      * specialize (IH 0). simpl String.length. lia.
    + specialize (IH k). simpl. lia.
Qed.

Lemma replace_length (s : string) :
  String.length old <= String.length new ->
  String.length s <= String.length (replace old new s).
Proof.
  intros Hlen. rewrite replace_is_replace_from.
  pose proof (replace_from_length s 0 Hlen). lia.
Qed.

(** A longer replacement text makes the string longer as soon as the
    pattern occurs. *)
Lemma replace_grows (s : string) :
  String.length old < String.length new ->
  contains old s = true ->
  String.length s < String.length (replace old new s).
Proof.
  intros Hlen. rewrite replace_is_replace_from.
  induction s as [|c rest IH]; intros H.
  - destruct old; [simpl in old_nonempty; lia | discriminate].
  - rewrite replace_from_cons.
    destruct (String.prefix old (String c rest)) eqn:Hp.
    + rewrite length_append.
      pose proof (replace_from_length rest (String.length old - 1) ltac:(lia)).
      simpl String.length. lia.
    + rewrite contains_cons, Hp in H. simpl in H.
      specialize (IH H). simpl String.length. lia.
Qed.

End Replace.

End StringLemmas.

(* ================================================================== *)
(** * Command normalization *)
(* ================================================================== *)

Section Normalization.

Import PyStr SCPICommandProcessor.
Local Open Scope string_scope.
Local Open Scope nat_scope.

Lemma abbreviations_ok : forallb entry_ok abbreviations = true.
Proof. reflexivity. Qed.

Lemma entry_ok_facts (entry : string * string) :
  entry_ok entry = true ->
  1 <= String.length (fst entry) /\
  String.length (fst entry) < String.length (snd entry) /\
  String.prefix (fst entry) (upper (snd entry)) = true.
Proof.
  unfold entry_ok. intros H.
  apply andb_true_iff in H. destruct H as [H H3].
  apply andb_true_iff in H. destruct H as [H1 H2].
  apply Nat.leb_le in H1. apply Nat.ltb_lt in H2. auto.
Qed.

Lemma expand_cons (entry : string * string) (table : list (string * string))
    (command : string) :
  expand (entry :: table) command =
  expand table (replace (fst entry) (snd entry) command).
Proof. reflexivity. Qed.

(** A line that mentions no abbreviation of the table is left alone. *)
Lemma expand_absent (table : list (string * string)) (command : string) :
  forallb entry_ok table = true ->
  existsb (fun entry => contains (fst entry) command) table = false ->
  expand table command = command.
Proof.
  induction table as [|entry table IH]; intros Hok H; [reflexivity|].
  simpl in Hok, H. apply andb_true_iff in Hok. destruct Hok as [Hentry Hok].
  apply orb_false_iff in H. destruct H as [Hhere Hlater].
  destruct (entry_ok_facts _ Hentry) as (Hne & _ & _).
  rewrite expand_cons, replace_absent by assumption. apply IH; assumption.
Qed.

(** Expansion never shortens a line. *)
Lemma expand_length (table : list (string * string)) (command : string) :
  forallb entry_ok table = true ->
  String.length command <= String.length (expand table command).
Proof.
  revert command. induction table as [|entry table IH]; intros command Hok.
  - simpl. lia.
  - simpl in Hok. apply andb_true_iff in Hok. destruct Hok as [Hentry Hok].
    destruct (entry_ok_facts _ Hentry) as (Hne & Hlt & _).
    rewrite expand_cons.
    pose proof (replace_length (fst entry) (snd entry) Hne command ltac:(lia)).
    specialize (IH (replace (fst entry) (snd entry) command) Hok). lia.
Qed.

(** A line that mentions an abbreviation of the table comes out longer. *)
Lemma expand_grows (table : list (string * string)) (command : string) :
  forallb entry_ok table = true ->
  existsb (fun entry => contains (fst entry) command) table = true ->
  String.length command < String.length (expand table command).
Proof.
  revert command. induction table as [|entry table IH]; intros command Hok H.
  - discriminate.
  - simpl in Hok, H. apply andb_true_iff in Hok. destruct Hok as [Hentry Hok].
    destruct (entry_ok_facts _ Hentry) as (Hne & Hlt & _).
    rewrite expand_cons.
    destruct (contains (fst entry) command) eqn:Hhere.
    + pose proof (replace_grows (fst entry) (snd entry) Hne command Hlt Hhere).
      pose proof (expand_length table
                    (replace (fst entry) (snd entry) command) Hok). lia.
    + rewrite replace_absent by assumption. apply IH; assumption.
Qed.

(** If the upper-cased line mentions an abbreviation of [all], it still
    does after the entries of [table], taken from [all], are expanded. *)
Lemma expand_keeps_mention (all table : list (string * string)) (command : string) :
  forallb entry_ok table = true ->
  incl table all ->
  existsb (fun entry => contains (fst entry) (upper command)) all = true ->
  existsb (fun entry => contains (fst entry) (upper (expand table command))) all
  = true.
Proof.
  revert command. induction table as [|entry table IH]; intros command Hok Hin H.
  - exact H.
  - simpl in Hok. apply andb_true_iff in Hok. destruct Hok as [Hentry Hok].
    destruct (entry_ok_facts _ Hentry) as (Hne & _ & Hpre).
    rewrite expand_cons. apply IH.
    + assumption.
    + intros x Hx. apply Hin. right. assumption.
    + destruct (contains (fst entry) command) eqn:Hhere.
      * apply existsb_exists. exists entry. split; [apply Hin; left; reflexivity|].
        apply (contains_prefix_trans _ (upper (snd entry))); [assumption|].
        apply contains_upper. apply replace_present; assumption.
      * rewrite replace_absent by assumption. assumption.
Qed.

(** The normal form of a line that mentions no abbreviation is its
    upper-case form. *)
Lemma normalize_plain (s : string) :
  mentions_abbreviation (upper s) = false -> _normalize_command s = upper s.
Proof.
  intros H. unfold _normalize_command.
  apply expand_absent; [apply abbreviations_ok | exact H].
Qed.

(** The normal form of a line that mentions an abbreviation mentions it
    again, in upper case, and is longer than the line. *)
Lemma normalize_mention (s : string) :
  mentions_abbreviation (upper s) = true ->
  mentions_abbreviation (upper (_normalize_command s)) = true /\
  String.length s < String.length (_normalize_command s).
Proof.
  intros H. unfold _normalize_command, mentions_abbreviation. split.
  - apply expand_keeps_mention.
    + apply abbreviations_ok.
    + apply incl_refl.
    + rewrite upper_idempotent. exact H.
  - rewrite <- (length_upper s) at 1.
    apply expand_grows; [apply abbreviations_ok | exact H].
Qed.

End Normalization.

(* ================================================================== *)
(** * Command processor and connection server: the claims *)
(* ================================================================== *)

Section ScpiClaims.

Import PyStr SCPICommandProcessor.
Local Open Scope string_scope.

Variable float_of_str : string -> result float.
Variable format_3f : float -> string.
Variable str_exn : exn -> string.

(** C1, what the code does. The line [VOLT 5.0;VOLT?] is split in two
    commands. Normalization upper-cases [VOLT 5.0] and replaces [VOLT] by
    the mixed-case text [VOLTage]; the name [VOLTage] is then compared with
    the upper-cased patterns of the table, [VOLTAGE] among them, and
    matches none. Both commands are answered with the unknown-command
    error, whatever the session, and the device is not touched. *)
Theorem volt_abbreviation_unknown_command (self : SCPICommandProcessor.t) :
  _normalize_command "VOLT 5.0" = "VOLTage 5.0" /\
  _match_command "VOLTage" "VOLTage" = false /\
  process_command float_of_str format_3f str_exn "VOLT 5.0;VOLT?" self
  = (Ok ("ERROR: Unknown command" ++ nl ++ "ERROR: Unknown command"), self).
Proof. repeat split. Qed.

(** The handlers behind the two commands do what the start-up banner
    advertises when they are called directly: on a unit that acknowledges the write and
    then reports 5.00 V, [set_voltage("5.0")] answers [OK] and
    [get_voltage_setting()] answers the set voltage in the three-decimal
    format. Only the dispatch in front of them fails. *)
Example voltage_handlers_called_directly :
  let unit_status := Bench.status_response 0 0 0 500 100 3000 500 in
  let processor :=
    {| psu := Bench.session [[Bench.idle_status]; [Bench.write_ack]; [unit_status]];
       output_state := false |} in
  float_of_str "5.0" = Ok Bench.five_volts ->
  fst (SCPICommandProcessor.set_voltage float_of_str str_exn (Some "5.0") processor)
    = Ok "OK" /\
  fst (get_voltage_setting format_3f
         (snd (SCPICommandProcessor.set_voltage float_of_str str_exn
                 (Some "5.0") processor)))
    = Ok (format_3f (PyFloat.true_div 500 100)).
Proof.
  intros unit_status processor H.
  unfold SCPICommandProcessor.set_voltage, try_except, bind, lift.
  rewrite H. vm_compute. split; reflexivity.
Qed.

(** Commands without an abbreviation in their name are dispatched. *)
Example idn_is_dispatched (self : SCPICommandProcessor.t) :
  fst (process_command float_of_str format_3f str_exn "*idn?" self)
  = Ok ("WANPTEK," ++ WanptekPowerSupply.device_model (psu self)
        ++ ",SN123456,V1.0").
Proof. destruct self. reflexivity. Qed.

(** C3, what the code does. A client sends [QUIT] and, in a later packet,
    [*TST?]. The server sends the farewell, but the [break] leaves the
    inner line loop only: the session goes back to [recv], answers the
    self-test with [0], and the socket is not closed. *)
Theorem quit_does_not_end_session (self : SCPICommandProcessor.t) :
  SCPIServer._handle_client
    (process_command float_of_str format_3f str_exn)
    [SCPIServer.Data ("QUIT" ++ nl); SCPIServer.Data ("*TST?" ++ nl)] self
  = ([SCPIServer.Send SCPIServer.greeting;
      SCPIServer.Send SCPIServer.farewell;
      SCPIServer.Send ("0" ++ nl)], self).
Proof. destruct self. reflexivity. Qed.

(** Lines that follow [QUIT] in the same packet stay in the buffer and are
    answered with the next packet; the socket is closed only when the peer
    goes away. *)
Example quit_keeps_buffer (self : SCPICommandProcessor.t) :
  SCPIServer._handle_client
    (process_command float_of_str format_3f str_exn)
    [SCPIServer.Data ("exit" ++ nl ++ "*TST?" ++ nl);
     SCPIServer.Data nl;
     SCPIServer.PeerClosed] self
  = ([SCPIServer.Send SCPIServer.greeting;
      SCPIServer.Send SCPIServer.farewell;
      SCPIServer.Send ("0" ++ nl);
      SCPIServer.Close], self).
Proof. destruct self. reflexivity. Qed.

End ScpiClaims.

(** C2, the counterexample. [VOLT] normalizes to [VOLTage]; normalizing
    that upper-cases it to [VOLTAGE], whose first four letters are expanded
    once more. *)
Lemma normalize_not_idempotent :
  SCPICommandProcessor._normalize_command "VOLT" = "VOLTage"%string /\
  SCPICommandProcessor._normalize_command
    (SCPICommandProcessor._normalize_command "VOLT") = "VOLTageAGE"%string /\
  SCPICommandProcessor._normalize_command
    (SCPICommandProcessor._normalize_command "VOLT")
  <> SCPICommandProcessor._normalize_command "VOLT".
Proof. repeat split. discriminate. Qed.

(** C2, as the code has it. Normalizing a normalized line gives the same
    line exactly when the upper-cased line mentions none of the fifteen
    abbreviations; normalization is then plain upper-casing. A line that
    mentions one grows with every normalization. *)
Theorem normalize_idempotent_iff (s : string) :
  SCPICommandProcessor._normalize_command
    (SCPICommandProcessor._normalize_command s)
  = SCPICommandProcessor._normalize_command s
  <-> SCPICommandProcessor.mentions_abbreviation (PyStr.upper s) = false.
Proof.
  split.
  - intros Hidem.
    destruct (SCPICommandProcessor.mentions_abbreviation (PyStr.upper s)) eqn:H;
      [|reflexivity].
    destruct (normalize_mention s H) as [Hagain _].
    destruct (normalize_mention _ Hagain) as [_ Hlen].
    rewrite Hidem in Hlen. lia.
  - intros H. rewrite (normalize_plain s H).
    transitivity (PyStr.upper (PyStr.upper s)).
    + apply normalize_plain. rewrite upper_idempotent. exact H.
    + apply upper_idempotent.
Qed.

(* ================================================================== *)
(** * Further properties of the frame codec *)
(* ================================================================== *)

Lemma pack_B_byte_val (b : byte) : pack_B (byte_val b) = Ok b.
Proof.
  pose proof (byte_val_range b) as Hr.
  destruct (pack_B_val (byte_val b) ltac:(lia)) as (b' & E & V).
  rewrite E. f_equal.
  unfold byte_val in V. apply N2Z.inj in V.
  apply (f_equal Byte.of_N) in V. rewrite !Byte.of_to_N in V. congruence.
Qed.

Lemma word_parts (lo hi : byte) :
  0 <= byte_val lo + 256 * byte_val hi <= 65535 /\
  Z.land (byte_val lo + 256 * byte_val hi) 255 = byte_val lo /\
  Z.shiftr (byte_val lo + 256 * byte_val hi) 8 = byte_val hi.
Proof.
  pose proof (byte_val_range lo) as Hlo. pose proof (byte_val_range hi) as Hhi.
  split; [lia|]. split.
  - change 255 with (Z.ones 8). rewrite Z.land_ones by lia.
    change (2 ^ 8) with 256.
    rewrite (Z.mul_comm 256), Z.mod_add by lia.
    apply Z.mod_small. lia.
  - rewrite Z.shiftr_div_pow2 by lia. change (2 ^ 8) with 256.
    rewrite (Z.mul_comm 256), Z.div_add by lia.
    rewrite Z.div_small by lia. lia.
Qed.

(** X1. Decoding two bytes with [_unpack_word] and encoding the value with
    [_pack_word] in the same byte order gives the two bytes back; the
    decoded value is a 16-bit word. *)
Theorem unpack_pack_word_roundtrip (little_endian : bool) (b1 b2 : byte) :
  exists v,
    _unpack_word little_endian [b1; b2] = Ok v /\
    0 <= v <= 65535 /\
    _pack_word little_endian v = Ok [b1; b2].
Proof.
  destruct little_endian; unfold _unpack_word, unpack_le_H, unpack_be_H.
  - exists (byte_val b1 + 256 * byte_val b2).
    destruct (word_parts b1 b2) as (Hr & Hl & Hh).
    rewrite word_value. split; [reflexivity|]. split; [assumption|].
    unfold _pack_word, pack_le_H.
    replace ((0 <=? byte_val b1 + 256 * byte_val b2)
             && (byte_val b1 + 256 * byte_val b2 <=? 65535)) with true
      by (symmetry; apply andb_true_iff; split; apply Z.leb_le; lia).
    rewrite Hl, Hh, !pack_B_byte_val. reflexivity.
  - exists (byte_val b2 + 256 * byte_val b1).
    destruct (word_parts b2 b1) as (Hr & Hl & Hh).
    rewrite word_value. split; [reflexivity|]. split; [assumption|].
    unfold _pack_word, pack_be_H.
    replace ((0 <=? byte_val b2 + 256 * byte_val b1)
             && (byte_val b2 + 256 * byte_val b1 <=? 65535)) with true
      by (symmetry; apply andb_true_iff; split; apply Z.leb_le; lia).
    rewrite Hl, Hh, !pack_B_byte_val. reflexivity.
Qed.

(** ** The CRC as a one-to-one map *)

Lemma crc_unshift_shift (crc : Z) :
  0 <= crc < 65536 -> crc_unshift (crc_shift crc) = crc.
Proof.
  intros H.
  assert (Hhalf : 0 <= Z.shiftr crc 1 < 32768).
  { rewrite Z.shiftr_div_pow2 by lia. change (2 ^ 1) with 2.
    split; [apply Z.div_pos; lia | apply Z.div_lt_upper_bound; lia]. }
  assert (Hbit : Z.testbit (Z.shiftr crc 1) 15 = false).
  { rewrite <- (Z.mod_small (Z.shiftr crc 1) (2 ^ 15))
      by (change (2 ^ 15) with 32768; lia).
    apply Z.mod_pow2_bits_high. lia. }
  assert (Hodd : crc = 2 * Z.shiftr crc 1 + Z.b2z (Z.odd crc)).
  { rewrite Z.shiftr_div_pow2 by lia. change (2 ^ 1) with 2.
    pose proof (Z.div_mod crc 2 ltac:(lia)) as Hdm.
    rewrite Zmod_odd in Hdm. revert Hdm.
    destruct (Z.odd crc); simpl; lia. }
  rewrite crc_shift_bit_step.
  unfold Reference.bit_step, Reference.shifted_out, crc_unshift.
  rewrite Z.div2_spec.
  revert Hodd. destruct (Z.odd crc); cbv zeta iota; intros Hodd.
  - rewrite Z.lxor_spec, Hbit. simpl xorb. cbv iota.
    rewrite Z.lxor_assoc, Z.lxor_nilpotent, Z.lxor_0_r.
    simpl Z.b2z in Hodd. lia.
  - rewrite Hbit. simpl Z.b2z in Hodd. lia.
Qed.

Lemma crc_shift_injective (x y : Z) :
  0 <= x < 65536 -> 0 <= y < 65536 -> crc_shift x = crc_shift y -> x = y.
Proof.
  intros Hx Hy H. apply (f_equal crc_unshift) in H.
  rewrite !crc_unshift_shift in H by assumption. exact H.
Qed.

Lemma iter_crc_shift_u16 (n : nat) (x : Z) :
  0 <= x < 65536 -> 0 <= Nat.iter n crc_shift x < 65536.
Proof.
  intros Hx. induction n as [|n IH]; simpl; [assumption|].
  apply crc_shift_u16. assumption.
Qed.

Lemma iter_crc_shift_injective (n : nat) (x y : Z) :
  0 <= x < 65536 -> 0 <= y < 65536 ->
  Nat.iter n crc_shift x = Nat.iter n crc_shift y -> x = y.
Proof.
  intros Hx Hy. induction n as [|n IH]; simpl; intros H; [assumption|].
  apply IH. apply crc_shift_injective; try apply iter_crc_shift_u16; assumption.
Qed.

Lemma lxor_cancel_l (a b b' : Z) : Z.lxor a b = Z.lxor a b' -> b = b'.
Proof.
  intros H. apply (f_equal (Z.lxor a)) in H.
  rewrite <- !Z.lxor_assoc, Z.lxor_nilpotent, !Z.lxor_0_l in H. exact H.
Qed.

Lemma lxor_cancel_r (a a' b : Z) : Z.lxor a b = Z.lxor a' b -> a = a'.
Proof.
  intros H. rewrite (Z.lxor_comm a), (Z.lxor_comm a') in H.
  eapply lxor_cancel_l; eassumption.
Qed.

Lemma byte_val_injective (b b' : byte) : byte_val b = byte_val b' -> b = b'.
Proof.
  intros H. apply (f_equal pack_B) in H.
  rewrite !pack_B_byte_val in H. congruence.
Qed.

Lemma byte_u16 (b : byte) : 0 <= byte_val b < 65536.
Proof. pose proof (byte_val_range b). lia. Qed.

(** Different states stay different after a byte, and different bytes
    lead a state to different states. *)
Lemma crc_byte_injective_state (b : byte) (s s' : Z) :
  0 <= s < 65536 -> 0 <= s' < 65536 ->
  crc_byte s b = crc_byte s' b -> s = s'.
Proof.
  intros Hs Hs' H. unfold crc_byte in H.
  apply iter_crc_shift_injective in H;
    try (apply lxor_u16; [assumption | apply byte_u16]).
  eapply lxor_cancel_r; eassumption.
Qed.

Lemma crc_byte_injective_byte (s : Z) (b b' : byte) :
  0 <= s < 65536 -> crc_byte s b = crc_byte s b' -> b = b'.
Proof.
  intros Hs H. unfold crc_byte in H.
  apply iter_crc_shift_injective in H;
    try (apply lxor_u16; [assumption | apply byte_u16]).
  apply byte_val_injective. eapply lxor_cancel_l; eassumption.
Qed.

Lemma crc_fold_injective (data : bytes) (s s' : Z) :
  0 <= s < 65536 -> 0 <= s' < 65536 ->
  fold_left crc_byte data s = fold_left crc_byte data s' -> s = s'.
Proof.
  revert s s'. induction data as [|b rest IH]; intros s s' Hs Hs' H; simpl in H.
  - assumption.
  - apply IH in H; try (apply crc_byte_u16; assumption).
    eapply crc_byte_injective_state; eassumption.
Qed.

Lemma crc_byte_change (pre post : bytes) (b b' : byte) :
  _calculate_crc (pre ++ b :: post) = _calculate_crc (pre ++ b' :: post) ->
  b = b'.
Proof.
  unfold _calculate_crc. rewrite !fold_left_app. simpl. intros H.
  assert (Hs : 0 <= fold_left crc_byte pre 65535 < 65536)
    by (apply crc_fold_u16; lia).
  apply crc_fold_injective in H; try (apply crc_byte_u16; assumption).
  eapply crc_byte_injective_byte; eassumption.
Qed.

(** X2. Two byte sequences that differ in exactly one byte, whatever
    stands before and after it, have different checksums: a corruption
    confined to one byte, a single flipped bit in particular, always
    changes [_calculate_crc]. *)
Theorem crc_detects_byte_change (pre post : bytes) (b b' : byte) :
  b <> b' ->
  _calculate_crc (pre ++ b :: post) <> _calculate_crc (pre ++ b' :: post).
Proof.
  intros Hne H. apply Hne. eapply crc_byte_change; eassumption.
Qed.

Lemma crc_detects_byte_change_witness :
  _calculate_crc ([x00; x03] ++ x10 :: [x07; x01])
  <> _calculate_crc ([x00; x03] ++ x11 :: [x07; x01]).
Proof.
  apply (crc_detects_byte_change [x00; x03] [x07; x01] x10 x11). discriminate.
Defined.

(* ================================================================== *)
(** * Further properties of the transport *)
(* ================================================================== *)

(** X3. On a connected session, a response whose trailing two bytes are
    the checksum of an original body, but in whose body one byte was
    altered on the way, is always refused with the CRC error. *)
Theorem altered_response_rejected (self : t) (p : serial_port)
    (command pre post : bytes) (b b' lo hi : byte) :
  serial self = Some p -> not_connected self = false ->
  pack_le_H (_calculate_crc (pre ++ b :: post)) = Ok [lo; hi] ->
  b <> b' ->
  received p = ((pre ++ b' :: post) ++ [lo; hi])%list ->
  exists calculated got,
    fst (_send_command command self) = Raise (CrcFailed calculated got).
Proof.
  intros Hs Hc Hpack Hne Hrecv.
  destruct (pack_le_H_crc (pre ++ b :: post)) as (lo0 & hi0 & E0 & Vlo & Vhi).
  rewrite E0 in Hpack. inversion Hpack; subst lo0 hi0. clear Hpack.
  pose proof (calculate_crc_u16 (pre ++ b :: post)) as Hu.
  destruct (word_split _ Hu) as (_ & _ & Hjoin).
  rewrite <- Vlo, <- Vhi, word_value in Hjoin.
  destruct (send_command_outcome self p command Hs Hc)
    as [[Hlt _] | [_ (body & lo1 & hi1 & Hr & E)]].
  - rewrite Hrecv, length_app in Hlt. simpl in Hlt. rewrite length_app in Hlt.
    simpl in Hlt. lia.
  - rewrite Hrecv in Hr. apply app_two_inj in Hr.
    destruct Hr as (<- & <- & <-).
    rewrite E. rewrite Hjoin.
    destruct (Z.eqb_spec (_calculate_crc (pre ++ b :: post))
                         (_calculate_crc (pre ++ b' :: post))) as [Heq|Hdiff].
    + exfalso. apply Hne. eapply crc_byte_change; eassumption.
    + eauto.
Qed.

Lemma altered_response_rejected_witness :
  exists calculated got,
    fst (_send_command Bench.status_request_body
           (Bench.session [[Bench.tampered_status]]))
    = Raise (CrcFailed calculated got).
Proof.
  apply (altered_response_rejected
           (Bench.session [[Bench.tampered_status]])
           (Bench.link [[Bench.tampered_status]])
           Bench.status_request_body
           (firstn 7 Bench.idle_status) (slice 8 19 Bench.idle_status)
           x00 x01 (nth 19 Bench.idle_status x00) (nth 20 Bench.idle_status x00)).
  - reflexivity.
  - reflexivity.
  - vm_compute. reflexivity.
  - discriminate.
  - vm_compute. reflexivity.
Defined.

(** The receive loop stops at the first chunk that brings the response to
    three bytes. *)
Lemma read_response_first_chunk (first : bytes) (more : list bytes) :
  (3 <= length first)%nat -> read_response (first :: more) [] = first.
Proof.
  intros H. simpl. destruct more as [|c later]; [reflexivity|].
  simpl. destruct (Nat.ltb_spec (length first) 3); [lia | reflexivity].
Qed.

(** X4. The receive loop of [_send_command] never reads on once it holds
    three bytes. So when a status response arrives in pieces and the first
    piece has between 3 and 20 bytes, the status read fails, with the CRC
    error or the response-length error, although the rest of the response
    arrives within the timeout. *)
Theorem fragmented_status_rejected (self : t) (p : serial_port)
    (first : bytes) (more : list bytes) (later : list (list bytes)) :
  serial self = Some p -> not_connected self = false ->
  0 <= slave_addr self <= 255 ->
  incoming p = (first :: more) :: later ->
  (3 <= length first < 21)%nat ->
  received p = first /\
  ((exists calculated got,
      fst (_read_raw_status self) = Raise (CrcFailed calculated got)) \/
   fst (_read_raw_status self) = Raise (InvalidLength (length first))).
Proof.
  intros Hs Hc Haddr Hin Hlen.
  assert (Hrecv : received p = first).
  { unfold received. rewrite Hin. simpl hd.
    apply read_response_first_chunk. lia. }
  split; [assumption|].
  destruct (status_request_packs self Haddr) as (a & Ereq & _).
  unfold _read_raw_status, bind, get, lift. rewrite Ereq. cbv beta iota.
  destruct (send_command_outcome self p [a; x03; x00; x00; x08; x00] Hs Hc)
    as [[Hlt _] | [_ (body & lo & hi & Hr & E)]].
  - rewrite Hrecv in Hlt. lia.
  - revert E.
    destruct (_send_command [a; x03; x00; x00; x08; x00] self) as [r s1].
    simpl. intros ->.
    destruct (_ =? _).
    + right. rewrite Hrecv. unfold raise.
      destruct (Nat.ltb_spec (length first) 21); [reflexivity | lia].
    + left. do 2 eexists. reflexivity.
Qed.

Lemma fragmented_status_rejected_witness :
  received (Bench.link [[firstn 5 Bench.idle_status; skipn 5 Bench.idle_status]])
  = firstn 5 Bench.idle_status /\
  ((exists calculated got,
      fst (_read_raw_status
             (Bench.session
                [[firstn 5 Bench.idle_status; skipn 5 Bench.idle_status]]))
      = Raise (CrcFailed calculated got)) \/
   fst (_read_raw_status
          (Bench.session
             [[firstn 5 Bench.idle_status; skipn 5 Bench.idle_status]]))
   = Raise (InvalidLength (length (firstn 5 Bench.idle_status)))).
Proof.
  apply (fragmented_status_rejected
           (Bench.session
              [[firstn 5 Bench.idle_status; skipn 5 Bench.idle_status]])
           (Bench.link
              [[firstn 5 Bench.idle_status; skipn 5 Bench.idle_status]])
           (firstn 5 Bench.idle_status) [skipn 5 Bench.idle_status] []).
  - reflexivity.
  - reflexivity.
  - vm_compute. split; discriminate.
  - reflexivity.
  - vm_compute. lia.
Defined.

(** ** Disconnected objects *)

Lemma send_command_not_connected (self : t) (command : bytes) :
  not_connected self = true ->
  _send_command command self = (Raise DeviceNotConnected, self).
Proof.
  intros H. unfold _send_command. rewrite H. destruct (serial self); reflexivity.
Qed.

Lemma read_status_not_connected (self : t) :
  not_connected self = true -> 0 <= slave_addr self <= 255 ->
  read_status self = (Raise DeviceNotConnected, self).
Proof.
  intros H Haddr.
  destruct (status_request_packs self Haddr) as (a & Ereq & _).
  unfold read_status, _read_raw_status, bind, get, lift. rewrite Ereq.
  cbv beta iota. rewrite send_command_not_connected by assumption. reflexivity.
Qed.

(** X5. On an object that is not connected (flag not set, no port, or port
    closed) [read_status] and [set_output] raise the not-connected error
    and change nothing: no frame is written and [last_status] is kept. *)
Theorem operations_need_connection (self : t)
    (voltage current : option float)
    (power_on ocp_enable keyboard_lock : option bool) :
  not_connected self = true -> 0 <= slave_addr self <= 255 ->
  read_status self = (Raise DeviceNotConnected, self) /\
  set_output voltage current power_on ocp_enable keyboard_lock self
  = (Raise DeviceNotConnected, self).
Proof.
  intros H Haddr. split.
  - apply read_status_not_connected; assumption.
  - rewrite set_output_phases, read_status_not_connected by assumption.
    reflexivity.
Qed.

Lemma operations_need_connection_witness :
  read_status (fresh 0) = (Raise DeviceNotConnected, fresh 0) /\
  set_output (Some Bench.five_volts) None None None None (fresh 0)
  = (Raise DeviceNotConnected, fresh 0).
Proof.
  apply (operations_need_connection (fresh 0)); [reflexivity | simpl; lia].
Defined.

(** ** What the session operations keep *)

Lemma send_command_profile (command : bytes) (self : t) :
  profile (snd (_send_command command self)) = profile self.
Proof.
  destruct (not_connected self) eqn:Hc.
  - rewrite send_command_not_connected by assumption. reflexivity.
  - destruct (not_connected_false self Hc) as (p & Hs & _ & _).
    destruct (send_command_connected self p command Hs Hc) as (lo & hi & _ & _ & E).
    cbv zeta in E. rewrite E. reflexivity.
Qed.

Lemma read_raw_status_profile (self : t) :
  profile (snd (_read_raw_status self)) = profile self.
Proof.
  unfold _read_raw_status, bind, get, lift. cbv beta iota.
  destruct (status_request self) as [request|e]; [|reflexivity].
  pose proof (send_command_profile request self) as H. revert H.
  destruct (_send_command request self) as [[response|e] s1]; simpl; intros H.
  - unfold raise, ret. destruct (length response <? 21)%nat; exact H.
  - exact H.
Qed.

Lemma read_status_profile (self : t) :
  profile (snd (read_status self)) = profile self.
Proof.
  unfold read_status. unfold bind at 1.
  pose proof (read_raw_status_profile self) as H. revert H.
  destruct (_read_raw_status self) as [[response|e] s0]; simpl; intros H.
  - unfold bind, get, lift, put, ret. cbv beta iota.
    repeat match goal with
           | |- context [_unpack_word ?b ?d] => destruct (_unpack_word b d)
           end; exact H.
  - exact H.
Qed.

(** X6. [read_status] and [set_output] never change the device profile
    (address, decimal places, series, maxima, nominal values, byte order,
    model) nor the [connected] flag, whether they return or raise. *)
Theorem session_operations_keep_profile (self : t)
    (voltage current : option float)
    (power_on ocp_enable keyboard_lock : option bool) :
  profile (snd (read_status self)) = profile self /\
  profile (snd (set_output voltage current power_on ocp_enable keyboard_lock self))
  = profile self.
Proof.
  split; [apply read_status_profile|].
  rewrite set_output_phases.
  pose proof (read_status_profile self) as H. revert H.
  destruct (read_status self) as [[st|e] s1]; simpl; intros H; [|exact H].
  destruct (write_request _ _ _ _ _ _ _) as [cmd|e]; [|exact H].
  pose proof (send_command_profile cmd s1) as H2. revert H2.
  destruct (_send_command cmd s1) as [[response|e] s2]; simpl; intros H2;
    rewrite H2; exact H.
Qed.

(** ** The status snapshot *)

(** What a successful [read_status] returns, field by field, in terms of
    the response it received. *)
Lemma read_status_snapshot (self s1 : t) (st : Status.t) :
  read_status self = (Ok st, s1) ->
  exists p,
    serial self = Some p /\ not_connected self = false /\
    (21 <= length (received p))%nat /\
    last_status s1 = Some st /\
    let data := slice 3 19 (received p) in
    Status.power_on st = flag (item data 0) 0x01 /\
    Status.ocp_enabled st = flag (item data 0) 0x02 /\
    Status.keyboard_locked st = flag (item data 0) 0x04 /\
    _unpack_word (little_endian self) (slice 8 10 data)
      = Ok (match _unpack_word (little_endian self) (slice 8 10 data) with
            | Ok w => w | Raise _ => 0 end) /\
    _unpack_word (little_endian self) (slice 10 12 data)
      = Ok (match _unpack_word (little_endian self) (slice 10 12 data) with
            | Ok w => w | Raise _ => 0 end) /\
    Status.set_voltage st =
      PyFloat.true_div
        (match _unpack_word (little_endian self) (slice 8 10 data) with
         | Ok w => w | Raise _ => 0 end)
        (10 ^ Z.of_nat (voltage_decimal_places self)) /\
    Status.set_current st =
      PyFloat.true_div
        (match _unpack_word (little_endian self) (slice 10 12 data) with
         | Ok w => w | Raise _ => 0 end)
        (10 ^ Z.of_nat (current_decimal_places self)) /\
    Status.real_power st
      = PyFloat.mul (Status.real_voltage st) (Status.real_current st) /\
    Status.set_power st
      = PyFloat.mul (Status.set_voltage st) (Status.set_current st) /\
    Status.max_voltage st = max_voltage self /\
    Status.max_current st = max_current self /\
    Status.nominal_voltage st = nominal_voltage self /\
    Status.nominal_current st = nominal_current self /\
    Status.model st = device_model self.
Proof.
  unfold read_status. unfold bind at 1.
  destruct (_read_raw_status self) as [[response|e] s0] eqn:Eraw; [|discriminate].
  destruct (read_raw_status_ok _ _ _ Eraw)
    as (p & request & lo & hi & Hs & Hc & Ereq & Es0 & Hresp & Hlen).
  subst response s0.
  unfold bind, get, lift, put, ret. cbv beta iota.
  change (little_endian (with_serial _ self)) with (little_endian self).
  destruct (_unpack_word (little_endian self) (slice 4 6 _)); [|discriminate].
  destruct (_unpack_word (little_endian self) (slice 6 8 _)); [|discriminate].
  destruct (_unpack_word (little_endian self) (slice 8 10 _)) eqn:E3; [|discriminate].
  destruct (_unpack_word (little_endian self) (slice 10 12 _)) eqn:E4; [|discriminate].
  intros H. inversion H; subst. clear H.
  exists p. cbv zeta. rewrite E3, E4.
  repeat split; try reflexivity; assumption.
Qed.

(** X7. Every snapshot a successful [read_status] returns has its two
    power entries equal to the products of the matching voltage and current
    entries, carries the maxima, nominal values and model of the session,
    and is the one stored in [last_status]. *)
Theorem read_status_snapshot_invariants (self s1 : t) (st : Status.t) :
  read_status self = (Ok st, s1) ->
  Status.real_power st
    = PyFloat.mul (Status.real_voltage st) (Status.real_current st) /\
  Status.set_power st
    = PyFloat.mul (Status.set_voltage st) (Status.set_current st) /\
  Status.max_voltage st = max_voltage self /\
  Status.max_current st = max_current self /\
  Status.nominal_voltage st = nominal_voltage self /\
  Status.nominal_current st = nominal_current self /\
  Status.model st = device_model self /\
  last_status s1 = Some st.
Proof.
  intros H. destruct (read_status_snapshot _ _ _ H)
    as (p & _ & _ & _ & Hlast & _ & _ & _ & _ & _ & _ & _ & Hrp & Hsp
        & Hmv & Hmc & Hnv & Hnc & Hm).
  auto 10.
Qed.

Lemma read_status_snapshot_invariants_witness :
  let outcome := read_status (Bench.session [[Bench.panel_status]]) in
  let st := match fst outcome with Ok st => st | Raise _ => Bench.no_status end in
  Status.real_power st
    = PyFloat.mul (Status.real_voltage st) (Status.real_current st) /\
  Status.set_power st
    = PyFloat.mul (Status.set_voltage st) (Status.set_current st) /\
  Status.max_voltage st = max_voltage (Bench.session [[Bench.panel_status]]) /\
  Status.max_current st = max_current (Bench.session [[Bench.panel_status]]) /\
  Status.nominal_voltage st = nominal_voltage (Bench.session [[Bench.panel_status]]) /\
  Status.nominal_current st = nominal_current (Bench.session [[Bench.panel_status]]) /\
  Status.model st = device_model (Bench.session [[Bench.panel_status]]) /\
  last_status (snd outcome) = Some st.
Proof.
  intros outcome st.
  apply (read_status_snapshot_invariants
           (Bench.session [[Bench.panel_status]]) (snd outcome) st).
  vm_compute. reflexivity.
Defined.

(** ** What a returning [set_output] has done *)

Lemma validate_ranges_ok (self : t) (tv tc : float) :
  validate_ranges self tv tc = Ok tt ->
  PyFloat.gt tv (max_voltage self) = false /\
  PyFloat.gt tc (max_current self) = false /\
  PyFloat.lt tv (PyFloat.of_int 0) = false /\
  PyFloat.lt tc (PyFloat.of_int 0) = false.
Proof.
  unfold validate_ranges.
  destruct (PyFloat.gt tv _); [discriminate|].
  destruct (PyFloat.gt tc _); [discriminate|].
  destruct (PyFloat.lt tv _); [discriminate|].
  destruct (PyFloat.lt tc _); [discriminate|]. auto.
Qed.

Lemma pack_word_range (endian : bool) (v : Z) (data : bytes) :
  _pack_word endian v = Ok data -> 0 <= v <= 65535.
Proof.
  unfold _pack_word, pack_le_H, pack_be_H.
  destruct endian;
    destruct ((0 <=? v) && (v <=? 65535)) eqn:Hr; try discriminate;
    apply andb_true_iff in Hr; destruct Hr as [H0 H1];
    apply Z.leb_le in H0; apply Z.leb_le in H1; lia.
Qed.

(** A write request that could be built: the targets passed the range
    checks and both register values are 16-bit words. *)
Lemma write_request_ok (self : t) (st : Status.t)
    (voltage current : option float)
    (power_on ocp_enable keyboard_lock : option bool) (command : bytes) :
  write_request self st voltage current power_on ocp_enable keyboard_lock
    = Ok command ->
  let target_voltage := if_not_none voltage (Status.set_voltage st) in
  let target_current := if_not_none current (Status.set_current st) in
  PyFloat.gt target_voltage (max_voltage self) = false /\
  PyFloat.gt target_current (max_current self) = false /\
  PyFloat.lt target_voltage (PyFloat.of_int 0) = false /\
  PyFloat.lt target_current (PyFloat.of_int 0) = false /\
  exists voltage_raw current_raw,
    PyFloat.int (PyFloat.mul target_voltage
      (PyFloat.of_int (10 ^ Z.of_nat (voltage_decimal_places self))))
      = Ok voltage_raw /\
    PyFloat.int (PyFloat.mul target_current
      (PyFloat.of_int (10 ^ Z.of_nat (current_decimal_places self))))
      = Ok current_raw /\
    0 <= voltage_raw <= 65535 /\ 0 <= current_raw <= 65535 /\
    build_write_command self
      (build_control_byte
         (if_not_none power_on (Status.power_on st))
         (if_not_none ocp_enable (Status.ocp_enabled st))
         (if_not_none keyboard_lock (Status.keyboard_locked st)))
      voltage_raw current_raw = Ok command.
Proof.
  unfold write_request. cbv zeta.
  destruct (validate_ranges _ _ _) as [[]|e] eqn:Ev; [|discriminate].
  destruct (validate_ranges_ok _ _ _ Ev) as (H1 & H2 & H3 & H4).
  destruct (PyFloat.int _) as [vr|e] eqn:Evr; [|discriminate].
  destruct (PyFloat.int (PyFloat.mul (if_not_none current _) _))
    as [cr|e] eqn:Ecr; [|discriminate].
  intros Hb. repeat split; try assumption.
  exists vr, cr. split; [reflexivity|]. split; [reflexivity|].
  destruct (build_write_command_layout _ _ _ _ _ Hb)
    as (a & k & vw & cw & _ & _ & Hvw & Hcw & _).
  apply pack_word_range in Hvw. apply pack_word_range in Hcw. auto.
Qed.

(** X8. When [set_output] returns, with [True] or with [False], the status
    read succeeded, both effective targets passed the range checks
    (neither above its maximum nor below zero), and exactly two frames
    were written: the status request (function code 0x03) and then one
    write request (function code 0x10). *)
Theorem set_output_returned (self s2 : t) (b : bool)
    (voltage current : option float)
    (power_on ocp_enable keyboard_lock : option bool) :
  set_output voltage current power_on ocp_enable keyboard_lock self = (Ok b, s2) ->
  exists st s1 request write,
    read_status self = (Ok st, s1) /\
    PyFloat.gt (if_not_none voltage (Status.set_voltage st)) (max_voltage self) = false /\
    PyFloat.gt (if_not_none current (Status.set_current st)) (max_current self) = false /\
    PyFloat.lt (if_not_none voltage (Status.set_voltage st)) (PyFloat.of_int 0) = false /\
    PyFloat.lt (if_not_none current (Status.set_current st)) (PyFloat.of_int 0) = false /\
    frames_written s2 = (frames_written self ++ [request; write])%list /\
    function_code request = 0x03 /\
    function_code write = 0x10.
Proof.
  rewrite set_output_phases.
  destruct (read_status self) as [[st|e] s1] eqn:Hread; [|discriminate].
  destruct (write_request s1 st _ _ _ _ _) as [cmd|e] eqn:Hreq; [|discriminate].
  intros Hsend.
  destruct (read_status_effect _ _ _ Hread) as (Hmv & Hmc & request & Hw & Hf).
  destruct (write_request_ok _ _ _ _ _ _ _ _ Hreq)
    as (H1 & H2 & H3 & H4 & vr & cr & _ & _ & _ & _ & Hb).
  rewrite Hmv in H1. rewrite Hmc in H2.
  destruct (build_write_command_layout _ _ _ _ _ Hb)
    as (a & k & vw & cw & _ & _ & _ & _ & Hcmd).
  destruct (read_status_ok _ _ _ Hread) as (p & rq & lo & hi & Hs & Hc & _ & Es1).
  assert (Hc1 : not_connected s1 = false).
  { destruct (not_connected_false self Hc) as (p0 & Hs0 & Hcon & Hopen).
    rewrite Hs in Hs0. inversion Hs0; subst p0.
    subst s1. unfold not_connected. simpl. rewrite Hcon, Hopen. reflexivity. }
  destruct (not_connected_false s1 Hc1) as (p1 & Hs1 & _ & _).
  destruct (send_command_connected s1 p1 cmd Hs1 Hc1) as (lo1 & hi1 & _ & _ & E).
  cbv zeta in E.
  exists st, s1, request, (cmd ++ [lo1; hi1])%list.
  assert (Hs2 : frames_written s2 = (frames_written s1 ++ [cmd ++ [lo1; hi1]])%list).
  { rewrite E in Hsend.
    assert (Es2 : s2 = with_serial (snd (exchange (cmd ++ [lo1; hi1]) p1)) s1).
    { destruct (if (length (received p1) <? 3)%nat then _ else _);
        inversion Hsend; reflexivity. }
    rewrite Es2. unfold frames_written at 2. rewrite Hs1. reflexivity. }
  repeat split; try assumption.
  - rewrite Hs2, Hw, <- app_assoc. reflexivity.
  - rewrite Hcmd. reflexivity.
Qed.

Lemma set_output_returned_witness :
  exists st s1 request write,
    read_status (Bench.session [[Bench.idle_status]; [Bench.write_ack]])
      = (Ok st, s1) /\
    PyFloat.gt (if_not_none (Some Bench.five_volts) (Status.set_voltage st))
      (max_voltage (Bench.session [[Bench.idle_status]; [Bench.write_ack]])) = false /\
    PyFloat.gt (if_not_none None (Status.set_current st))
      (max_current (Bench.session [[Bench.idle_status]; [Bench.write_ack]])) = false /\
    PyFloat.lt (if_not_none (Some Bench.five_volts) (Status.set_voltage st))
      (PyFloat.of_int 0) = false /\
    PyFloat.lt (if_not_none None (Status.set_current st)) (PyFloat.of_int 0) = false /\
    frames_written
      (snd (set_output (Some Bench.five_volts) None None None None
              (Bench.session [[Bench.idle_status]; [Bench.write_ack]])))
    = (frames_written (Bench.session [[Bench.idle_status]; [Bench.write_ack]])
       ++ [request; write])%list /\
    function_code request = 0x03 /\
    function_code write = 0x10.
Proof.
  apply (set_output_returned
           (Bench.session [[Bench.idle_status]; [Bench.write_ack]])
           (snd (set_output (Some Bench.five_volts) None None None None
                   (Bench.session [[Bench.idle_status]; [Bench.write_ack]])))
           true (Some Bench.five_volts) None None None None).
  vm_compute. reflexivity.
Defined.

(** ** Flags written back *)

Lemma control_byte_of_flags (b : byte) :
  build_control_byte (flag (byte_val b) 0x01) (flag (byte_val b) 0x02)
                     (flag (byte_val b) 0x04)
  = Z.land (byte_val b) 7.
Proof. destruct b; reflexivity. Qed.

Lemma item_slice_3 (response : bytes) :
  (4 <= length response)%nat ->
  item (slice 3 19 response) 0 = byte_val (nth 3 response x00).
Proof.
  intros H. destruct response as [|r0 [|r1 [|r2 [|r3 rest]]]];
    simpl in H; try lia. reflexivity.
Qed.

(** X9. When [set_output] is called without [power_on], [ocp_enable] and
    [keyboard_lock], the control byte of the write request it builds is the
    low three bits of the flags byte of the status response just read:
    power, OCP and keyboard lock are written back as they were, and the
    read-only flag bits are not copied. *)
Theorem omitted_flags_written_back (self s1 : t) (st : Status.t)
    (voltage current : option float) (command : bytes) :
  read_status self = (Ok st, s1) ->
  write_request s1 st voltage current None None None = Ok command ->
  exists p,
    serial self = Some p /\
    byte_val (nth 7 command x00) = Z.land (byte_val (nth 3 (received p) x00)) 7.
Proof.
  intros Hread Hreq.
  destruct (read_status_snapshot _ _ _ Hread)
    as (p & Hs & _ & Hlen & _ & Hpow & Hocp & Hlock & _).
  exists p. split; [assumption|].
  destruct (write_request_ok _ _ _ _ _ _ _ _ Hreq)
    as (_ & _ & _ & _ & vr & cr & _ & _ & _ & _ & Hb).
  destruct (build_write_command_layout _ _ _ _ _ Hb)
    as (a & k & vw & cw & _ & Hk & _ & _ & Hcmd).
  rewrite Hcmd. simpl nth. rewrite Hk. simpl if_not_none.
  rewrite Hpow, Hocp, Hlock, item_slice_3 by lia.
  apply control_byte_of_flags.
Qed.

Lemma omitted_flags_written_back_witness :
  exists p,
    serial (Bench.session [[Bench.panel_status]]) = Some p /\
    byte_val
      (nth 7
         (match write_request
                  (snd (read_status (Bench.session [[Bench.panel_status]])))
                  (match fst (read_status (Bench.session [[Bench.panel_status]]))
                   with Ok st => st | Raise _ => Bench.no_status end)
                  (Some Bench.five_volts) None None None None
          with Ok command => command | Raise _ => [] end) x00)
    = Z.land (byte_val (nth 3 (received p) x00)) 7.
Proof.
  apply (omitted_flags_written_back
           (Bench.session [[Bench.panel_status]])
           (snd (read_status (Bench.session [[Bench.panel_status]])))
           (match fst (read_status (Bench.session [[Bench.panel_status]]))
            with Ok st => st | Raise _ => Bench.no_status end)
           (Some Bench.five_volts) None).
  - vm_compute. reflexivity.
  - vm_compute. reflexivity.
Defined.

(* ================================================================== *)
(** * Connecting, detecting, reconnecting *)
(* ================================================================== *)

(** X10. [_connect] probes the link through [_send_command], which raises
    unless [connected] is already set, and [connected] is set only after
    the probe: on an object that is not connected, [_connect] returns
    [False] and leaves it not connected, whatever the port answers. *)
Theorem connect_fails_when_not_connected (self : t)
    (opened : result serial_port) :
  connected self = false ->
  fst (_connect opened self) = Ok false /\
  connected (snd (_connect opened self)) = false.
Proof. apply connect_needs_connected. Qed.

Lemma connect_fails_when_not_connected_witness :
  fst (_connect (Ok (Bench.link [[Bench.idle_status]])) (fresh 0)) = Ok false /\
  connected (snd (_connect (Ok (Bench.link [[Bench.idle_status]])) (fresh 0)))
  = false.
Proof.
  apply (connect_fails_when_not_connected (fresh 0)). reflexivity.
Defined.

Lemma try_baudrates_not_connected (open : opener) (port : string)
    (baudrates : list Z) (self : t) :
  connected self = false ->
  fst (try_baudrates open port baudrates self) = false /\
  connected (snd (try_baudrates open port baudrates self)) = false.
Proof.
  revert self. induction baudrates as [|b later IH]; intros self Hc; simpl.
  - auto.
  - destruct (connect_needs_connected self (open port b) Hc) as [Hf Hs].
    destruct (_connect (open port b) self) as [r s']. simpl in Hf, Hs. subst r.
    apply IH. assumption.
Qed.

Lemma try_ports_not_connected (open : opener) (ports : list string)
    (baudrates : list Z) (self : t) :
  connected self = false ->
  fst (try_ports open ports baudrates self) = false /\
  connected (snd (try_ports open ports baudrates self)) = false.
Proof.
  revert self. induction ports as [|port later IH]; intros self Hc; simpl.
  - auto.
  - destruct (try_baudrates_not_connected open port baudrates self Hc) as [Hf Hs].
    destruct (try_baudrates open port baudrates self) as [r s'].
    simpl in Hf, Hs. subst r. apply IH. assumption.
Qed.

(** X11. The constructor never yields a connected object. With
    [auto_detect] it ends with the could-not-auto-detect exception,
    whatever ports exist and whatever they answer; without it, it raises
    the port-required error when no port is given and otherwise returns an
    object whose [connected] flag is not set. *)
Theorem init_never_connected (port : option string) (slave_addr : Z)
    (baudrate : option Z) (auto_detect : bool)
    (found : list string) (open : opener) :
  match __init__ port slave_addr baudrate auto_detect found open with
  | Constructed self => auto_detect = false /\ connected self = false
  | CouldNotAutoDetect => auto_detect = true
  | PortRequired => auto_detect = false /\ port = None
  end.
Proof.
  unfold __init__. destruct auto_detect.
  - unfold _auto_connect.
    destruct (try_ports_not_connected open (ports_to_try port found)
                (baudrates_to_try baudrate) (fresh slave_addr) eq_refl) as [Hf _].
    destruct (try_ports _ _ _ _) as [r s']. simpl in Hf. subst r. reflexivity.
  - destruct port as [p|]; [|auto].
    split; [reflexivity|].
    apply connect_needs_connected. reflexivity.
Qed.

(** X12. After [close()], [reconnect()] returns [False] and the object
    stays not connected: a closed session cannot be reopened. *)
Theorem reconnect_after_close_fails (self : t) (open : opener) :
  fst (reconnect open (snd (close self))) = Ok false /\
  connected (snd (reconnect open (snd (close self)))) = false.
Proof.
  assert (Hc : connected (snd (close self)) = false).
  { unfold close, bind, close_serial, set_connected.
    destruct (serial self); reflexivity. }
  unfold reconnect. destruct (serial (snd (close self))).
  - apply connect_needs_connected. assumption.
  - auto.
Qed.

Lemma ok_injective {A : Type} (a b : A) : Ok a = Ok b -> a = b.
Proof. intros H. congruence. Qed.

Lemma unpack_word_range (endian : bool) (data : bytes) (v : Z) :
  _unpack_word endian data = Ok v -> 0 <= v <= 65535.
Proof.
  unfold _unpack_word, unpack_le_H, unpack_be_H.
  destruct endian; destruct data as [|b1 [|b2 [|b3 rest]]]; try discriminate;
    intros H; apply ok_injective in H; rewrite <- H, word_value;
    [destruct (word_parts b1 b2) as [Hr _] | destruct (word_parts b2 b1) as [Hr _]];
    exact Hr.
Qed.

(** The series code of a configuration byte and the nominal values the
    two tables give for it. *)
Lemma series_of_info (b : byte) :
  let series := Z.land (byte_val b) 0x0F in
  0 <= series <= 15 /\
  (series <= 8 -> 15 <= dict_get VOLTAGE_RANGES series 0 <= 300) /\
  (8 < series -> dict_get VOLTAGE_RANGES series 0 = 0) /\
  (series <= 13 -> 1 <= dict_get CURRENT_RANGES series 0 <= 200) /\
  (13 < series -> dict_get CURRENT_RANGES series 0 = 0).
Proof.
  destruct b; vm_compute; repeat split; intros; congruence.
Qed.

(** X13. A successful [_detect_device_specs] leaves a profile with one or
    two decimal places for each quantity, series codes between 0 and 15
    and nominal values looked up in the two range tables, where a code
    beyond the table (voltage 9..15, current 14, 15) gives the nominal
    value 0; the maxima are 16-bit words divided by ten to the decimal
    places; address and [connected] flag are untouched. *)
Theorem detect_device_specs_profile (self s1 : t) :
  _detect_device_specs self = (Ok tt, s1) ->
  (voltage_decimal_places s1 = 1%nat \/ voltage_decimal_places s1 = 2%nat) /\
  (current_decimal_places s1 = 1%nat \/ current_decimal_places s1 = 2%nat) /\
  0 <= voltage_series s1 <= 15 /\ 0 <= current_series s1 <= 15 /\
  nominal_voltage s1 = dict_get VOLTAGE_RANGES (voltage_series s1) 0 /\
  nominal_current s1 = dict_get CURRENT_RANGES (current_series s1) 0 /\
  (voltage_series s1 <= 8 -> 15 <= nominal_voltage s1 <= 300) /\
  (8 < voltage_series s1 -> nominal_voltage s1 = 0) /\
  (current_series s1 <= 13 -> 1 <= nominal_current s1 <= 200) /\
  (13 < current_series s1 -> nominal_current s1 = 0) /\
  (exists wv wc,
     0 <= wv <= 65535 /\ 0 <= wc <= 65535 /\
     max_voltage s1
       = PyFloat.true_div wv (10 ^ Z.of_nat (voltage_decimal_places s1)) /\
     max_current s1
       = PyFloat.true_div wc (10 ^ Z.of_nat (current_decimal_places s1))) /\
  slave_addr s1 = slave_addr self /\
  connected s1 = connected self.
Proof.
  unfold _detect_device_specs. unfold bind at 1.
  destruct (_read_raw_status self) as [[status|e] s0] eqn:Eraw; [|discriminate].
  pose proof (f_equal profile (f_equal snd Eraw)) as Hprof.
  simpl snd in Hprof. rewrite read_raw_status_profile in Hprof.
  unfold bind, get, lift, put. cbv beta iota.
  destruct (_unpack_word _ (slice 12 14 _)) as [wv|] eqn:Ev; [|discriminate].
  destruct (_unpack_word _ (slice 14 16 _)) as [wc|] eqn:Ec; [|discriminate].
  intros H. inversion H; subst s1. clear H. cbn [voltage_decimal_places
    current_decimal_places voltage_series current_series nominal_voltage
    nominal_current max_voltage max_current slave_addr connected].
  unfold item.
  pose proof (series_of_info (nth 1 (slice 3 19 status) x00)) as Hv.
  pose proof (series_of_info (nth 2 (slice 3 19 status) x00)) as Hc.
  cbv zeta in Hv, Hc.
  destruct Hv as (Hv1 & Hv2 & Hv3 & _ & _).
  destruct Hc as (Hc1 & _ & _ & Hc4 & Hc5).
  apply unpack_word_range in Ev. apply unpack_word_range in Ec.
  unfold profile in Hprof. inversion Hprof.
  repeat match goal with |- _ /\ _ => split end;
    try assumption; try reflexivity;
    try (destruct (truthy _); auto; fail); try lia; try congruence.
  exists wv, wc. repeat split; try lia; reflexivity.
Qed.

Lemma detect_device_specs_profile_witness :
  let s1 := snd (_detect_device_specs (Bench.session [[Bench.panel_status]])) in
  (voltage_decimal_places s1 = 1%nat \/ voltage_decimal_places s1 = 2%nat) /\
  (current_decimal_places s1 = 1%nat \/ current_decimal_places s1 = 2%nat) /\
  0 <= voltage_series s1 <= 15 /\ 0 <= current_series s1 <= 15 /\
  nominal_voltage s1 = dict_get VOLTAGE_RANGES (voltage_series s1) 0 /\
  nominal_current s1 = dict_get CURRENT_RANGES (current_series s1) 0 /\
  (voltage_series s1 <= 8 -> 15 <= nominal_voltage s1 <= 300) /\
  (8 < voltage_series s1 -> nominal_voltage s1 = 0) /\
  (current_series s1 <= 13 -> 1 <= nominal_current s1 <= 200) /\
  (13 < current_series s1 -> nominal_current s1 = 0) /\
  (exists wv wc,
     0 <= wv <= 65535 /\ 0 <= wc <= 65535 /\
     max_voltage s1
       = PyFloat.true_div wv (10 ^ Z.of_nat (voltage_decimal_places s1)) /\
     max_current s1
       = PyFloat.true_div wc (10 ^ Z.of_nat (current_decimal_places s1))) /\
  slave_addr s1 = slave_addr (Bench.session [[Bench.panel_status]]) /\
  connected s1 = connected (Bench.session [[Bench.panel_status]]).
Proof.
  intros s1.
  apply (detect_device_specs_profile (Bench.session [[Bench.panel_status]]) s1).
  vm_compute. reflexivity.
Defined.

(* ================================================================== *)
(** * Further properties of the command processor *)
(* ================================================================== *)

Section ProcessorProperties.

Import PyStr SCPICommandProcessor.
Local Open Scope string_scope.

Variable float_of_str : string -> result float.
Variable format_3f : float -> string.
Variable str_exn : exn -> string.

Lemma process_single_command_returns (command : string)
    (self : SCPICommandProcessor.t) :
  exists reply,
    fst (_process_single_command float_of_str format_3f str_exn command self)
    = Ok reply.
Proof.
  unfold _process_single_command, try_except.
  match goal with
  | |- context [match ?c self with _ => _ end] => destruct (c self) as [[r|e] s']
  end; simpl; eauto.
Qed.

Lemma process_each_returns (cmds responses : list string)
    (self : SCPICommandProcessor.t) :
  exists replies,
    fst (process_each float_of_str format_3f str_exn cmds responses self)
    = Ok replies.
Proof.
  revert responses self. induction cmds as [|cmd later IH]; intros responses self.
  - simpl. eauto.
  - simpl. destruct (String.eqb (strip cmd) EmptyString); [apply IH|].
    unfold bind.
    destruct (process_single_command_returns (strip cmd) self) as (reply & Hr).
    destruct (_process_single_command _ _ _ (strip cmd) self) as [r s'].
    simpl in Hr. subst r. apply IH.
Qed.

Lemma process_command_returns (command_line : string)
    (self : SCPICommandProcessor.t) :
  exists reply self',
    process_command float_of_str format_3f str_exn command_line self
    = (Ok reply, self').
Proof.
  unfold process_command.
  destruct (String.eqb (strip command_line) EmptyString);
    [unfold ret; eauto|].
  unfold bind.
  destruct (process_each_returns (split ";" (strip command_line)) [] self)
    as (replies & Hr).
  destruct (process_each _ _ _ _ [] self) as [r s']. simpl in Hr. subst r.
  unfold ret. eauto.
Qed.

(** X14. [process_command] never raises: whatever the line, the state of
    the processor and the behaviour of the device, it returns a reply
    text. *)
Theorem process_command_never_raises (command_line : string)
    (self : SCPICommandProcessor.t) :
  exists reply,
    fst (process_command float_of_str format_3f str_exn command_line self)
    = Ok reply.
Proof.
  unfold process_command.
  destruct (String.eqb (strip command_line) EmptyString); [simpl; eauto|].
  unfold bind.
  destruct (process_each_returns (split ";" (strip command_line)) [] self)
    as (replies & Hr).
  destruct (process_each _ _ _ _ [] self) as [r s']. simpl in Hr. subst r.
  simpl. eauto.
Qed.

End ProcessorProperties.

(** ** Which commands can be dispatched *)

Section Dispatch.

Import PyStr SCPICommandProcessor.
Local Open Scope string_scope.

Lemma append_assoc (a b c : string) : (a ++ b) ++ c = a ++ (b ++ c).
Proof. induction a as [|x a IH]; simpl; [reflexivity | rewrite IH; reflexivity]. Qed.

Lemma append_nil_r (a : string) : a ++ EmptyString = a.
Proof. induction a as [|x a IH]; simpl; [reflexivity | rewrite IH; reflexivity]. Qed.

Lemma lower_not_space (c : ascii) :
  is_lower c = true -> Ascii.eqb c " " = false.
Proof.
  destruct c as [[] [] [] [] [] [] [] []]; vm_compute; congruence.
Qed.

Lemma upper_char_not_lower (c : ascii) : is_lower (upper_char c) = false.
Proof. destruct c as [[] [] [] [] [] [] [] []]; reflexivity. Qed.

Lemma upper_none_lower (s : string) : none_of is_lower (upper s) = true.
Proof.
  induction s as [|c s IH]; simpl; [reflexivity|].
  rewrite upper_char_not_lower, IH. reflexivity.
Qed.

Lemma prefix_append_r (a u z : string) :
  String.prefix a u = true -> String.prefix a (u ++ z) = true.
Proof.
  revert u. induction a as [|c a IH]; intros u H.
  - destruct (u ++ z); reflexivity.
  - destruct u as [|d u]; [discriminate|].
    apply prefix_cons in H. destruct H as [-> H].
    change (String d u ++ z) with (String d (u ++ z)).
    apply prefix_cons. split; [reflexivity | apply IH; assumption].
Qed.

(** A text without lower-case letters that is followed by the end of a
    name cannot reach into the lower-case tail of an expansion. *)
Lemma name_misses_expansion (a : string) (t : ascii) (w u z : string) :
  none_of is_blank_char a = true -> is_lower t = true ->
  none_of is_lower u = true -> ends_name z = true ->
  u ++ z = a ++ String t w -> False.
Proof.
  intros Ha Ht. revert u. induction a as [|c a IH]; intros u Hu Hz Heq.
  - destruct u as [|x u]; simpl in Heq.
    + subst z. simpl in Hz. rewrite (lower_not_space t Ht) in Hz. discriminate.
    + inversion Heq; subst. simpl in Hu. rewrite Ht in Hu. discriminate.
  - simpl in Ha. apply andb_true_iff in Ha. destruct Ha as [Hc Ha].
    destruct u as [|x u]; simpl in Heq.
    + subst z. simpl in Hz. unfold is_blank_char in Hc. rewrite Hz in Hc.
      discriminate.
    + inversion Heq; subst. simpl in Hu. apply andb_true_iff in Hu.
      destruct Hu as [_ Hu]. eapply IH; eassumption.
Qed.

Lemma lower_before_space_split (f : string) :
  lower_before_space f = true ->
  exists a t w,
    f = a ++ String t w /\ none_of is_blank_char a = true /\ is_lower t = true.
Proof.
  induction f as [|c f IH]; simpl; [discriminate|].
  destruct (is_lower c) eqn:Hl.
  - intros _. exists EmptyString, c, f. auto.
  - simpl. intros H. apply andb_true_iff in H. destruct H as [Hb H].
    destruct (IH H) as (a & t & w & Hf & Ha & Ht).
    exists (String c a), t, w. simpl. rewrite Hb, Ha, Hf. auto.
Qed.

Lemma entry_mixed_case_facts (entry : string * string) :
  entry_mixed_case entry = true ->
  (1 <= String.length (fst entry))%nat /\
  exists a t w,
    snd entry = a ++ String t w /\
    none_of is_blank_char a = true /\ is_lower t = true.
Proof.
  unfold entry_mixed_case. destruct (fst entry) as [|c a]; [discriminate|].
  intros H. split; [simpl; lia|]. apply lower_before_space_split. assumption.
Qed.

(** One replacement step, read backwards: if the result starts with a name
    without lower-case letters, so did the text before the step, and the
    abbreviation does not occur in the name. *)
Lemma replace_keeps_name (entry : string * string) (x u z : string) :
  entry_mixed_case entry = true ->
  none_of is_lower u = true -> ends_name z = true ->
  replace (fst entry) (snd entry) x = u ++ z ->
  contains (fst entry) u = false /\
  exists z', x = u ++ z' /\ ends_name z' = true.
Proof.
  intros He. destruct (entry_mixed_case_facts entry He)
    as (Hne & a & t & w & Hfull & Hblank & Ht).
  rewrite (replace_is_replace_from _ _ Hne).
  revert u. induction x as [|c rest IH]; intros u Hu Hz Heq.
  - simpl in Heq. destruct u as [|y u]; [|discriminate]. simpl in Heq. subst z.
    split; [|exists EmptyString; auto].
    destruct (fst entry); [simpl in Hne; lia | reflexivity].
  - rewrite replace_from_cons in Heq.
    destruct (String.prefix (fst entry) (String c rest)) eqn:Hp.
    + exfalso. rewrite Hfull, append_assoc in Heq. simpl in Heq.
      symmetry in Heq. eapply name_misses_expansion; eassumption.
    + destruct u as [|y u]; simpl in Heq.
      * split; [destruct (fst entry); [simpl in Hne; lia | reflexivity]|].
        exists (String c rest). split; [reflexivity|].
        subst z. exact Hz.
      * inversion Heq as [[Hc Hrest]]. subst y.
        simpl in Hu. apply andb_true_iff in Hu. destruct Hu as [Hcl Hu].
        destruct (IH u Hu Hz Hrest) as (Hno & z' & Hx & Hz').
        split.
        -- rewrite contains_cons, Hno, orb_false_r.
           destruct (String.prefix (fst entry) (String c u)) eqn:Hpu; [|reflexivity].
           apply (prefix_append_r _ _ z') in Hpu.
           change (String c u ++ z') with (String c (u ++ z')) in Hpu.
           rewrite <- Hx, Hp in Hpu. discriminate.
        -- exists z'. split; [simpl; rewrite Hx; reflexivity | assumption].
Qed.

(** All the steps, read backwards. *)
Lemma expand_keeps_name (table : list (string * string)) (x u z : string) :
  forallb entry_mixed_case table = true ->
  none_of is_lower u = true -> ends_name z = true ->
  expand table x = u ++ z ->
  existsb (fun entry => contains (fst entry) u) table = false /\
  exists z', x = u ++ z' /\ ends_name z' = true.
Proof.
  revert x. induction table as [|entry table IH]; intros x Hok Hu Hz Heq.
  - simpl in Heq. split; [reflexivity | eauto].
  - simpl in Hok. apply andb_true_iff in Hok. destruct Hok as [He Hok].
    rewrite expand_cons in Heq.
    destruct (IH _ Hok Hu Hz Heq) as (Hlater & z1 & Hx1 & Hz1).
    destruct (replace_keeps_name entry x u z1 He Hu Hz1 Hx1) as (Hhere & z' & Hx & Hz').
    split; [simpl; rewrite Hhere, Hlater; reflexivity | eauto].
Qed.

Lemma abbreviations_mixed_case : forallb entry_mixed_case abbreviations = true.
Proof. reflexivity. Qed.

Lemma split1_some (sep : ascii) (s a b : string) :
  split1 sep s = Some (a, b) -> s = a ++ String sep b.
Proof.
  revert a. induction s as [|c s IH]; intros a H; simpl in H; [discriminate|].
  destruct (Ascii.eqb c sep) eqn:E.
  - apply Ascii.eqb_eq in E. inversion H; subst. reflexivity.
  - destruct (split1 sep s) as [[a' b']|]; [|discriminate].
    inversion H; subst. simpl. f_equal. apply IH. reflexivity.
Qed.

(** The name of a command that is upper-case only mentions no
    abbreviation. *)
Lemma upper_case_name_plain (command : string) :
  none_of is_lower (command_name command) = true ->
  mentions_abbreviation (command_name command) = false.
Proof.
  unfold command_name, mentions_abbreviation, _normalize_command.
  destruct (split1 " " (expand abbreviations (upper command)))
    as [[name param]|] eqn:Es; intros Hu.
  - apply split1_some in Es.
    destruct (expand_keeps_name abbreviations (upper command) name
                (String " " param) abbreviations_mixed_case Hu eq_refl Es)
      as [H _]. exact H.
  - destruct (expand_keeps_name abbreviations (upper command)
                (expand abbreviations (upper command)) EmptyString
                abbreviations_mixed_case Hu eq_refl
                (eq_sym (append_nil_r _))) as [H _]. exact H.
Qed.

Variable float_of_str : string -> result float.
Variable format_3f : float -> string.
Variable str_exn : exn -> string.

Lemma find_handler_some (name : string) (table : list (string * handler))
    (h : handler) :
  find_handler name table = Some h ->
  exists pattern, In pattern (map fst table) /\ name = upper pattern.
Proof.
  induction table as [|[pattern h'] table IH]; simpl; [discriminate|].
  unfold _match_command. destruct (String.eqb name (upper pattern)) eqn:E.
  - intros _. apply String.eqb_eq in E. eauto.
  - intros H. destruct (IH H) as (q & Hin & Hq). eauto.
Qed.

(** Every pattern of the command table mentions an abbreviation once it is
    upper-cased, except three. *)
Lemma patterns_mention_abbreviation :
  forallb (fun pattern =>
             mentions_abbreviation (upper pattern)
             || String.eqb (upper pattern) "*IDN?"
             || String.eqb (upper pattern) "*RST"
             || String.eqb (upper pattern) "*TST?")
          (map fst (commands float_of_str format_3f str_exn)) = true.
Proof. reflexivity. Qed.

(** X15. Of the 28 entries of the command table only [*IDN?], [*RST] and
    [*TST?] can be reached. For every command text, either its normalized
    name is one of these three, or [_process_single_command] answers with
    the unknown-command error and leaves the processor, and with it the
    device, untouched. *)
Theorem only_three_commands_dispatch (command : string)
    (self : SCPICommandProcessor.t) :
  command_name command = "*IDN?" \/
  command_name command = "*RST" \/
  command_name command = "*TST?" \/
  _process_single_command float_of_str format_3f str_exn command self
  = (Ok "ERROR: Unknown command", self).
Proof.
  destruct (find_handler (command_name command)
              (commands float_of_str format_3f str_exn)) as [h|] eqn:Ef.
  - destruct (find_handler_some _ _ _ Ef) as (pattern & Hin & Hname).
    pose proof (upper_case_name_plain command) as Hplain.
    rewrite Hname in Hplain. specialize (Hplain (upper_none_lower pattern)).
    pose proof patterns_mention_abbreviation as Hall.
    rewrite forallb_forall in Hall. specialize (Hall pattern Hin).
    rewrite Hplain in Hall. simpl in Hall.
    rewrite Hname.
    destruct (String.eqb (upper pattern) "*IDN?") eqn:E1;
      [apply String.eqb_eq in E1; auto|].
    destruct (String.eqb (upper pattern) "*RST") eqn:E2;
      [apply String.eqb_eq in E2; auto|].
    destruct (String.eqb (upper pattern) "*TST?") eqn:E3;
      [apply String.eqb_eq in E3; auto|].
    discriminate.
  - right. right. right.
    unfold command_name in Ef.
    unfold _process_single_command, try_except. cbv zeta.
    destruct (split1 " " (_normalize_command command)) as [[name param]|];
      rewrite Ef; reflexivity.
Qed.

End Dispatch.

(** ** The handlers and the device *)

Section HandlerProperties.

Import PyStr SCPICommandProcessor.
Local Open Scope string_scope.

Variable float_of_str : string -> result float.
Variable format_3f : float -> string.
Variable str_exn : exn -> string.

(** X16. The voltage handler ignores the result of the device call: when
    the value parses, the status read succeeds and the write request is
    built, it answers [OK] even if the write exchange raises (timeout,
    checksum error) and [set_voltage] of the device object so returns
    [False]. *)
Theorem set_voltage_replies_ok_on_failed_write
    (self : SCPICommandProcessor.t) (value : string) (x : float)
    (st : Status.t) (s1 s2 : WanptekPowerSupply.t)
    (command : WanptekPowerSupply.bytes) (e : exn) :
  float_of_str value = Ok x ->
  WanptekPowerSupply.read_status (psu self) = (Ok st, s1) ->
  WanptekPowerSupply.write_request s1 st (Some x) None None None None
    = Ok command ->
  WanptekPowerSupply._send_command command s1 = (Raise e, s2) ->
  SCPICommandProcessor.set_voltage float_of_str str_exn (Some value) self
  = (Ok "OK", {| psu := s2; output_state := output_state self |}).
Proof.
  intros Hparse Hread Hreq Hsend.
  unfold SCPICommandProcessor.set_voltage, try_except, bind, lift, on_psu.
  rewrite Hparse. unfold WanptekPowerSupply.set_voltage.
  rewrite set_output_phases, Hread, Hreq, Hsend. reflexivity.
Qed.

(** X17. The output handler likewise: for [ON] or [1] in any letter case
    it answers [OK] and sets its [output_state] mirror to [True] even when
    the write exchange of [power_on()] fails. *)
Theorem set_output_state_on_failed_write
    (self : SCPICommandProcessor.t) (state : string)
    (st : Status.t) (s1 s2 : WanptekPowerSupply.t)
    (command : WanptekPowerSupply.bytes) (e : exn) :
  is_on state = true ->
  WanptekPowerSupply.read_status (psu self) = (Ok st, s1) ->
  WanptekPowerSupply.write_request s1 st None None (Some true) None None
    = Ok command ->
  WanptekPowerSupply._send_command command s1 = (Raise e, s2) ->
  set_output_state str_exn (Some state) self
  = (Ok "OK", {| psu := s2; output_state := true |}).
Proof.
  intros Hon Hread Hreq Hsend.
  unfold set_output_state, try_except, bind, on_psu, set_output_state_attr.
  rewrite Hon. unfold WanptekPowerSupply.power_on.
  rewrite set_output_phases, Hread, Hreq, Hsend. reflexivity.
Qed.

Lemma on_psu_read_status_disconnected (self : SCPICommandProcessor.t) :
  not_connected (psu self) = true ->
  0 <= slave_addr (psu self) <= 255 ->
  on_psu WanptekPowerSupply.read_status self = (Raise DeviceNotConnected, self).
Proof.
  intros Hn Ha. unfold on_psu.
  rewrite read_status_not_connected by assumption.
  destruct self. reflexivity.
Qed.

(** X18. With the device not connected, every handler that reads the
    status answers the bare text [ERROR] and changes nothing, except the
    operation-condition query, which answers [0] as if no condition were
    set; [*RST] answers [ERROR] as well. *)
Theorem handlers_on_disconnected_device (self : SCPICommandProcessor.t) :
  not_connected (psu self) = true ->
  0 <= slave_addr (psu self) <= 255 ->
  get_voltage_setting format_3f self = (Ok "ERROR", self) /\
  get_current_setting format_3f self = (Ok "ERROR", self) /\
  measure_voltage format_3f self = (Ok "ERROR", self) /\
  measure_current format_3f self = (Ok "ERROR", self) /\
  measure_power format_3f self = (Ok "ERROR", self) /\
  measure_all format_3f self = (Ok "ERROR", self) /\
  get_output_state self = (Ok "ERROR", self) /\
  get_ocp_state self = (Ok "ERROR", self) /\
  get_current_protection_tripped self = (Ok "ERROR", self) /\
  get_operation_condition self = (Ok "0", self) /\
  reset_device self = (Ok "ERROR", self).
Proof.
  intros Hn Ha.
  pose proof (on_psu_read_status_disconnected self Hn Ha) as Hread.
  assert (Hvia : forall A (k : Status.t -> M WanptekPowerSupply.t A),
             on_psu (bind WanptekPowerSupply.read_status k) self
             = (Raise DeviceNotConnected, self)).
  { intros A k. unfold on_psu, bind.
    rewrite read_status_not_connected by assumption.
    destruct self. reflexivity. }
  repeat match goal with |- _ /\ _ => split end.
  - unfold get_voltage_setting, try_except, bind. rewrite Hread. reflexivity.
  - unfold get_current_setting, try_except, bind. rewrite Hread. reflexivity.
  - unfold measure_voltage, try_except, bind, read_voltage.
    rewrite Hvia. reflexivity.
  - unfold measure_current, try_except, bind, read_current.
    rewrite Hvia. reflexivity.
  - unfold measure_power, try_except, bind, read_power.
    rewrite Hvia. reflexivity.
  - unfold measure_all, try_except, bind. rewrite Hread. reflexivity.
  - unfold get_output_state, try_except, bind, is_power_on.
    rewrite Hvia. reflexivity.
  - unfold get_ocp_state, try_except, bind. rewrite Hread. reflexivity.
  - unfold get_current_protection_tripped, try_except, bind.
    rewrite Hread. reflexivity.
  - unfold get_operation_condition, try_except, bind. rewrite Hread. reflexivity.
  - unfold reset_device, try_except, bind, on_psu.
    rewrite set_output_phases, read_status_not_connected by assumption.
    destruct self. reflexivity.
Qed.

End HandlerProperties.

Lemma set_voltage_replies_ok_on_failed_write_witness :
  fst (SCPICommandProcessor.set_voltage
         (fun _ => Ok Bench.five_volts) (fun _ => "error"%string)
         (Some "5.0"%string)
         {| SCPICommandProcessor.psu := Bench.session [[Bench.idle_status]; []];
            SCPICommandProcessor.output_state := false |})
  = Ok "OK"%string.
Proof.
  erewrite (set_voltage_replies_ok_on_failed_write
              (fun _ => Ok Bench.five_volts) (fun _ => "error"%string)
              {| SCPICommandProcessor.psu := Bench.session [[Bench.idle_status]; []];
                 SCPICommandProcessor.output_state := false |}
              "5.0" Bench.five_volts).
  - reflexivity.
  - reflexivity.
  - vm_compute. reflexivity.
  - vm_compute. reflexivity.
  - vm_compute. reflexivity.
Defined.

Lemma set_output_state_on_failed_write_witness :
  SCPICommandProcessor.output_state
    (snd (SCPICommandProcessor.set_output_state (fun _ => "error"%string)
            (Some "on"%string)
            {| SCPICommandProcessor.psu := Bench.session [[Bench.idle_status]; []];
               SCPICommandProcessor.output_state := false |}))
  = true.
Proof.
  erewrite (set_output_state_on_failed_write
              (fun _ => "error"%string)
              {| SCPICommandProcessor.psu := Bench.session [[Bench.idle_status]; []];
                 SCPICommandProcessor.output_state := false |}
              "on").
  - reflexivity.
  - reflexivity.
  - vm_compute. reflexivity.
  - vm_compute. reflexivity.
  - vm_compute. reflexivity.
Defined.

Lemma handlers_on_disconnected_device_witness :
  SCPICommandProcessor.get_voltage_setting (fun _ => "1.000"%string)
    {| SCPICommandProcessor.psu := fresh 0;
       SCPICommandProcessor.output_state := false |}
  = (Ok "ERROR"%string,
     {| SCPICommandProcessor.psu := fresh 0;
        SCPICommandProcessor.output_state := false |}).
Proof.
  apply (handlers_on_disconnected_device (fun _ => "1.000"%string)
           {| SCPICommandProcessor.psu := fresh 0;
              SCPICommandProcessor.output_state := false |}).
  - reflexivity.
  - simpl. lia.
Defined.

(** ** Lines without a command *)

Section BlankLines.

Import PyStr SCPICommandProcessor.
Local Open Scope string_scope.

Variable float_of_str : string -> result float.
Variable format_3f : float -> string.
Variable str_exn : exn -> string.

Lemma lstrip_only (test : ascii -> bool) (s : string) :
  only_chars test s = true -> only_chars test (lstrip s) = true.
Proof.
  induction s as [|c rest IH]; intros H; [reflexivity|].
  simpl. destruct (is_space c); [|exact H].
  simpl in H. apply andb_prop in H as [_ Hr]. exact (IH Hr).
Qed.

Lemma rstrip_only (test : ascii -> bool) (s : string) :
  only_chars test s = true -> only_chars test (rstrip s) = true.
Proof.
  induction s as [|c rest IH]; intros H; [reflexivity|].
  simpl in H. apply andb_prop in H as [Hc Hr]. specialize (IH Hr).
  simpl. destruct (rstrip rest) as [|k kept].
  - destruct (is_space c); [reflexivity|]. simpl. rewrite Hc. reflexivity.
  - change (test c && only_chars test (String k kept) = true).
    rewrite Hc, IH. reflexivity.
Qed.

Lemma strip_only (test : ascii -> bool) (s : string) :
  only_chars test s = true -> only_chars test (strip s) = true.
Proof. intros H. unfold strip. apply rstrip_only, lstrip_only, H. Qed.

Lemma strip_spaces (s : string) :
  only_chars is_space s = true -> strip s = EmptyString.
Proof.
  intros H. unfold strip.
  assert (E : lstrip s = EmptyString).
  { induction s as [|c rest IH]; [reflexivity|].
    simpl in H. apply andb_prop in H as [Hc Hr].
    simpl. rewrite Hc. exact (IH Hr). }
  rewrite E. reflexivity.
Qed.

Lemma split_filler (s : string) :
  only_chars is_filler s = true ->
  Forall (fun part => only_chars is_space part = true) (split ";" s).
Proof.
  induction s as [|c rest IH]; intros H.
  - simpl. constructor; [reflexivity|constructor].
  - simpl in H. apply andb_prop in H as [Hc Hr]. specialize (IH Hr).
    simpl. unfold is_filler in Hc.
    destruct (Ascii.eqb c ";").
    + constructor; [reflexivity|exact IH].
    + rewrite orb_false_r in Hc.
      destruct (split ";" rest) as [|first others].
      * constructor; [|constructor]. simpl. rewrite Hc. reflexivity.
      * inversion IH as [|? ? Hfirst Hothers]; subst.
        constructor; [|exact Hothers]. simpl. rewrite Hc. exact Hfirst.
Qed.

Lemma process_each_blank (cmds responses : list string)
    (self : SCPICommandProcessor.t) :
  Forall (fun part => only_chars is_space part = true) cmds ->
  process_each float_of_str format_3f str_exn cmds responses self
  = (Ok responses, self).
Proof.
  induction 1 as [|cmd later Hcmd _ IH]; [reflexivity|].
  simpl. rewrite (strip_spaces cmd Hcmd). exact IH.
Qed.

(** X19. A line made only of white space and semicolons runs no command:
    [process_command] returns the empty text and leaves the processor and
    the device as they were. *)
Theorem blank_line_runs_nothing (command_line : string)
    (self : SCPICommandProcessor.t) :
  only_chars is_filler command_line = true ->
  process_command float_of_str format_3f str_exn command_line self
  = (Ok EmptyString, self).
Proof.
  intros H. unfold process_command.
  destruct (String.eqb (strip command_line) EmptyString); [reflexivity|].
  unfold bind.
  rewrite process_each_blank
    by (apply split_filler, strip_only, H).
  reflexivity.
Qed.

End BlankLines.

Lemma blank_line_runs_nothing_witness :
  SCPICommandProcessor.process_command
    (fun s => Raise (FloatParse s)) (fun _ => "0.000"%string)
    (fun _ => "error"%string) " ; ;; "
    {| SCPICommandProcessor.psu := fresh 0;
       SCPICommandProcessor.output_state := false |}
  = (Ok EmptyString,
     {| SCPICommandProcessor.psu := fresh 0;
        SCPICommandProcessor.output_state := false |}).
Proof.
  apply (blank_line_runs_nothing
           (fun s => Raise (FloatParse s)) (fun _ => "0.000"%string)
           (fun _ => "error"%string) " ; ;; ").
  reflexivity.
Defined.

(* ================================================================== *)
(** * Properties of the client session *)
(* ================================================================== *)

Section SessionProperties.

Import PyStr SCPIServer.
Local Open Scope string_scope.

Variable process_command : string -> M SCPICommandProcessor.t string.

Lemma process_lines_never_closes (buffer pending : string)
    (processor : SCPICommandProcessor.t) :
  ~ In Close (sent (process_lines process_command buffer pending processor)).
Proof.
  revert pending processor.
  induction buffer as [|c rest IH]; intros pending processor; [intros []|].
  cbn [process_lines].
  destruct (Ascii.eqb c (ascii_of_nat 10)); [|apply IH].
  destruct (is_quit (strip pending)).
  { cbn [sent]. intros [H|[]]. discriminate. }
  destruct (negb (String.eqb (strip pending) EmptyString)); [|apply IH].
  destruct (process_command (strip pending) processor) as [[response|e] p'].
  - cbn [sent]. intros H. apply in_app_or in H as [H|H].
    + destruct (String.eqb response EmptyString); [destruct H|].
      destruct H as [H|[]]. discriminate.
    + exact (IH _ _ H).
  - intros [].
Qed.

Lemma session_loop_closes_last (events : list recv_event) (buffer : string)
    (processor : SCPICommandProcessor.t) :
  exists body,
    ~ In Close body /\
    (fst (session_loop process_command events buffer processor) = body \/
     fst (session_loop process_command events buffer processor)
     = (body ++ [Close])%list).
Proof.
  revert buffer processor.
  induction events as [|event later IH]; intros buffer processor.
  { exists []. split; [intros []|left; reflexivity]. }
  destruct event as [data| | | |];
    try (exists []; split; [intros []|right; reflexivity]);
    [|apply IH].
  cbn [session_loop].
  pose proof (process_lines_never_closes (buffer ++ data) EmptyString processor)
    as Hsent.
  destruct (process_lines process_command (buffer ++ data) EmptyString processor)
    as [snt left_ p' [|]]; cbn [sent buffer_left processor_left failed] in *.
  - exists snt. split; [exact Hsent|right; reflexivity].
  - destruct (IH left_ p') as (body & Hbody & Hshape).
    destruct (session_loop process_command later left_ p') as [actions p''].
    cbn [fst] in *.
    exists (snt ++ body)%list. split.
    + intros H. apply in_app_or in H as [H|H]; [exact (Hsent H)|exact (Hbody H)].
    + destruct Hshape as [->| ->]; [left; reflexivity|right; apply app_assoc].
Qed.

(** X20. In every session the greeting is sent first, and the socket is
    closed at most once, as the last action: nothing is sent after the
    close. *)
Theorem handle_client_closes_last (events : list recv_event)
    (processor : SCPICommandProcessor.t) :
  exists body,
    ~ In Close body /\
    (fst (_handle_client process_command events processor)
     = Send greeting :: body \/
     fst (_handle_client process_command events processor)
     = Send greeting :: (body ++ [Close])%list).
Proof.
  unfold _handle_client.
  destruct (session_loop_closes_last events EmptyString processor)
    as (body & Hbody & Hshape).
  destruct (session_loop process_command events EmptyString processor)
    as [actions p']. cbn [fst] in *.
  exists body. split; [exact Hbody|].
  destruct Hshape as [->| ->]; [left|right]; reflexivity.
Qed.

(** *** Fragmentation *)





(** *** A processor that never raises *)

Hypothesis returns :
  forall line processor, exists reply processor',
    process_command line processor = (Ok reply, processor').

Lemma process_lines_never_fails (buffer pending : string)
    (processor : SCPICommandProcessor.t) :
  failed (process_lines process_command buffer pending processor) = false.
Proof.
  revert pending processor.
  induction buffer as [|c rest IH]; intros pending processor; [reflexivity|].
  cbn [process_lines].
  destruct (Ascii.eqb c (ascii_of_nat 10)); [|apply IH].
  destruct (is_quit (strip pending)); [reflexivity|].
  destruct (negb (String.eqb (strip pending) EmptyString)); [|apply IH].
  destruct (returns (strip pending) processor) as (reply & p' & E).
  rewrite E. cbn [failed]. apply IH.
Qed.

Lemma session_loop_stays_open (events : list recv_event) (buffer : string)
    (processor : SCPICommandProcessor.t) :
  forallb from_client_text events = true ->
  ~ In Close (fst (session_loop process_command events buffer processor)).
Proof.
  revert buffer processor.
  induction events as [|event later IH]; intros buffer processor H;
    [intros []|].
  cbn [forallb] in H. apply andb_prop in H as [He Hl].
  destruct event as [data| | | |]; try discriminate; [|apply IH, Hl].
  cbn [session_loop].
  rewrite process_lines_never_fails.
  pose proof (process_lines_never_closes (buffer ++ data) EmptyString processor)
    as Hsent.
  specialize (IH (buffer_left (process_lines process_command (buffer ++ data)
                                 EmptyString processor))
                 (processor_left (process_lines process_command (buffer ++ data)
                                    EmptyString processor)) Hl).
  destruct (session_loop process_command later _ _) as [actions p'].
  cbn [fst] in *. intros Hin.
  apply in_app_or in Hin as [Hin|Hin]; [exact (Hsent Hin)|exact (IH Hin)].
Qed.

End SessionProperties.

Section SessionOfProcessor.

Import PyStr SCPIServer.
Local Open Scope string_scope.

Variable float_of_str : string -> result float.
Variable format_3f : float -> string.
Variable str_exn : exn -> string.

(** X22. No text a client sends makes the server close the connection:
    as long as every pass of the receive loop yields decoded text or a
    receive timeout, whatever the text ([QUIT] included) and however the
    device behaves, the socket is not closed. Only the peer going away, an
    exception of the receive (a decoding error included) or the server
    being stopped close it. *)
Theorem client_text_never_closes (events : list recv_event)
    (processor : SCPICommandProcessor.t) :
  forallb from_client_text events = true ->
  ~ In Close
      (fst (_handle_client
              (SCPICommandProcessor.process_command
                 float_of_str format_3f str_exn) events processor)).
Proof.
  intros H. unfold _handle_client.
  pose proof (session_loop_stays_open _
                (process_command_returns float_of_str format_3f str_exn)
                events EmptyString processor H) as Hopen.
  destruct (session_loop _ events EmptyString processor) as [actions p'].
  cbn [fst] in *. intros [Hin|Hin]; [discriminate|exact (Hopen Hin)].
Qed.

End SessionOfProcessor.


Lemma client_text_never_closes_witness :
  ~ In SCPIServer.Close
      (fst (SCPIServer._handle_client
              (SCPICommandProcessor.process_command
                 (fun s => Raise (FloatParse s)) (fun _ => "0.000"%string)
                 (fun _ => "error"%string))
              [SCPIServer.Data ("QUIT" ++ PyStr.nl); SCPIServer.SocketTimeout;
               SCPIServer.Data ("VOLT 5" ++ PyStr.nl)]
              {| SCPICommandProcessor.psu := fresh 0;
                 SCPICommandProcessor.output_state := false |})).
Proof.
  apply (client_text_never_closes
           (fun s => Raise (FloatParse s)) (fun _ => "0.000"%string)
           (fun _ => "error"%string)).
  reflexivity.
Defined.

(** With a [QUIT] line the cut does matter: the line that follows it in
    the same packet waits in the buffer, while in a packet of its own it
    is answered at once. *)
Example quit_line_fragmentation :
  let processor :=
    {| SCPICommandProcessor.psu := fresh 0;
       SCPICommandProcessor.output_state := false |} in
  fst (SCPIServer.session_loop (fun line => ret line)
         [SCPIServer.Data ("QUIT" ++ PyStr.nl ++ "A" ++ PyStr.nl)]
         EmptyString processor)
  = [SCPIServer.Send SCPIServer.farewell] /\
  fst (SCPIServer.session_loop (fun line => ret line)
         [SCPIServer.Data ("QUIT" ++ PyStr.nl);
          SCPIServer.Data ("A" ++ PyStr.nl)]
         EmptyString processor)
  = [SCPIServer.Send SCPIServer.farewell;
     SCPIServer.Send ("A" ++ PyStr.nl)].
Proof. split; reflexivity. Qed.
